(** * The NeurIPS paper scraper (scrapper.py): model and verified properties

    The harvesting pipeline of [scrapper.py] is embedded as state-passing
    functions over an explicit program state (the module globals, the file
    system, the log queue, and traces of the network requests and of the
    calls into the user interface).  Everything outside the program (the
    archive's answers, the HTML parser, the disk) is a field of a [world]
    record, so every theorem quantifies over it.  The functions come first
    as they run on their own; the module [Pool] then takes the scraping
    thread, the workers of its pool and the poll one statement at a time,
    in every order the statements can follow each other. *)

From Stdlib Require Import ZArith Permutation Ascii String.
From stdpp Require Import gmap strings list pretty.

Set Warnings "-register-all".
Local Open Scope Z_scope.

(** ** Python string operations used by the scraper *)

Module Py.

(** [str.isspace] on the ASCII range: TAB..CR, FS..US and the blank. *)
Definition is_space (c : ascii) : bool :=
  let n := nat_of_ascii c in
  ((9 <=? n)%nat && (n <=? 13)%nat) || ((28 <=? n)%nat && (n <=? 32)%nat).

Fixpoint lstrip (s : string) : string :=
  match s with
  | EmptyString => EmptyString
  | String c s' => if is_space c then lstrip s' else s
  end.

Fixpoint rstrip (s : string) : string :=
  match s with
  | EmptyString => EmptyString
  | String c s' =>
      match rstrip s' with
      | EmptyString => if is_space c then EmptyString else String c EmptyString
      | r => String c r
      end
  end.

(** [s.strip()] *)
Definition strip (s : string) : string := rstrip (lstrip s).

(** [sub in s] *)
Fixpoint contains (sub s : string) : bool :=
  String.prefix sub s ||
  match s with
  | EmptyString => false
  | String _ s' => contains sub s'
  end.

(** [s.endswith(suf)] *)
Fixpoint endswith (suf s : string) : bool :=
  String.eqb s suf ||
  match s with
  | EmptyString => false
  | String _ s' => endswith suf s'
  end.

(** [sep.join(l)] *)
Fixpoint join (sep : string) (l : list string) : string :=
  match l with
  | [] => EmptyString
  | [x] => x
  | x :: r => x +:+ sep +:+ join sep r
  end.

Definition slash : ascii := "/"%char.

(** [s.split("/")[-1]]: what follows the last slash, the whole string when
    there is none.  [cur] is the segment read so far. *)
Fixpoint last_segment_from (cur s : string) : string :=
  match s with
  | EmptyString => cur
  | String c s' =>
      if Ascii.eqb c slash then last_segment_from EmptyString s'
      else last_segment_from (cur +:+ String c EmptyString) s'
  end.

Definition last_segment (s : string) : string := last_segment_from EmptyString s.

(** [os.path.join(dir, name)] for a [name] without a slash and a [dir] that
    does not end in one (posixpath; the only shape the scraper passes). *)
Definition path_join (dir name : string) : string := dir +:+ "/" +:+ name.

(** The byte chunks [iter_content(chunk_size=size)] yields for a body: every
    chunk but the last has [size] bytes.  [room] is what the current chunk
    [cur] may still take. *)
Fixpoint chunks_from (size room : nat) (cur s : string) : list string :=
  match s with
  | EmptyString => match cur with EmptyString => [] | _ => [cur] end
  | String c s' =>
      match room with
      | O => cur :: chunks_from size (Nat.pred size) (String c EmptyString) s'
      | S room' => chunks_from size room' (cur +:+ String c EmptyString) s'
      end
  end.

Definition iter_content (chunk_size : nat) (body : string) : list string :=
  chunks_from chunk_size chunk_size EmptyString body.

(** The text of a list of written chunks. *)
Definition concat_str (l : list string) : string :=
  fold_right String.append EmptyString l.

End Py.

(** ** The parsed page (BeautifulSoup) and the four selectors *)

Module Soup.

Inductive node : Type :=
| Text (s : string)
| Tag (name : string) (attrs : gmap string string) (children : list node).

(** A BeautifulSoup document: the top-level nodes. *)
Definition document : Type := list node.

Definition name_is (nm : string) (n : node) : bool :=
  match n with
  | Text _ => false
  | Tag nm' _ _ => String.eqb nm' nm
  end.

(** [tag.get(key)] *)
Definition attr (key : string) (n : node) : option string :=
  match n with
  | Text _ => None
  | Tag _ at' _ => at' !! key
  end.

(** [tag[key]] on a tag the selector matched on that attribute. *)
Definition attr_or_empty (key : string) (n : node) : string :=
  default EmptyString (attr key n).

(** All tags and strings below a node, in document order. *)
Fixpoint descendants (n : node) : list node :=
  match n with
  | Text _ => []
  | Tag _ _ cs => flat_map (fun c => c :: descendants c) cs
  end.

Definition all_nodes (d : document) : list node :=
  flat_map (fun c => c :: descendants c) d.

(** [tag.text]: the strings below the tag, concatenated. *)
Fixpoint text (n : node) : string :=
  match n with
  | Text s => s
  | Tag _ _ cs => fold_right (fun c acc => text c +:+ acc) EmptyString cs
  end.

(** [a[href*='sub']] *)
Definition a_href_contains (sub : string) (n : node) : bool :=
  name_is "a" n &&
  match attr "href" n with
  | Some h => Py.contains sub h
  | None => false
  end.

(** [a[href$='suf']] *)
Definition a_href_endswith (suf : string) (n : node) : bool :=
  name_is "a" n &&
  match attr "href" n with
  | Some h => Py.endswith suf h
  | None => false
  end.

(** [soup.select(sel)] for a selector that looks at one tag only. *)
Definition select (matches : node -> bool) (d : document) : list node :=
  List.filter matches (all_nodes d).

(** [soup.select_one(sel)] *)
Definition select_one (matches : node -> bool) (d : document) : option node :=
  head (select matches d).

(** [tag.select("a")]: the anchors below a tag. *)
Definition select_a_below (n : node) : list node :=
  List.filter (name_is "a") (descendants n).

(** [h4 + p]: the [p] tags whose previous sibling tag (strings between
    siblings do not count) is an [h4], in document order.  [after_h4] says
    whether the last tag seen among the siblings so far is an [h4]. *)
Fixpoint adjacent_in (after_h4 : bool) (n : node) : list node :=
  match n with
  | Text _ => []
  | Tag nm _ cs =>
      (if after_h4 && String.eqb nm "p" then [n] else []) ++
      (fix siblings (prev : bool) (l : list node) : list node :=
         match l with
         | [] => []
         | c :: r =>
             adjacent_in prev c ++
             siblings (match c with Text _ => prev | Tag _ _ _ => name_is "h4" c end) r
         end) false cs
  end.

Fixpoint adjacent_siblings (prev : bool) (l : list node) : list node :=
  match l with
  | [] => []
  | c :: r =>
      adjacent_in prev c ++
      adjacent_siblings (match c with Text _ => prev | Tag _ _ _ => name_is "h4" c end) r
  end.

Definition select_h4_plus_p (d : document) : list node :=
  adjacent_siblings false d.

End Soup.

(** ** The csv module: one row of [csv.DictWriter] in the default dialect *)

Module Csv.

Definition dquote : ascii := ascii_of_nat 34.
Definition comma : ascii := ","%char.
Definition CR : ascii := ascii_of_nat 13.
Definition LF : ascii := ascii_of_nat 10.

(** QUOTE_MINIMAL: a field is quoted when it holds the delimiter, the quote
    character or a character of the line terminator. *)
Definition special (c : ascii) : bool :=
  Ascii.eqb c comma || Ascii.eqb c dquote || Ascii.eqb c CR || Ascii.eqb c LF.

Fixpoint needs_quotes (s : string) : bool :=
  match s with
  | EmptyString => false
  | String c s' => special c || needs_quotes s'
  end.

(** doublequote=True: a quote inside a quoted field is written twice. *)
Fixpoint double_quotes (s : string) : string :=
  match s with
  | EmptyString => EmptyString
  | String c s' =>
      if Ascii.eqb c dquote then String dquote (String dquote (double_quotes s'))
      else String c (double_quotes s')
  end.

Definition field (s : string) : string :=
  if needs_quotes s
  then String dquote (double_quotes s) +:+ String dquote EmptyString
  else s.

Definition lineterminator : string := String CR (String LF EmptyString).

(** [writer.writerow] on the values of a row, in field order. *)
Definition format_row (fields : list string) : string :=
  Py.join "," (map field fields) +:+ lineterminator.

Definition fieldnames : list string := ["title"; "authors"; "url"; "pdf_path"].

(** [writer.writeheader()] *)
Definition header : string := format_row fieldnames.

(** The lines of a file in this dialect: its line feeds. *)
Fixpoint line_count (s : string) : nat :=
  match s with
  | EmptyString => O
  | String c s' => (if Ascii.eqb c LF then 1 else 0)%nat + line_count s'
  end.

End Csv.

(** ** Constants of scrapper.py *)

Definition BASE_URL : string := "https://papers.nips.cc/paper_files/paper".
Definition SITE : string := "https://papers.nips.cc".
Definition OUTPUT_DIR : string := "D:/scraped-pdfs".
Definition METADATA_FILE : string := Py.path_join OUTPUT_DIR "metadata.csv".
Definition THREAD_COUNT : nat := 5.

(** ** What the program does not control *)

(** An HTTP answer.  [cut] is the number of body chunks that arrive before
    the connection breaks, [None] when the whole body arrives. *)
Record response : Type := {
  status_code : Z;
  body : string;
  cut : option nat
}.

Inductive http_result : Type :=
| Unreachable                 (* [requests.get] raises a RequestException *)
| Answer (r : response).

Record world : Type := {
  (** the answer to a GET, given how many requests were sent before it *)
  net : nat -> string -> http_result;
  (** [BeautifulSoup(text, "html.parser")]; [None] when the parser rejects
      the markup and raises *)
  html_parser : string -> option Soup.document;
  (** [open(path, mode)] raises OSError *)
  open_fails : string -> bool;
  (** the write of the chunk with this index to [path] raises OSError *)
  write_fails_at : string -> option nat
}.

(** ** Exceptions and the state of the program *)

Inductive exn : Type :=
| RequestException        (* requests.RequestException and its subclasses *)
| OSError
| ParserRejectedMarkup.   (* raised by bs4, not a RequestException *)

Inductive outcome (A : Type) : Type :=
| Ret (a : A)
| Raise (e : exn).
Arguments Ret {A} a.
Arguments Raise {A} e.

(** Lines put on [log_queue]. *)
Inductive log_line : Type :=
| NoPdfFound (paper_url : string)         (* No PDF found for: {paper_url} *)
| Downloading (pdf_name : string)         (* Downloading: {pdf_name} *)
| Saved (pdf_path : string)               (* Saved: {pdf_path} *)
| DownloadedOf (done total : Z)           (* Downloaded {done}/{total} papers *)
| ErrorDownloading (paper_url : string).  (* Error downloading {paper_url}: {e} *)

(** Records of the [logging] module. *)
Inductive log_record : Type :=
| InfoFetchingLinks (url : string)
| InfoFound (count : nat) (year : Z)
| ErrorFetchingLinks
| ErrorFetchingMetadata (paper_url : string).

(** Calls into the user interface. *)
Inductive ui_call : Type :=
| ShowError                    (* messagebox.showerror: invalid year range *)
| LogAreaCleared               (* log_area.delete(1.0, END) *)
| ProgressBarSet0              (* progress_bar.set(0) *)
| StartButtonDisabled
| StartButtonNormal            (* app.after(0, re-enable the button) *)
| UpdateScheduled              (* app.after(0, update_progress) *)
| ThreadStarted (start_year end_year : Z).

Record state : Type := {
  total_papers : Z;
  downloaded_papers : Z;
  is_scraping : bool;
  log_queue : list log_line;          (* oldest first *)
  logging : list log_record;          (* oldest first *)
  files : gmap string string;         (* path to content *)
  sent : list string;                 (* addresses requested, oldest first *)
  ui : list ui_call                   (* oldest first *)
}.

Definition set_total_papers (v : Z) (st : state) : state :=
  {| total_papers := v; downloaded_papers := downloaded_papers st;
     is_scraping := is_scraping st; log_queue := log_queue st;
     logging := logging st; files := files st; sent := sent st; ui := ui st |}.

Definition set_downloaded_papers (v : Z) (st : state) : state :=
  {| total_papers := total_papers st; downloaded_papers := v;
     is_scraping := is_scraping st; log_queue := log_queue st;
     logging := logging st; files := files st; sent := sent st; ui := ui st |}.

Definition set_is_scraping (v : bool) (st : state) : state :=
  {| total_papers := total_papers st; downloaded_papers := downloaded_papers st;
     is_scraping := v; log_queue := log_queue st;
     logging := logging st; files := files st; sent := sent st; ui := ui st |}.

Definition set_log_queue (v : list log_line) (st : state) : state :=
  {| total_papers := total_papers st; downloaded_papers := downloaded_papers st;
     is_scraping := is_scraping st; log_queue := v;
     logging := logging st; files := files st; sent := sent st; ui := ui st |}.

Definition set_logging (v : list log_record) (st : state) : state :=
  {| total_papers := total_papers st; downloaded_papers := downloaded_papers st;
     is_scraping := is_scraping st; log_queue := log_queue st;
     logging := v; files := files st; sent := sent st; ui := ui st |}.

Definition set_files (v : gmap string string) (st : state) : state :=
  {| total_papers := total_papers st; downloaded_papers := downloaded_papers st;
     is_scraping := is_scraping st; log_queue := log_queue st;
     logging := logging st; files := v; sent := sent st; ui := ui st |}.

Definition set_sent (v : list string) (st : state) : state :=
  {| total_papers := total_papers st; downloaded_papers := downloaded_papers st;
     is_scraping := is_scraping st; log_queue := log_queue st;
     logging := logging st; files := files st; sent := v; ui := ui st |}.

Definition set_ui (v : list ui_call) (st : state) : state :=
  {| total_papers := total_papers st; downloaded_papers := downloaded_papers st;
     is_scraping := is_scraping st; log_queue := log_queue st;
     logging := logging st; files := files st; sent := sent st; ui := v |}.

(** The state of a fresh process: the module has just been loaded. *)
Definition initial_state (disk : gmap string string) : state :=
  {| total_papers := 0; downloaded_papers := 0; is_scraping := false;
     log_queue := []; logging := []; files := disk; sent := []; ui := [] |}.

(** ** Statements as state transformers that may raise *)

Definition M (A : Type) : Type := state -> outcome A * state.

Definition ret {A} (a : A) : M A := fun st => (Ret a, st).
Definition raise {A} (e : exn) : M A := fun st => (Raise e, st).

Definition bind {A B} (m : M A) (k : A -> M B) : M B :=
  fun st =>
    match m st with
    | (Ret a, st') => k a st'
    | (Raise e, st') => (Raise e, st')
    end.

(** [try: m  except requests.RequestException: h] *)
Definition try_except_request {A} (m : M A) (h : M A) : M A :=
  fun st =>
    match m st with
    | (Raise RequestException, st') => h st'
    | r => r
    end.

Definition modify (f : state -> state) : M unit := fun st => (Ret tt, f st).
Definition get {A} (f : state -> A) : M A := fun st => (Ret (f st), st).

Notation "'let!' x ':=' m 'in' k" := (bind m (fun x => k))
  (at level 10, x name, m at level 100, k at level 200,
   format "'[v' 'let!'  x  :=  m  'in' '/' k ']'").
Notation "m ;; k" := (bind m (fun _ => k))
  (at level 100, k at level 200, right associativity).

(** ** Primitive effects *)

Section Program.

Variable w : world.

(** Whether the connection breaks before the body is complete. *)
Definition breaks (r : response) : bool :=
  match cut r with
  | Some k => (k <? length (Py.iter_content 1024 (body r)))%nat
  | None => false
  end.

(** [requests.get(url)]: the body is read before the call returns, so a
    broken connection raises here. *)
Definition requests_get (url : string) : M response :=
  fun st =>
    let st' := set_sent (sent st ++ [url]) st in
    match net w (length (sent st)) url with
    | Unreachable => (Raise RequestException, st')
    | Answer r => if breaks r then (Raise RequestException, st') else (Ret r, st')
    end.

(** [requests.get(url, stream=True)]: returns once the headers are read. *)
Definition requests_get_stream (url : string) : M response :=
  fun st =>
    let st' := set_sent (sent st ++ [url]) st in
    match net w (length (sent st)) url with
    | Unreachable => (Raise RequestException, st')
    | Answer r => (Ret r, st')
    end.

(** [response.raise_for_status()]: HTTPError on a 4xx or 5xx status. *)
Definition raise_for_status (r : response) : M unit :=
  if (400 <=? status_code r) && (status_code r <? 600)
  then raise RequestException else ret tt.

(** [BeautifulSoup(response.text, "html.parser")] *)
Definition BeautifulSoup (markup : string) : M Soup.document :=
  match html_parser w markup with
  | Some d => ret d
  | None => raise ParserRejectedMarkup
  end.

Definition logging_record (r : log_record) : M unit :=
  modify (fun st => set_logging (logging st ++ [r]) st).

(** [log_queue.put(line)] *)
Definition log_queue_put (l : log_line) : M unit :=
  modify (fun st => set_log_queue (log_queue st ++ [l]) st).

Definition ui_do (c : ui_call) : M unit :=
  modify (fun st => set_ui (ui st ++ [c]) st).

(** ** get_paper_links *)

Definition year_url (year : Z) : string := BASE_URL +:+ "/" +:+ pretty year.

Definition abstract_links (soup : Soup.document) : list string :=
  map (fun a => SITE +:+ Soup.attr_or_empty "href" a)
      (Soup.select (Soup.a_href_contains "-Abstract.html") soup).

Definition get_paper_links (year : Z) : M (list string) :=
  let url := year_url year in
  logging_record (InfoFetchingLinks url) ;;
  try_except_request
    (let! response := requests_get url in
     raise_for_status response ;;
     let! soup := BeautifulSoup (body response) in
     let paper_links := abstract_links soup in
     logging_record (InfoFound (length paper_links) year) ;;
     ret paper_links)
    (logging_record ErrorFetchingLinks ;; ret []).

(** ** fetch_metadata *)

(** The dict [fetch_metadata] returns. *)
Record metadata : Type := {
  title : string;
  authors : string;
  url : string
}.

Definition extract_title (soup : Soup.document) : string :=
  match Soup.select_one (Soup.name_is "h4") soup with
  | Some h4 => Py.strip (Soup.text h4)
  | None => "No Title"
  end.

Definition extract_authors (soup : Soup.document) : list string :=
  match Soup.select_h4_plus_p soup with
  | p :: _ => map (fun a => Py.strip (Soup.text a)) (Soup.select_a_below p)
  | [] => []
  end.

Definition fetch_metadata (paper_url : string) : M (option metadata) :=
  try_except_request
    (let! response := requests_get paper_url in
     raise_for_status response ;;
     let! soup := BeautifulSoup (body response) in
     let title := extract_title soup in
     let authors := extract_authors soup in
     ret (Some {| title := title;
                  authors := Py.join ", " authors;
                  url := paper_url |}))
    (logging_record (ErrorFetchingMetadata paper_url) ;; ret None).

(** ** download_pdf *)

Definition file_content (st : state) (path : string) : string :=
  default EmptyString (files st !! path).

(** The loop [for chunk in pdf_response.iter_content(1024): pdf_file.write(chunk)]
    from chunk number [i] on. *)
Fixpoint write_chunks (path : string) (cut : option nat) (i : nat)
    (chunks : list string) : M unit :=
  match chunks with
  | [] => ret tt
  | c :: rest =>
      if match cut with Some k => (k <=? i)%nat | None => false end
      then raise RequestException
      else if match write_fails_at w path with Some j => (j =? i)%nat | None => false end
      then raise OSError
      else
        modify (fun st => set_files (<[path := file_content st path +:+ c]> (files st)) st) ;;
        write_chunks path cut (S i) rest
  end.

(** [with open(pdf_path, "wb") as pdf_file: ...] *)
Definition save_stream (pdf_path : string) (pdf_response : response) : M unit :=
  if open_fails w pdf_path then raise OSError
  else
    modify (fun st => set_files (<[pdf_path := EmptyString]> (files st)) st) ;;
    write_chunks pdf_path (cut pdf_response) 0 (Py.iter_content 1024 (body pdf_response)).

(** The row [writer.writerow(metadata)] writes once [pdf_path] is set. *)
Definition row_of (md : metadata) (pdf_path : string) : list string :=
  [title md; authors md; url md; pdf_path].

(** [with open(METADATA_FILE, "a", ...) as csvfile: ...]: the header goes
    first when [csvfile.tell()] is 0, that is when the file was empty (or
    absent) as it was opened. *)
Definition append_row (row : list string) : M unit :=
  if open_fails w METADATA_FILE then raise OSError
  else
    modify (fun st =>
      let old := file_content st METADATA_FILE in
      let head := if (String.length old =? 0)%nat then Csv.header else EmptyString in
      set_files (<[METADATA_FILE := old +:+ head +:+ Csv.format_row row]> (files st)) st).

Definition pdf_url_of (href : string) : string := SITE +:+ href.
Definition pdf_path_of (href : string) : string :=
  Py.path_join OUTPUT_DIR (Py.last_segment (pdf_url_of href)).

Definition download_pdf (paper_url : string) (md : metadata) : M unit :=
  try_except_request
    (let! response := requests_get paper_url in
     raise_for_status response ;;
     let! soup := BeautifulSoup (body response) in
     match Soup.select_one (Soup.a_href_endswith ".pdf") soup with
     | None => log_queue_put (NoPdfFound paper_url)
     | Some pdf_link =>
         let pdf_url := pdf_url_of (Soup.attr_or_empty "href" pdf_link) in
         let pdf_name := Py.last_segment pdf_url in
         let pdf_path := Py.path_join OUTPUT_DIR pdf_name in
         log_queue_put (Downloading pdf_name) ;;
         let! pdf_response := requests_get_stream pdf_url in
         save_stream pdf_path pdf_response ;;
         log_queue_put (Saved pdf_path) ;;
         append_row (row_of md pdf_path) ;;
         modify (fun st => set_downloaded_papers (downloaded_papers st + 1) st) ;;
         let! done := get downloaded_papers in
         let! total := get total_papers in
         log_queue_put (DownloadedOf done total) ;;
         ui_do UpdateScheduled
     end)
    (log_queue_put (ErrorDownloading paper_url)).

(** ** start_scraping and scrape_papers *)

Definition range_invalid (start_year end_year : Z) : bool :=
  (start_year <? 1987) || (end_year >? 2025) || (start_year >? end_year).

(** [with open(METADATA_FILE, "w", ...)]: the header alone. *)
Definition init_metadata_file : M unit :=
  let! present := get (fun st => bool_decide (is_Some (files st !! METADATA_FILE))) in
  if present then ret tt
  else if open_fails w METADATA_FILE then raise OSError
  else modify (fun st => set_files (<[METADATA_FILE := Csv.header]> (files st)) st).

(** [start_scraping], on the integers read from the two entries.  The
    result is the argument pair of the thread it starts, if it starts one. *)
Definition start_scraping (start_year end_year : Z) : M (option (Z * Z)) :=
  modify (set_downloaded_papers 0) ;;
  if range_invalid start_year end_year
  then ui_do ShowError ;; ret None
  else
    init_metadata_file ;;
    ui_do LogAreaCleared ;;
    ui_do ProgressBarSet0 ;;
    modify (set_total_papers 0) ;;
    ui_do StartButtonDisabled ;;
    modify (set_is_scraping true) ;;
    ui_do (ThreadStarted start_year end_year) ;;
    ret (Some (start_year, end_year)).

(** [executor.submit(f, ...)]: the call runs in the pool and its result, or
    the exception it raised, is kept in the future.  The pool is modelled by
    the schedule in which a submitted call has finished before the
    submitting thread goes on; the other schedules are those of [Pool]
    below. *)
Definition submit (call : M unit) : M (outcome unit) :=
  fun st => let '(r, st') := call st in (Ret r, st').

(** The body of the loop over [paper_links]: the futures it appends. *)
Definition paper_unit (paper_url : string) : M (list (outcome unit)) :=
  let! md := fetch_metadata paper_url in
  match md with
  | Some md =>
      let! future := submit (download_pdf paper_url md) in
      ret [future]
  | None => ret []
  end.

Fixpoint submit_all (paper_links : list string) : M (list (outcome unit)) :=
  match paper_links with
  | [] => ret []
  | paper_url :: rest =>
      let! f := paper_unit paper_url in
      let! fs := submit_all rest in
      ret (f ++ fs)
  end.

(** [for future in as_completed(futures): future.result()] *)
Fixpoint results (futures : list (outcome unit)) : M unit :=
  match futures with
  | [] => ret tt
  | Ret _ :: rest => results rest
  | Raise e :: _ => raise e
  end.

Definition scrape_year (year : Z) : M unit :=
  let! paper_links := get_paper_links year in
  modify (fun st => set_total_papers (total_papers st + Z.of_nat (length paper_links)) st) ;;
  let! futures := submit_all paper_links in
  results futures.

Fixpoint scrape_years (years : list Z) : M unit :=
  match years with
  | [] => ret tt
  | year :: rest => scrape_year year ;; scrape_years rest
  end.

(** [range(start_year, end_year + 1)] *)
Definition year_range (start_year end_year : Z) : list Z :=
  seqZ start_year (end_year + 1 - start_year).

Definition scrape_papers (start_year end_year : Z) : M unit :=
  scrape_years (year_range start_year end_year) ;;
  modify (set_is_scraping false) ;;
  ui_do StartButtonNormal.

(** One press of the start button, with the thread run to its end. *)
Definition batch (start_year end_year : Z) : M unit :=
  let! started := start_scraping start_year end_year in
  match started with
  | Some (s, e) => scrape_papers s e
  | None => ret tt
  end.

End Program.

(** ** Vocabulary of the statements *)

(** What the first three lines of each function (request, status check,
    parse) come to for the request number [t]. *)
Inductive fetched : Type :=
| FetchFailed                  (* a RequestException is raised *)
| MarkupRejected               (* the parser raises *)
| Page (soup : Soup.document).

Definition http_error (r : response) : bool :=
  (400 <=? status_code r) && (status_code r <? 600).

Definition page_of (w : world) (t : nat) (url : string) : fetched :=
  match net w t url with
  | Unreachable => FetchFailed
  | Answer r =>
      if breaks r then FetchFailed
      else if http_error r then FetchFailed
      else match html_parser w (body r) with
           | Some soup => Page soup
           | None => MarkupRejected
           end
  end.

(** The request counter of a state: the next request is number [now st]. *)
Definition now (st : state) : nat := length (sent st).

Definition requested (url : string) (st : state) : state :=
  set_sent (sent st ++ [url]) st.

Definition queued (l : log_line) (st : state) : state :=
  set_log_queue (log_queue st ++ [l]) st.

Definition logged (r : log_record) (st : state) : state :=
  set_logging (logging st ++ [r]) st.

Definition shown (c : ui_call) (st : state) : state :=
  set_ui (ui st ++ [c]) st.

(** The metadata sink as a text. *)
Definition sink (st : state) : string := file_content st METADATA_FILE.

(** The archive answers a request the same way whenever it is sent. *)
Definition stationary (w : world) : Prop :=
  forall t u, net w t u = net w 0%nat u.

(** The last character of a text. *)
Fixpoint last_char (s : string) : option ascii :=
  match s with
  | EmptyString => None
  | String c s' => match last_char s' with Some d => Some d | None => Some c end
  end.

(** The disk refuses the asset: [open] raises, or the write of a chunk that
    arrives raises. *)
Definition storage_fails (w : world) (path : string) (r : response) : bool :=
  open_fails w path ||
  match write_fails_at w path with
  | Some j =>
      (j <? length (Py.iter_content 1024 (body r)))%nat &&
      match cut r with Some k => (j <? k)%nat | None => true end
  | None => false
  end.

(** ** Concrete pages and worlds, used to run the model *)

Module Sample.

Definition anchor (href label : string) : Soup.node :=
  Soup.Tag "a" {["href" := href]} [Soup.Text label].

Definition author (name : string) : Soup.node :=
  Soup.Tag "a" ∅ [Soup.Text name].

(** The listing of one year: two papers and a link that is no paper. *)
Definition listing : Soup.document :=
  [Soup.Tag "ul" ∅
     [Soup.Tag "li" ∅ [anchor "/p/a-Abstract.html" "Paper A"];
      Soup.Tag "li" ∅ [anchor "/p/b-Abstract.html" "Paper B"];
      Soup.Tag "li" ∅ [anchor "/about" "About"]]].

(** A listing with paper B alone. *)
Definition listing_b : Soup.document :=
  [Soup.Tag "ul" ∅ [Soup.Tag "li" ∅ [anchor "/p/b-Abstract.html" "Paper B"]]].

(** A complete detail page. *)
Definition page_a : Soup.document :=
  [Soup.Tag "h4" ∅ [Soup.Text " Title, A "];
   Soup.Text " ";
   Soup.Tag "p" ∅ [Soup.Tag "i" ∅ [author "Ann"; author " Bob "]];
   Soup.Tag "div" ∅ [anchor "/p/a-Paper.pdf" "Paper"]].

(** A detail page with a title, no author paragraph and no asset link. *)
Definition page_b : Soup.document :=
  [Soup.Tag "h4" ∅ [Soup.Text "B"];
   Soup.Tag "div" ∅ [];
   Soup.Tag "p" ∅ [author "Zed"]].

(** A detail page without a heading. *)
Definition page_untitled : Soup.document :=
  [Soup.Tag "div" ∅ [anchor "/p/c-Paper.pdf" "Paper"]].

Definition url_a : string := "https://papers.nips.cc/p/a-Abstract.html".
Definition url_b : string := "https://papers.nips.cc/p/b-Abstract.html".
Definition url_c : string := "https://papers.nips.cc/p/c-Abstract.html".
Definition pdf_a : string := "https://papers.nips.cc/p/a-Paper.pdf".

Definition ok (text : string) : http_result :=
  Answer {| status_code := 200; body := text; cut := None |}.

Definition parser (markup : string) : option Soup.document :=
  if String.eqb markup "LISTING" then Some listing
  else if String.eqb markup "LISTING_B" then Some listing_b
  else if String.eqb markup "A" then Some page_a
  else if String.eqb markup "B" then Some page_b
  else if String.eqb markup "C" then Some page_untitled
  else None.

(** The archive: the listing of 2020 holds papers A and B, that of 2021
    paper B alone; the asset of A is answered with status 404 and an error
    page. *)
Definition archive (t : nat) (u : string) : http_result :=
  if String.eqb u (year_url 2020) then ok "LISTING"
  else if String.eqb u (year_url 2021) then ok "LISTING_B"
  else if String.eqb u url_a then ok "A"
  else if String.eqb u url_b then ok "B"
  else if String.eqb u url_c then ok "C"
  else if String.eqb u pdf_a
       then Answer {| status_code := 404; body := "<html>Not Found</html>"; cut := None |}
  else Unreachable.

Definition good_world : world :=
  {| net := archive; html_parser := parser;
     open_fails := fun _ => false; write_fails_at := fun _ => None |}.

(** The same archive with a parser that takes every page: a text it does
    not know parses to the empty document. *)
Definition good_unparsed_world : world :=
  {| net := archive;
     html_parser := fun markup => Some (default [] (parser markup));
     open_fails := fun _ => false; write_fails_at := fun _ => None |}.

(** The same archive with a parser that rejects every page. *)
Definition rejecting_world : world :=
  {| net := archive; html_parser := fun _ => None;
     open_fails := fun _ => false; write_fails_at := fun _ => None |}.

(** The same archive on a full disk: an asset file can be opened, its first
    write raises. *)
Definition full_disk_world : world :=
  {| net := archive; html_parser := parser;
     open_fails := fun _ => false;
     write_fails_at := fun path =>
       if String.eqb path METADATA_FILE then None else Some O |}.

(** The same archive on a disk where no asset file can be opened. *)
Definition read_only_world : world :=
  {| net := archive; html_parser := parser;
     open_fails := fun path => negb (String.eqb path METADATA_FILE);
     write_fails_at := fun _ => None |}.

(** The same archive on a disk where no file can be opened for writing. *)
Definition locked_world : world :=
  {| net := archive; html_parser := parser;
     open_fails := fun _ => true; write_fails_at := fun _ => None |}.

(** A detail page whose heading is blank. *)
Definition page_blank : Soup.document :=
  [Soup.Tag "h4" ∅ [Soup.Text "  "]; Soup.Tag "p" ∅ [author "Ann"]].

(** An archive whose every page is [page_blank]. *)
Definition blank_world : world :=
  {| net := archive; html_parser := fun _ => Some page_blank;
     open_fails := fun _ => false; write_fails_at := fun _ => None |}.

(** The same archive, where the connection to the asset of A breaks before
    the first chunk of the body arrives. *)
Definition flaky_world : world :=
  {| net := fun t u =>
       if String.eqb u pdf_a
       then Answer {| status_code := 200; body := "%PDF-1.4 ..."; cut := Some O |}
       else archive t u;
     html_parser := parser;
     open_fails := fun _ => false; write_fails_at := fun _ => None |}.

Definition md_a : metadata :=
  {| title := "Title, A"; authors := "Ann, Bob"; url := url_a |}.

Definition md_b : metadata :=
  {| title := "B"; authors := EmptyString; url := url_b |}.

Definition fresh : state := initial_state ∅.

End Sample.

(** ** Several workers appending to the sink at once

    The block of [download_pdf] that writes the row

      with open(METADATA_FILE, "a", ...) as csvfile:
          writer = csv.DictWriter(csvfile, ...)
          if csvfile.tell() == 0: writer.writeheader()
          writer.writerow(metadata)

    run by the workers of the pool, one statement of one worker at a time, in
    any order.  There is no lock in scrapper.py.  What a worker writes stays
    in the buffer of its file object until the block is left; the buffer then
    reaches the file as one append. *)

Module Workers.

Inductive pc : Type :=
| AtOpen                       (* about to open the file *)
| AtTell (pos : nat)           (* opened at [pos], about to test [tell() == 0] *)
| AtWriteRow (buf : string)    (* header decided, about to write the row *)
| AtClose (buf : string)       (* about to leave the block *)
| Finished.

Record worker : Type := {
  metadata_row : list string;   (* the values of its [metadata] dict *)
  at_pc : pc
}.

(** The sink and the workers. *)
Definition config : Type := string * list worker.

(** One statement of a worker on the file: the new file and where the
    worker stands next; [None] once it has finished. *)
Definition exec (file : string) (wk : worker) : option (string * pc) :=
  match at_pc wk with
  | AtOpen => Some (file, AtTell (String.length file))
  | AtTell pos =>
      Some (file, AtWriteRow (if (pos =? 0)%nat then Csv.header else EmptyString))
  | AtWriteRow buf => Some (file, AtClose (buf +:+ Csv.format_row (metadata_row wk)))
  | AtClose buf => Some (file +:+ buf, Finished)
  | Finished => None
  end.

Inductive step : config -> config -> Prop :=
| step_at i file ws wk file' pc' :
    ws !! i = Some wk ->
    exec file wk = Some (file', pc') ->
    step (file, ws)
         (file', <[i := {| metadata_row := metadata_row wk; at_pc := pc' |}]> ws).

(** The workers as the pool starts them, one per row. *)
Definition start (rows : list (list string)) : list worker :=
  map (fun row => {| metadata_row := row; at_pc := AtOpen |}) rows.

Definition is_finished (wk : worker) : bool :=
  match at_pc wk with Finished => true | _ => false end.

Definition all_finished (c : config) : Prop :=
  forallb is_finished (snd c) = true.

(** Running a schedule: the numbers of the workers that move, in order. *)
Definition move (i : nat) (c : config) : config :=
  match snd c !! i with
  | Some wk =>
      match exec (fst c) wk with
      | Some (file', pc') =>
          (file', <[i := {| metadata_row := metadata_row wk; at_pc := pc' |}]> (snd c))
      | None => c
      end
  | None => c
  end.

Definition run (schedule : list nat) (c : config) : config :=
  fold_left (fun c i => move i c) schedule c.

(** The schedule in which the workers [k], [k+1], ... run one after the
    other, each through its four statements. *)
Definition one_by_one (k n : nat) : list nat :=
  flat_map (fun i => [i; i; i; i]) (seq k n).

(** The text of some rows, in order. *)
Definition rows_text (rows : list (list string)) : string :=
  Py.concat_str (map Csv.format_row rows).

(** A row each of whose fields is free of line feeds. *)
Definition valid_row (row : list string) : bool :=
  forallb (fun f => (Csv.line_count f =? 0)%nat) row.

(** The rows of the workers that have finished. *)
Definition finished_rows (ws : list worker) : list (list string) :=
  map metadata_row (List.filter is_finished ws).

(** What a worker may hold when the file was not empty as it opened it. *)
Definition header_free (wk : worker) : Prop :=
  match at_pc wk with
  | AtOpen => True
  | AtTell pos => pos <> O
  | AtWriteRow buf => buf = EmptyString
  | AtClose buf => buf = Csv.format_row (metadata_row wk)
  | Finished => True
  end.

(** What holds all along when the workers start on a sink that already
    holds [init]: the rows stay with their workers, no worker holds a header,
    and the file is [init] followed by the rows of the finished workers. *)
Definition invariant (init : string) (rows : list (list string)) (c : config) : Prop :=
  map metadata_row (snd c) = rows /\
  Forall header_free (snd c) /\
  exists order,
    order ≡ₚ finished_rows (snd c) /\ fst c = init +:+ rows_text order.

End Workers.

Module SampleRows.

Definition row1 : list string := ["T1"; "Ann"; "u1"; "D:/scraped-pdfs/1.pdf"].
Definition row2 : list string := ["T2"; "Bob, Cy"; "u2"; "D:/scraped-pdfs/2.pdf"].

(** Both workers open the empty file before either writes. *)
Definition racing : list nat := [0; 1; 0; 1; 0; 0; 1; 1]%nat.

End SampleRows.

(** ** update_progress: the poll that feeds the window *)

(** Calls of [update_progress] into the window. *)
Inductive poll_call : Type :=
| LogAreaInsert (line : log_line)   (* log_area.insert(END, line + "\n"); log_area.see(END) *)
| ProgressBarSet (done total : Z)   (* progress_bar.set(((done / total) * 100) / 100) *)
| ShowSuccess                       (* messagebox.showinfo("Success", ...) *)
| PollAgain.                        (* app.after(100, update_progress) *)

Inductive poll_result : Type :=
| Polled
| ZeroDivisionError.                (* downloaded_papers / total_papers with total_papers = 0 *)

(** [while not log_queue.empty(): ...]: one line of the queue per turn. *)
Fixpoint drain (queue : list log_line) : list poll_call :=
  match queue with
  | [] => []
  | line :: rest => LogAreaInsert line :: drain rest
  end.

(** [update_progress], run on its own: the result, the calls made in order,
    and the state it leaves. *)
Definition update_progress (st : state) : poll_result * list poll_call * state :=
  let inserted := drain (log_queue st) in
  let st' := set_log_queue [] st in
  if total_papers st =? 0 then (ZeroDivisionError, inserted, st')
  else
    (Polled,
     inserted ++
     [ProgressBarSet (downloaded_papers st) (total_papers st)] ++
     (if downloaded_papers st =? total_papers st then [ShowSuccess] else []) ++
     (if is_scraping st then [PollAgain] else []),
     st').

(** ** Vocabulary of the further statements *)

(** The state once [append_row] has written [row]. *)
Definition appended (row : list string) (st : state) : state :=
  set_files
    (<[METADATA_FILE :=
         sink st +:+
         (if (String.length (sink st) =? 0)%nat then Csv.header else EmptyString) +:+
         Csv.format_row row]> (files st)) st.

(** The state at the end of a download that stored its paper: the row, the
    counter, the progress line and the scheduled poll. *)
Definition finished (row : list string) (st : state) : state :=
  shown UpdateScheduled
    (queued (DownloadedOf (downloaded_papers st + 1) (total_papers st))
       (set_downloaded_papers (downloaded_papers st + 1) (appended row st))).

(** Nothing that counts as progress has changed. *)
Definition same_progress (st st' : state) : Prop :=
  sink st' = sink st /\
  downloaded_papers st' = downloaded_papers st /\
  total_papers st' = total_papers st /\
  is_scraping st' = is_scraping st.

(** The header that precedes [rows] on a sink that held [old]. *)
Definition header_for (old : string) (rows : list (list string)) : string :=
  match rows with
  | [] => EmptyString
  | _ :: _ => if (String.length old =? 0)%nat then Csv.header else EmptyString
  end.

(** From [st] to [st'] the sink has gained [rows] (after the header, on an
    empty sink) and the counter their number. *)
Definition grew (st st' : state) (rows : list (list string)) : Prop :=
  sink st' = sink st +:+ header_for (sink st) rows +:+ Workers.rows_text rows /\
  downloaded_papers st' = downloaded_papers st + Z.of_nat (length rows).

(** A path directly inside the output directory. *)
Definition in_output_dir (path : string) : Prop :=
  exists name, path = Py.path_join OUTPUT_DIR name /\ Py.contains "/" name = false.

(** No path outside the output directory has changed. *)
Definition wrote_inside (st st' : state) : Prop :=
  forall path, ~ in_output_dir path -> files st' !! path = files st !! path.

(** A disk that takes every write and a parser that takes every page. *)
Definition healthy (w : world) : Prop :=
  (forall path, open_fails w path = false) /\
  (forall path, write_fails_at w path = None) /\
  (forall markup, html_parser w markup <> None).

(** A statement keeps a relation when every run of it relates the state it
    starts from to the state it leaves, however it ends. *)
Definition keeps {A} (R : state -> state -> Prop) (m : M A) : Prop :=
  forall st, R st (snd (m st)).

(** First and last character are no white space. *)
Definition trimmed (s : string) : Prop :=
  match s with
  | EmptyString => True
  | String c _ => Py.is_space c = false
  end /\
  match last_char s with
  | Some c => Py.is_space c = false
  | None => True
  end.

(** At most [n] rows were added, each counted, with [total_papers] and
    [is_scraping] untouched. *)
Definition tally (n : nat) (st st' : state) : Prop :=
  exists rows,
    grew st st' rows /\ (length rows <= n)%nat /\
    total_papers st' = total_papers st /\ is_scraping st' = is_scraping st.

(** The rows added are counted and no more than the papers discovered
    meanwhile. *)
Definition within_discovered (st st' : state) : Prop :=
  exists rows,
    grew st st' rows /\
    Z.of_nat (length rows) <= total_papers st' - total_papers st.

(** A statement that always returns. *)
Definition returns {A} (m : M A) : Prop :=
  forall st, exists a, fst (m st) = Ret a.

(** A statement that returns or raises a RequestException, nothing else. *)
Definition request_error_only {A} (m : M A) : Prop :=
  forall st, (exists a, fst (m st) = Ret a) \/ fst (m st) = Raise RequestException.

(** Futures that all hold a result. *)
Definition all_done (futures : list (outcome unit)) : Prop :=
  Forall (fun f => f = Ret tt) futures.

(** A text of white space only. *)
Fixpoint all_space (s : string) : bool :=
  match s with
  | EmptyString => true
  | String c s' => Py.is_space c && all_space s'
  end.

(** A link to a paper page of the archive. *)
Definition paper_link (href link : string) : Prop :=
  link = SITE +:+ href /\ Py.contains "-Abstract.html" href = true.

(** Each trace afterwards starts with what it was before. *)
Definition only_appended (st st' : state) : Prop :=
  (exists new, log_queue st' = log_queue st ++ new) /\
  (exists new, logging st' = logging st ++ new) /\
  (exists new, sent st' = sent st ++ new) /\
  (exists new, ui st' = ui st ++ new).

(** ** Workers on an empty sink *)

(** What one worker adds to the file: its row, after a header if it found
    the file empty as it opened it. *)
Definition entry_text (entry : bool * list string) : string :=
  (if fst entry then Csv.header else EmptyString) +:+ Csv.format_row (snd entry).

Definition entries_text (entries : list (bool * list string)) : string :=
  Py.concat_str (map entry_text entries).

(** The number of entries that carry a header. *)
Definition headers (entries : list (bool * list string)) : nat :=
  length (List.filter fst entries).

(** What a worker may hold when the workers started on an empty file: a
    worker goes without a header only if the file has got text meanwhile. *)
Definition may_hold (file : string) (wk : Workers.worker) : Prop :=
  match Workers.at_pc wk with
  | Workers.AtOpen => True
  | Workers.AtTell pos => pos <> O -> file <> EmptyString
  | Workers.AtWriteRow buf =>
      buf = Csv.header \/ (buf = EmptyString /\ file <> EmptyString)
  | Workers.AtClose buf =>
      buf = entry_text (true, Workers.metadata_row wk) \/
      (buf = entry_text (false, Workers.metadata_row wk) /\ file <> EmptyString)
  | Workers.Finished => True
  end.

(** What holds all along when the workers start on an empty file: the file
    is the entries of the finished workers in the order they closed it, and
    the first of them carries a header. *)
Definition race_invariant (rows : list (list string)) (c : Workers.config) : Prop :=
  map Workers.metadata_row (snd c) = rows /\
  Forall (may_hold (fst c)) (snd c) /\
  exists entries,
    map snd entries ≡ₚ Workers.finished_rows (snd c) /\
    fst c = entries_text entries /\
    match entries with
    | [] => True
    | first :: _ => fst first = true
    end.

(** ** The scraping thread and the workers of its pool, statement by statement

    [scrape_papers] runs on a thread of its own and hands every download to
    a [ThreadPoolExecutor]; the workers run [download_pdf] at the same time
    as the scraping thread fetches the next page, and [update_progress]
    empties the queue on the thread of the window meanwhile.  Here each
    thread is the tree of the statements it goes through, and a step of the
    program is one statement of one thread: every order in which the
    statements of the threads can follow each other is a run.  The shared
    objects are those of [state]; what a thread holds in its local variables
    is in what is left of its tree. *)

Module Pool.

(** What is left of a piece of code: it has returned, it has raised, or it
    is about to run the statement [m] and goes on with [k] on what the
    statement gave (a value, or the exception it raised). *)
Inductive thread (A : Type) : Type :=
| Return (a : A)
| Throw (e : exn)
| Act {X : Type} (m : M X) (k : outcome X -> thread A).
Arguments Return {A} a.
Arguments Throw {A} e.
Arguments Act {A X} m k.

Definition finish {A} (o : outcome A) : thread A :=
  match o with
  | Ret a => Return a
  | Raise e => Throw e
  end.

(** One statement. *)
Definition lift {X} (m : M X) : thread X := Act m finish.

(** [p] and then [f] on its value. *)
Fixpoint tbind {A B} (p : thread A) (f : A -> thread B) : thread B :=
  match p with
  | Return a => f a
  | Throw e => Throw e
  | Act m k => Act m (fun o => tbind (k o) f)
  end.

(** [try: p  except requests.RequestException: h] *)
Fixpoint try_except {A} (p h : thread A) : thread A :=
  match p with
  | Return a => Return a
  | Throw RequestException => h
  | Throw e => Throw e
  | Act m k => Act m (fun o => try_except (k o) h)
  end.

Notation "'let*' x ':=' p 'in' k" := (tbind p (fun x => k))
  (at level 10, x name, p at level 100, k at level 200,
   format "'[v' 'let*'  x  :=  p  'in' '/' k ']'").

(** The code run with no other thread in between. *)
Fixpoint run {A} (p : thread A) : M A :=
  match p with
  | Return a => ret a
  | Throw e => raise e
  | Act m k => fun st => let '(o, st') := m st in run (k o) st'
  end.

(** What is left of [scrape_papers]: a statement of its own, a call handed
    to the pool, or the end of the [with] block, where it waits until every
    future is done and then sees them in the order they completed. *)
Inductive main_thread : Type :=
| Done (r : outcome unit)
| Main {X : Type} (m : M X) (k : outcome X -> main_thread)
| Submit (call : thread unit) (k : main_thread)
| Wait (k : list (outcome unit) -> main_thread).

(** A function called on the scraping thread. *)
Fixpoint in_main {X} (p : thread X) (k : outcome X -> main_thread) : main_thread :=
  match p with
  | Return a => k (Ret a)
  | Throw e => k (Raise e)
  | Act m k' => Main m (fun o => in_main (k' o) k)
  end.

Section Code.

Variable w : world.

(** *** The functions, one statement at a time *)

Definition get_paper_links_task (year : Z) : thread (list string) :=
  let url := year_url year in
  let* _ := lift (logging_record (InfoFetchingLinks url)) in
  try_except
    (let* response := lift (requests_get w url) in
     let* _ := lift (raise_for_status response) in
     let* soup := lift (BeautifulSoup w (body response)) in
     let paper_links := abstract_links soup in
     let* _ := lift (logging_record (InfoFound (length paper_links) year)) in
     Return paper_links)
    (let* _ := lift (logging_record ErrorFetchingLinks) in
     Return []).

Definition fetch_metadata_task (paper_url : string) : thread (option metadata) :=
  try_except
    (let* response := lift (requests_get w paper_url) in
     let* _ := lift (raise_for_status response) in
     let* soup := lift (BeautifulSoup w (body response)) in
     let title := extract_title soup in
     let authors := extract_authors soup in
     Return (Some {| title := title;
                     authors := Py.join ", " authors;
                     url := paper_url |}))
    (let* _ := lift (logging_record (ErrorFetchingMetadata paper_url)) in
     Return None).

(** [open(pdf_path, "wb")]: the file is there and empty. *)
Definition open_wb (path : string) : M unit :=
  if open_fails w path then raise OSError
  else modify (fun st => set_files (<[path := EmptyString]> (files st)) st).

(** [pdf_file.write(chunk)] for the chunk number [i]. *)
Definition write_chunk (path : string) (i : nat) (chunk : string) : M unit :=
  if match write_fails_at w path with Some j => (j =? i)%nat | None => false end
  then raise OSError
  else modify (fun st => set_files (<[path := file_content st path +:+ chunk]> (files st)) st).

(** The loop over [pdf_response.iter_content(1024)] from chunk number [i]
    on: the next chunk arrives, or the connection is broken and the
    iterator raises; then the chunk is written. *)
Fixpoint write_chunks_task (path : string) (cut : option nat) (i : nat)
    (chunks : list string) : thread unit :=
  match chunks with
  | [] => Return tt
  | c :: rest =>
      if match cut with Some k => (k <=? i)%nat | None => false end
      then Throw RequestException
      else
        let* _ := lift (write_chunk path i c) in
        write_chunks_task path cut (S i) rest
  end.

Definition save_stream_task (pdf_path : string) (pdf_response : response) : thread unit :=
  let* _ := lift (open_wb pdf_path) in
  write_chunks_task pdf_path (cut pdf_response) 0 (Py.iter_content 1024 (body pdf_response)).

(** [open(METADATA_FILE, "a", ...)]: the file is created when there is
    none; the position of the file object is the size the file has now. *)
Definition open_append : M nat :=
  fun st =>
    if open_fails w METADATA_FILE then (Raise OSError, st)
    else (Ret (String.length (sink st)),
          set_files (<[METADATA_FILE := sink st]> (files st)) st).

(** Leaving the [with] block: what the file object has buffered goes to the
    end of the file, wherever that is by now. *)
Definition close_append (buffer : string) : M unit :=
  modify (fun st => set_files (<[METADATA_FILE := sink st +:+ buffer]> (files st)) st).

(** The block that appends the row: [tell()] is the position the file was
    opened at; header and row wait in the buffer of the file object. *)
Definition append_row_task (row : list string) : thread unit :=
  let* pos := lift open_append in
  let* buffer := lift (ret (if (pos =? 0)%nat then Csv.header else EmptyString)) in
  let* buffer := lift (ret (buffer +:+ Csv.format_row row)) in
  lift (close_append buffer).

(** [downloaded_papers += 1] reads the global and then stores the sum: two
    statements, with no lock around them. *)
Definition count_task : thread unit :=
  let* count := lift (get downloaded_papers) in
  lift (modify (set_downloaded_papers (count + 1))).

Definition download_task (paper_url : string) (md : metadata) : thread unit :=
  try_except
    (let* response := lift (requests_get w paper_url) in
     let* _ := lift (raise_for_status response) in
     let* soup := lift (BeautifulSoup w (body response)) in
     match Soup.select_one (Soup.a_href_endswith ".pdf") soup with
     | None => lift (log_queue_put (NoPdfFound paper_url))
     | Some pdf_link =>
         let pdf_url := pdf_url_of (Soup.attr_or_empty "href" pdf_link) in
         let pdf_name := Py.last_segment pdf_url in
         let pdf_path := Py.path_join OUTPUT_DIR pdf_name in
         let* _ := lift (log_queue_put (Downloading pdf_name)) in
         let* pdf_response := lift (requests_get_stream w pdf_url) in
         let* _ := save_stream_task pdf_path pdf_response in
         let* _ := lift (log_queue_put (Saved pdf_path)) in
         let* _ := append_row_task (row_of md pdf_path) in
         let* _ := count_task in
         let* done := lift (get downloaded_papers) in
         let* total := lift (get total_papers) in
         let* _ := lift (log_queue_put (DownloadedOf done total)) in
         lift (ui_do UpdateScheduled)
     end)
    (lift (log_queue_put (ErrorDownloading paper_url))).

(** The [with ThreadPoolExecutor(...)] block of a year from the link
    [paper_links] starts with; [after] is the code that follows the block.
    An exception of [fetch_metadata] leaves the block, which waits for the
    calls already submitted before the exception goes on; so does the first
    exception [future.result()] raises. *)
Fixpoint submit_loop (paper_links : list string) (after : main_thread) : main_thread :=
  match paper_links with
  | [] =>
      Wait (fun futures =>
        Main (results futures) (fun r =>
          match r with
          | Ret _ => after
          | Raise e => Done (Raise e)
          end))
  | paper_url :: rest =>
      in_main (fetch_metadata_task paper_url) (fun r =>
        match r with
        | Ret (Some md) => Submit (download_task paper_url md) (submit_loop rest after)
        | Ret None => submit_loop rest after
        | Raise e => Wait (fun _ => Done (Raise e))
        end)
  end.

(** One turn of the loop over the years. *)
Definition scrape_year_thread (year : Z) (after : main_thread) : main_thread :=
  in_main (get_paper_links_task year) (fun r =>
    match r with
    | Ret paper_links =>
        Main (get total_papers) (fun r =>
          match r with
          | Ret total =>
              Main (modify (set_total_papers (total + Z.of_nat (length paper_links))))
                   (fun _ => submit_loop paper_links after)
          | Raise e => Done (Raise e)
          end)
    | Raise e => Done (Raise e)
    end).

Fixpoint scrape_years_thread (years : list Z) : main_thread :=
  match years with
  | [] =>
      Main (modify (set_is_scraping false)) (fun _ =>
        Main (ui_do StartButtonNormal) (fun _ => Done (Ret tt)))
  | year :: rest => scrape_year_thread year (scrape_years_thread rest)
  end.

Definition scrape_papers_thread (start_year end_year : Z) : main_thread :=
  scrape_years_thread (year_range start_year end_year).

End Code.

(** *** The program at one moment *)

(** A call handed to the pool: in the queue of the executor, taken by a
    worker, or done with its result in the future. *)
Inductive call : Type :=
| Waiting (p : thread unit)
| Running (p : thread unit)
| Finished (r : outcome unit).

Record config : Type := {
  shared : state;                       (* the globals, the disk, the queue *)
  scraper : main_thread;                (* what is left of [scrape_papers] *)
  pool : list call;                     (* the calls submitted in this [with] block, oldest first *)
  completed : list (outcome unit)       (* the results of the calls that are done, in the order they completed *)
}.

Definition is_waiting (c : call) : bool :=
  match c with Waiting _ => true | _ => false end.

Definition is_running (c : call) : bool :=
  match c with Running _ => true | _ => false end.

Definition is_finished (c : call) : bool :=
  match c with Finished _ => true | _ => false end.

(** The polls scheduled so far with [app.after(0, update_progress)]. *)
Definition is_poll (c : ui_call) : bool :=
  match c with UpdateScheduled => true | _ => false end.

Definition polls (st : state) : nat := length (List.filter is_poll (ui st)).

(** One statement of one thread.
    - [step_main], [step_submit], [step_wait]: the scraping thread.  It
      leaves the [with] block only when every call of the pool is done.
    - [step_start]: a worker takes the oldest waiting call; the pool has
      [THREAD_COUNT] workers.
    - [step_worker]: a worker runs the next statement of its call.
    - [step_return], [step_raise]: a call ends and its future completes.
    - [step_poll]: [update_progress], once a poll has been scheduled, takes
      the oldest line from the queue. *)
Inductive step : config -> config -> Prop :=
| step_main {X} (m : M X) k c :
    scraper c = Main m k ->
    step c {| shared := snd (m (shared c)); scraper := k (fst (m (shared c)));
              pool := pool c; completed := completed c |}
| step_submit task k c :
    scraper c = Submit task k ->
    step c {| shared := shared c; scraper := k;
              pool := pool c ++ [Waiting task]; completed := completed c |}
| step_wait k c :
    scraper c = Wait k ->
    forallb is_finished (pool c) = true ->
    step c {| shared := shared c; scraper := k (completed c);
              pool := []; completed := [] |}
| step_start i p c :
    pool c !! i = Some (Waiting p) ->
    existsb is_waiting (take i (pool c)) = false ->
    (length (List.filter is_running (pool c)) < THREAD_COUNT)%nat ->
    step c {| shared := shared c; scraper := scraper c;
              pool := <[i := Running p]> (pool c); completed := completed c |}
| step_worker i {X} (m : M X) k c :
    pool c !! i = Some (Running (Act m k)) ->
    step c {| shared := snd (m (shared c)); scraper := scraper c;
              pool := <[i := Running (k (fst (m (shared c))))]> (pool c);
              completed := completed c |}
| step_return i a c :
    pool c !! i = Some (Running (Return a)) ->
    step c {| shared := shared c; scraper := scraper c;
              pool := <[i := Finished (Ret a)]> (pool c);
              completed := completed c ++ [Ret a] |}
| step_raise i e c :
    pool c !! i = Some (Running (Throw e)) ->
    step c {| shared := shared c; scraper := scraper c;
              pool := <[i := Finished (Raise e)]> (pool c);
              completed := completed c ++ [Raise e] |}
| step_poll line rest c :
    In UpdateScheduled (ui (shared c)) ->
    log_queue (shared c) = line :: rest ->
    step c {| shared := set_log_queue rest (shared c); scraper := scraper c;
              pool := pool c; completed := completed c |}.

(** The thread [start_scraping] starts, about to run its first statement. *)
Definition started (w : world) (start_year end_year : Z) (st : state) : config :=
  {| shared := st; scraper := scrape_papers_thread w start_year end_year;
     pool := []; completed := [] |}.

(** [scrape_papers] has returned or raised. *)
Definition ended (c : config) : Prop := exists r, scraper c = Done r.

(** One press of the start button that starts the thread, and the thread
    run to its end in some order of the statements. *)
Definition batch_ends (w : world) (start_year end_year : Z) (st : state) (c : config) : Prop :=
  exists s e st0,
    start_scraping w start_year end_year st = (Ret (Some (s, e)), st0) /\
    rtc step (started w s e st0) c /\
    ended c.

(** *** What a piece of code is bound to add *)

(** On a sink that is not empty, whatever the other threads do meanwhile,
    the code [p] adds the rows [rows] to the sink one whole row at a time,
    schedules [n] polls and ends with [r]. *)
Fixpoint yields {A} (p : thread A) (rows : list (list string)) (n : nat)
    (r : outcome A) : Prop :=
  match p with
  | Return a => rows = [] /\ n = O /\ r = Ret a
  | Throw e => rows = [] /\ n = O /\ r = Raise e
  | Act m k =>
      exists rows1 n1 rows2 n2,
        rows = rows1 ++ rows2 /\ n = (n1 + n2)%nat /\
        forall st, sink st <> EmptyString ->
          sink (snd (m st)) = sink st +:+ Workers.rows_text rows1 /\
          polls (snd (m st)) = (polls st + n1)%nat /\
          yields (k (fst (m st))) rows2 n2 r
  end.

(** A statement that gives [o] from whatever state and adds neither text to
    the sink nor a poll. *)
Definition silent {X} (m : M X) (o : outcome X) : Prop :=
  forall st,
    fst (m st) = o /\ sink (snd (m st)) = sink st /\ polls (snd (m st)) = polls st.

(** What a [try] block goes on with once its body has ended with [o]. *)
Definition caught {A} (o : outcome A) (h : thread A) : thread A :=
  match o with
  | Raise RequestException => h
  | _ => finish o
  end.

(** The same for the scraping thread; [futures] are the results that the
    calls it has submitted in this block are bound to end with. *)
Fixpoint main_yields (p : main_thread) (futures : list (outcome unit))
    (rows : list (list string)) (n : nat) : Prop :=
  match p with
  | Done _ => futures = [] /\ rows = [] /\ n = O
  | Main m k =>
      forall st, sink st <> EmptyString ->
        sink (snd (m st)) = sink st /\
        polls (snd (m st)) = polls st /\
        main_yields (k (fst (m st))) futures rows n
  | Submit task k =>
      exists rows1 n1 r rows2 n2,
        rows = rows1 ++ rows2 /\ n = (n1 + n2)%nat /\
        yields task rows1 n1 r /\
        main_yields k (futures ++ [r]) rows2 n2
  | Wait k =>
      forall done, done ≡ₚ futures -> main_yields (k done) [] rows n
  end.

(** What a call of the pool is still bound to add, and how it ends. *)
Definition call_yields (c : call) (y : list (list string) * nat * outcome unit) : Prop :=
  match c with
  | Waiting p | Running p => yields p y.1.1 y.1.2 y.2
  | Finished r => y.1.1 = [] /\ y.1.2 = O /\ y.2 = r
  end.

(** The results of the calls that are done, oldest call first. *)
Fixpoint results_of (cs : list call) : list (outcome unit) :=
  match cs with
  | [] => []
  | Finished r :: rest => r :: results_of rest
  | _ :: rest => results_of rest
  end.

Definition rows_left (ys : list (list (list string) * nat * outcome unit)) :
    list (list string) :=
  concat (map (fun y => y.1.1) ys).

Definition polls_left (ys : list (list (list string) * nat * outcome unit)) : nat :=
  sum_list (map (fun y => y.1.2) ys).

(** What holds all along a run that started on a sink holding [init], with
    [before] polls scheduled: the sink is [init] and whole rows; the rows
    and the polls already there, with those the threads are still bound to
    add, are the rows [rows], and as many polls. *)
Definition invariant (init : string) (before : nat) (rows : list (list string))
    (c : config) : Prop :=
  exists (written : list (list string)) (ys : list (list (list string) * nat * outcome unit))
         (rows_main : list (list string)) (n_main : nat),
    sink (shared c) = init +:+ Workers.rows_text written /\
    sink (shared c) <> EmptyString /\
    Forall2 call_yields (pool c) ys /\
    main_yields (scraper c) (map snd ys) rows_main n_main /\
    completed c ≡ₚ results_of (pool c) /\
    written ++ rows_left ys ++ rows_main ≡ₚ rows /\
    (polls (shared c) + polls_left ys + n_main = before + length rows)%nat.

(** *** Code that ends well *)

(** A piece of code that leaves [is_scraping] alone and whose end, whatever
    the other threads do meanwhile, is one that [Q] holds of. *)
Fixpoint ends_in {A} (Q : outcome A -> Prop) (p : thread A) : Prop :=
  match p with
  | Return a => Q (Ret a)
  | Throw e => Q (Raise e)
  | Act m k =>
      forall st,
        is_scraping (snd (m st)) = is_scraping st /\ ends_in Q (k (fst (m st)))
  end.

Definition returned {A} (o : outcome A) : Prop := exists a, o = Ret a.

Definition returned_or_request_error {A} (o : outcome A) : Prop :=
  returned o \/ o = Raise RequestException.

(** What is left of the scraping thread, [is_scraping] being [flag] now:
    if the calls it waits for all return, it returns, with the flag
    cleared. *)
Fixpoint ends_idle (p : main_thread) (flag : bool) : Prop :=
  match p with
  | Done r => r = Ret tt /\ flag = false
  | Main m k =>
      forall st, is_scraping st = flag ->
        ends_idle (k (fst (m st))) (is_scraping (snd (m st)))
  | Submit task k => ends_in returned task /\ ends_idle k flag
  | Wait k => forall done, all_done done -> ends_idle (k done) flag
  end.

Definition call_returns (c : call) : Prop :=
  match c with
  | Waiting p | Running p => ends_in returned p
  | Finished r => r = Ret tt
  end.

(** What holds all along a run in which no call can raise. *)
Definition idle_invariant (c : config) : Prop :=
  ends_idle (scraper c) (is_scraping (shared c)) /\
  Forall call_returns (pool c) /\
  all_done (completed c).

(** *** What every statement keeps *)

(** Each statement of a piece of code takes a state to one that [R]
    relates to it. *)
Fixpoint every_statement {A} (R : state -> state -> Prop) (p : thread A) : Prop :=
  match p with
  | Return _ | Throw _ => True
  | Act m k =>
      forall st, R st (snd (m st)) /\ every_statement R (k (fst (m st)))
  end.





(** *** The two counters *)

(** [downloaded_papers] and [total_papers] are as they were. *)
Definition same_counters (st st' : state) : Prop :=
  downloaded_papers st' = downloaded_papers st /\
  total_papers st' = total_papers st.

(** What is left of a call leaves [total_papers] alone.  While
    [downloaded_papers] lies between 0 and some [b] that is at least
    [bound], each of its statements leaves it there, but for one if
    [credit] is 1: the statement that reads the counter in order to add 1
    to it, after which [b + 1] is the bound. *)
Fixpoint counts {A} (p : thread A) (credit : nat) (bound : Z) : Prop :=
  match p with
  | Return _ | Throw _ => True
  | Act m k =>
      forall st b, bound <= b -> 0 <= downloaded_papers st <= b ->
        total_papers (snd (m st)) = total_papers st /\
        ((0 <= downloaded_papers (snd (m st)) <= b /\
          counts (k (fst (m st))) credit bound) \/
         (credit = 1%nat /\
          downloaded_papers (snd (m st)) = downloaded_papers st /\
          counts (k (fst (m st))) 0 (b + 1)))
  end.

(** What is left of the scraping thread, [total_papers] being [total] now,
    leaves [downloaded_papers] alone and submits at most [n] calls before
    it adds to [total_papers], and then no more calls than it has added. *)
Fixpoint main_counts (p : main_thread) (n : nat) (total : Z) : Prop :=
  match p with
  | Done _ => True
  | Main m k =>
      forall st, total_papers st = total ->
        downloaded_papers (snd (m st)) = downloaded_papers st /\
        exists n',
          Z.of_nat n' - Z.of_nat n <= total_papers (snd (m st)) - total /\
          main_counts (k (fst (m st))) n' (total_papers (snd (m st)))
  | Submit task k =>
      exists n', n = S n' /\ counts task 1 0 /\ main_counts k n' total
  | Wait k => forall done, main_counts (k done) n total
  end.

Definition call_counts (c : call) (credit : nat) (bound : Z) : Prop :=
  match c with
  | Waiting p | Running p => counts p credit bound
  | Finished _ => True
  end.

(** What holds all along a run: the counter is between 0 and the number
    [reads] of calls that have read it; these, the calls that have not read
    it yet and the calls still to be submitted are no more than
    [total_papers]. *)
Definition counter_invariant (c : config) : Prop :=
  exists (reads : Z) (n : nat) (ys : list (nat * Z)),
    0 <= downloaded_papers (shared c) <= reads /\
    Forall2 (fun call y => call_counts call y.1 y.2 /\ y.2 <= reads) (pool c) ys /\
    main_counts (scraper c) n (total_papers (shared c)) /\
    reads + Z.of_nat (sum_list (map fst ys)) + Z.of_nat n <= total_papers (shared c).

(** *** The schedule in which every call is run at once *)

(** [scrape_papers] with every submitted call run to its end before the
    scraping thread goes on; [futures] are the results so far. *)
Fixpoint run_main (p : main_thread) (futures : list (outcome unit)) : M unit :=
  match p with
  | Done r => fun st => (r, st)
  | Main m k => fun st => let '(o, st') := m st in run_main (k o) futures st'
  | Submit task k => fun st => let '(o, st') := run task st in run_main k (futures ++ [o]) st'
  | Wait k => run_main (k futures) []
  end.

End Pool.

(** * Running the model *)

Example strip_blanks : Py.strip "  Title, A
 " = "Title, A".
Proof. reflexivity. Qed.

Example last_segment_of_url :
  Py.last_segment "https://papers.nips.cc/p/a-Paper.pdf" = "a-Paper.pdf".
Proof. reflexivity. Qed.

Example chunks_of_three : Py.iter_content 3 "abcdefgh" = ["abc"; "def"; "gh"].
Proof. reflexivity. Qed.

Example listing_links :
  abstract_links Sample.listing = [Sample.url_a; Sample.url_b].
Proof. reflexivity. Qed.

Example authors_of_page_a : extract_authors Sample.page_a = ["Ann"; "Bob"].
Proof. reflexivity. Qed.

Example authors_of_page_b : extract_authors Sample.page_b = [].
Proof. reflexivity. Qed.

Example title_of_page_a : extract_title Sample.page_a = "Title, A".
Proof. reflexivity. Qed.

(** A field with a comma is quoted, a quote inside it is doubled. *)
Example quoted_fields :
  Csv.format_row ["a,b"; String Csv.dquote "c"; "d"] =
  String Csv.dquote "a,b" +:+ String Csv.dquote "," +:+
  String Csv.dquote (String Csv.dquote (String Csv.dquote "c")) +:+
  String Csv.dquote ",d" +:+ Csv.lineterminator.
Proof. reflexivity. Qed.

(** The batch over 2020 in the sample archive: two papers found, the first
    stored (its asset is an error page), the second without an asset link. *)
Example batch_2020 :
  let st := snd (batch Sample.good_world 2020 2020 Sample.fresh) in
  fst (batch Sample.good_world 2020 2020 Sample.fresh) = Ret tt /\
  total_papers st = 2 /\ downloaded_papers st = 1 /\
  log_queue st = [Downloading "a-Paper.pdf"; Saved "D:/scraped-pdfs/a-Paper.pdf";
                  DownloadedOf 1 2; NoPdfFound Sample.url_b] /\
  sink st = Csv.header +:+
            Csv.format_row ["Title, A"; "Ann, Bob"; Sample.url_a; "D:/scraped-pdfs/a-Paper.pdf"] /\
  Csv.line_count (sink st) = 2%nat /\
  sent st = [year_url 2020; Sample.url_a; Sample.url_a; Sample.pdf_a;
             Sample.url_b; Sample.url_b].
Proof. vm_compute. repeat split; reflexivity. Qed.

(** * Properties *)

(** ** Laws of the statement combinators *)

Lemma bind_ret_l {A B} (a : A) (k : A -> M B) st : bind (ret a) k st = k a st.
Proof. reflexivity. Qed.

Lemma bind_modify {B} (f : state -> state) (k : unit -> M B) st :
  bind (modify f) k st = k tt (f st).
Proof. reflexivity. Qed.

Lemma bind_get {A B} (f : state -> A) (k : A -> M B) st :
  bind (get f) k st = k (f st) st.
Proof. reflexivity. Qed.

Lemma bind_assoc {A B C} (m : M A) (k : A -> M B) (h : B -> M C) st :
  bind (bind m k) h st = bind m (fun a => bind (k a) h) st.
Proof. unfold bind. destruct (m st) as [[a|e] st']; reflexivity. Qed.

Lemma bind_raises {A B} (m : M A) (k : A -> M B) st e st' :
  m st = (Raise e, st') -> bind m k st = (Raise e, st').
Proof. intros H. unfold bind. rewrite H. reflexivity. Qed.

Lemma bind_returns {A B} (m : M A) (k : A -> M B) st a st' :
  m st = (Ret a, st') -> bind m k st = k a st'.
Proof. intros H. unfold bind. rewrite H. reflexivity. Qed.

(** The request, status check and parse that open each function. *)
Lemma fetch_prefix {A} w url (k : Soup.document -> M A) st :
  bind (requests_get w url)
       (fun response =>
          bind (raise_for_status response)
               (fun _ => bind (BeautifulSoup w (body response)) k)) st =
  match page_of w (now st) url with
  | FetchFailed => (Raise RequestException, requested url st)
  | MarkupRejected => (Raise ParserRejectedMarkup, requested url st)
  | Page soup => k soup (requested url st)
  end.
Proof.
  unfold bind, requests_get, page_of, now, requested.
  destruct (net w (length (sent st)) url) as [|r]; [reflexivity|].
  destruct (breaks r); [reflexivity|].
  unfold raise_for_status, http_error.
  destruct ((400 <=? status_code r) && (status_code r <? 600)); [reflexivity|].
  cbn. unfold BeautifulSoup.
  destruct (html_parser w (body r)); reflexivity.
Qed.

(** ** The year range (start_scraping) *)

Lemma range_invalid_iff s e :
  range_invalid s e = true <-> ~ (1987 <= s /\ s <= e /\ e <= 2025).
Proof.
  unfold range_invalid.
  rewrite !orb_true_iff, Z.ltb_lt, !Z.gtb_lt. lia.
Qed.

(** C4. A year range that violates 1987 <= start <= end <= 2025 is rejected
    at once: [start_scraping] shows the error box and returns without
    starting the scraping thread, so the whole button press sends no request,
    touches no file, queues no line and discovers no paper.  The only other
    effect is the reset of [downloaded_papers] that precedes the check. *)
Theorem C4_invalid_range_rejected w s e st :
  ~ (1987 <= s /\ s <= e /\ e <= 2025) ->
  start_scraping w s e st = (Ret None, shown ShowError (set_downloaded_papers 0 st)) /\
  batch w s e st = (Ret tt, shown ShowError (set_downloaded_papers 0 st)) /\
  let st' := snd (batch w s e st) in
  sent st' = sent st /\ files st' = files st /\ log_queue st' = log_queue st /\
  total_papers st' = total_papers st /\ ui st' = ui st ++ [ShowError].
Proof.
  intros Hbad. apply range_invalid_iff in Hbad.
  assert (Hs : start_scraping w s e st =
               (Ret None, shown ShowError (set_downloaded_papers 0 st))).
  { unfold start_scraping. rewrite bind_modify, Hbad. reflexivity. }
  assert (Hb : batch w s e st =
               (Ret tt, shown ShowError (set_downloaded_papers 0 st))).
  { unfold batch. rewrite (bind_returns _ _ _ _ _ Hs). reflexivity. }
  split; [exact Hs|]. split; [exact Hb|].
  rewrite Hb. cbn. repeat split; reflexivity.
Qed.

Lemma C4_invalid_range_rejected_witness :
  ~ (1987 <= 2020 /\ 2020 <= 2010 /\ 2010 <= 2025) /\
  batch Sample.good_world 2020 2010 Sample.fresh =
    (Ret tt, shown ShowError (set_downloaded_papers 0 Sample.fresh)).
Proof.
  assert (H : ~ (1987 <= 2020 /\ 2020 <= 2010 /\ 2010 <= 2025)) by lia.
  split; [exact H|].
  exact (proj1 (proj2 (C4_invalid_range_rejected Sample.good_world 2020 2010 Sample.fresh H))).
Defined.

(** ** The listing of a year (get_paper_links) *)

Lemma get_paper_links_eq w year st :
  get_paper_links w year st =
  let st0 := logged (InfoFetchingLinks (year_url year)) st in
  match page_of w (now st) (year_url year) with
  | FetchFailed =>
      (Ret [], logged ErrorFetchingLinks (requested (year_url year) st0))
  | MarkupRejected =>
      (Raise ParserRejectedMarkup, requested (year_url year) st0)
  | Page soup =>
      (Ret (abstract_links soup),
       logged (InfoFound (length (abstract_links soup)) year)
              (requested (year_url year) st0))
  end.
Proof.
  unfold get_paper_links, logging_record.
  rewrite bind_modify. unfold try_except_request.
  rewrite fetch_prefix.
  change (now (set_logging _ st)) with (now st).
  destruct (page_of w (now st) (year_url year)); reflexivity.
Qed.

(** C5, as the claim states it, fails: when the parser rejects the listing
    page, [get_paper_links] raises to its caller. *)
Lemma C5_parse_failure_raises :
  ~ (forall w year st,
       page_of w (now st) (year_url year) = FetchFailed \/
       page_of w (now st) (year_url year) = MarkupRejected ->
       exists st', get_paper_links w year st = (Ret [], st')).
Proof.
  intros H.
  destruct (H Sample.rejecting_world 2020 Sample.fresh) as [st' Hst'].
  - right. reflexivity.
  - vm_compute in Hst'. discriminate Hst'.
Qed.

(** C5, amended. For every year, when the retrieval of the listing fails on
    the network (no answer, a connection that breaks, or a 4xx/5xx status),
    [get_paper_links] does not raise: it logs the error and returns the empty
    list after one request, and the year goes on with no paper: [scrape_year]
    returns, leaves [total_papers], the files and the queue as they were and
    sends no further request. *)
Theorem C5_listing_unreachable_is_soft w year st :
  page_of w (now st) (year_url year) = FetchFailed ->
  let st' := logged ErrorFetchingLinks
               (requested (year_url year)
                  (logged (InfoFetchingLinks (year_url year)) st)) in
  get_paper_links w year st = (Ret [], st') /\
  exists st'',
    scrape_year w year st = (Ret tt, st'') /\
    total_papers st'' = total_papers st /\
    sent st'' = sent st ++ [year_url year] /\
    files st'' = files st /\ log_queue st'' = log_queue st.
Proof.
  intros Hfail st'.
  assert (Hg : get_paper_links w year st = (Ret [], st')).
  { rewrite get_paper_links_eq, Hfail. reflexivity. }
  split; [exact Hg|].
  exists (set_total_papers (total_papers st + 0) st').
  split.
  - unfold scrape_year. rewrite (bind_returns _ _ _ _ _ Hg). reflexivity.
  - cbn. repeat split; try reflexivity. lia.
Qed.

Lemma C5_listing_unreachable_is_soft_witness :
  page_of Sample.good_world (now Sample.fresh) (year_url 1999) = FetchFailed /\
  fst (get_paper_links Sample.good_world 1999 Sample.fresh) = Ret [].
Proof.
  assert (H : page_of Sample.good_world (now Sample.fresh) (year_url 1999) = FetchFailed)
    by reflexivity.
  split; [exact H|].
  rewrite (proj1 (C5_listing_unreachable_is_soft Sample.good_world 1999 Sample.fresh H)).
  reflexivity.
Defined.

(** ** The metadata of a paper (fetch_metadata) *)

Lemma fetch_metadata_eq w paper_url st :
  fetch_metadata w paper_url st =
  match page_of w (now st) paper_url with
  | FetchFailed =>
      (Ret None, logged (ErrorFetchingMetadata paper_url) (requested paper_url st))
  | MarkupRejected => (Raise ParserRejectedMarkup, requested paper_url st)
  | Page soup =>
      (Ret (Some {| title := extract_title soup;
                    authors := Py.join ", " (extract_authors soup);
                    url := paper_url |}),
       requested paper_url st)
  end.
Proof.
  unfold fetch_metadata, try_except_request.
  rewrite fetch_prefix.
  destruct (page_of w (now st) paper_url); reflexivity.
Qed.

(** C6. The extractor treats a missing field and an unreachable page
    differently.  A page that arrives and has no [h4] heading still yields
    metadata, with the title "No Title".  A page whose retrieval fails on the
    network yields [None]: the error is logged, the one request is not
    repeated, and the loop submits no download for the paper. *)
Theorem C6_soft_on_title_hard_on_network w paper_url st :
  (forall soup,
     page_of w (now st) paper_url = Page soup ->
     Soup.select_one (Soup.name_is "h4") soup = None ->
     fetch_metadata w paper_url st =
       (Ret (Some {| title := "No Title";
                     authors := Py.join ", " (extract_authors soup);
                     url := paper_url |}),
        requested paper_url st)) /\
  (page_of w (now st) paper_url = FetchFailed ->
     let st' := logged (ErrorFetchingMetadata paper_url) (requested paper_url st) in
     fetch_metadata w paper_url st = (Ret None, st') /\
     paper_unit w paper_url st = (Ret [], st') /\
     sent st' = sent st ++ [paper_url] /\
     logging st' = logging st ++ [ErrorFetchingMetadata paper_url] /\
     files st' = files st /\
     downloaded_papers st' = downloaded_papers st).
Proof.
  split.
  - intros soup Hpage Hh4.
    rewrite fetch_metadata_eq, Hpage.
    unfold extract_title. rewrite Hh4. reflexivity.
  - intros Hfail st'.
    assert (Hf : fetch_metadata w paper_url st = (Ret None, st')).
    { rewrite fetch_metadata_eq, Hfail. reflexivity. }
    split; [exact Hf|]. split; [|repeat split; reflexivity].
    unfold paper_unit. rewrite (bind_returns _ _ _ _ _ Hf). reflexivity.
Qed.

Lemma C6_soft_on_title_hard_on_network_witness :
  (page_of Sample.good_world (now Sample.fresh) Sample.url_c = Page Sample.page_untitled /\
   Soup.select_one (Soup.name_is "h4") Sample.page_untitled = None /\
   fetch_metadata Sample.good_world Sample.url_c Sample.fresh =
     (Ret (Some {| title := "No Title"; authors := EmptyString; url := Sample.url_c |}),
      requested Sample.url_c Sample.fresh)) /\
  (page_of Sample.good_world (now Sample.fresh) "https://papers.nips.cc/p/x" = FetchFailed /\
   fst (fetch_metadata Sample.good_world "https://papers.nips.cc/p/x" Sample.fresh) = Ret None).
Proof.
  split.
  - split; [reflexivity|]. split; [reflexivity|].
    exact (proj1 (C6_soft_on_title_hard_on_network Sample.good_world Sample.url_c Sample.fresh)
             Sample.page_untitled eq_refl eq_refl).
  - split; [reflexivity|].
    rewrite (proj1 (proj2 (C6_soft_on_title_hard_on_network Sample.good_world
                             "https://papers.nips.cc/p/x" Sample.fresh) eq_refl)).
    reflexivity.
Defined.

(** C7. A detail page that arrives with an [h4] heading and no paragraph
    right after a heading yields metadata, not a failure: the title is the
    stripped heading text, the list of authors is empty and the authors field
    is the empty string. *)
Theorem C7_no_author_paragraph_gives_empty_authors w paper_url st soup h4 :
  page_of w (now st) paper_url = Page soup ->
  Soup.select_one (Soup.name_is "h4") soup = Some h4 ->
  Soup.select_h4_plus_p soup = [] ->
  extract_authors soup = [] /\
  fetch_metadata w paper_url st =
    (Ret (Some {| title := Py.strip (Soup.text h4);
                  authors := EmptyString;
                  url := paper_url |}),
     requested paper_url st).
Proof.
  intros Hpage Hh4 Hp.
  assert (Ha : extract_authors soup = []).
  { unfold extract_authors. rewrite Hp. reflexivity. }
  split; [exact Ha|].
  rewrite fetch_metadata_eq, Hpage.
  unfold extract_title. rewrite Hh4, Ha. reflexivity.
Qed.

Lemma C7_no_author_paragraph_gives_empty_authors_witness :
  page_of Sample.good_world (now Sample.fresh) Sample.url_b = Page Sample.page_b /\
  Soup.select_h4_plus_p Sample.page_b = [] /\
  fetch_metadata Sample.good_world Sample.url_b Sample.fresh =
    (Ret (Some Sample.md_b), requested Sample.url_b Sample.fresh).
Proof.
  split; [reflexivity|]. split; [reflexivity|].
  exact (proj2 (C7_no_author_paragraph_gives_empty_authors
                  Sample.good_world Sample.url_b Sample.fresh Sample.page_b
                  (Soup.Tag "h4" ∅ [Soup.Text "B"]) eq_refl eq_refl eq_refl)).
Defined.

(** ** Facts on strings, chunks and paths *)

Lemma append_nil_r (s : string) : s +:+ EmptyString = s.
Proof. induction s as [|c s IH]; [reflexivity|]. change (String c (s +:+ "") = String c s). by rewrite IH. Qed.

Lemma append_cons c (s t : string) : String c s +:+ t = String c (s +:+ t).
Proof. reflexivity. Qed.

Lemma append_assoc (s t u : string) : (s +:+ t) +:+ u = s +:+ t +:+ u.
Proof.
  induction s as [|c s IH]; [reflexivity|].
  rewrite !append_cons. by rewrite IH.
Qed.

Lemma append_length (s t : string) :
  String.length (s +:+ t) = (String.length s + String.length t)%nat.
Proof.
  induction s as [|c s IH]; [reflexivity|].
  rewrite append_cons. cbn. by rewrite IH.
Qed.

Lemma chunks_from_concat size room cur s :
  Py.concat_str (Py.chunks_from size room cur s) = cur +:+ s.
Proof.
  revert room cur. induction s as [|c s IH]; intros room cur.
  - cbn. destruct cur; cbn; [reflexivity|]. by rewrite !append_nil_r.
  - cbn. destruct room as [|room].
    + cbn. by rewrite IH.
    + rewrite IH. by rewrite append_assoc.
Qed.

(** The chunks of a body, written one after the other, give the body back. *)
Lemma iter_content_concat size s :
  Py.concat_str (Py.iter_content size s) = s.
Proof. unfold Py.iter_content. by rewrite chunks_from_concat. Qed.

Lemma last_char_append (s t : string) :
  last_char (s +:+ t) =
  match last_char t with Some d => Some d | None => last_char s end.
Proof.
  induction s as [|c s IH]; cbn.
  - change ("" +:+ t) with t. by destruct (last_char t).
  - rewrite append_cons. cbn. rewrite IH. by destruct (last_char t), (last_char s).
Qed.

Lemma endswith_last_char suf s c :
  Py.endswith suf s = true -> last_char suf = Some c -> last_char s = Some c.
Proof.
  intros H Hsuf. induction s as [|a s IH].
  - destruct suf; [discriminate Hsuf | discriminate H].
  - cbn [Py.endswith] in H. apply orb_true_iff in H as [H|H].
    + apply String.eqb_eq in H. by subst.
    + cbn. by rewrite (IH H).
Qed.

Lemma last_segment_from_last_char cur s c :
  last_char s = Some c -> c <> Py.slash ->
  last_char (Py.last_segment_from cur s) = Some c.
Proof.
  revert cur. induction s as [|a s IH]; intros cur Hc Hne; [discriminate|].
  cbn in Hc. cbn [Py.last_segment_from].
  destruct (last_char s) as [d|] eqn:Hs.
  - injection Hc as ->. destruct (Ascii.eqb a Py.slash); by apply IH.
  - injection Hc as ->. destruct s; [|cbn in Hs; by destruct (last_char s)].
    apply Ascii.eqb_neq in Hne. rewrite Hne. cbn.
    rewrite last_char_append. reflexivity.
Qed.

(** An asset whose link ends in ".pdf" is never stored over the sink. *)
Lemma pdf_path_not_sink href :
  Py.endswith ".pdf" href = true -> pdf_path_of href <> METADATA_FILE.
Proof.
  intros Hend Heq.
  assert (Hl : last_char (pdf_path_of href) = Some "f"%char).
  { unfold pdf_path_of, Py.path_join, Py.last_segment.
    rewrite !last_char_append.
    rewrite (last_segment_from_last_char _ _ "f"%char); [reflexivity| |discriminate].
    unfold pdf_url_of. rewrite last_char_append.
    by rewrite (endswith_last_char _ _ "f"%char Hend). }
  rewrite Heq in Hl. vm_compute in Hl. discriminate Hl.
Qed.

Lemma select_one_matches f soup n :
  Soup.select_one f soup = Some n -> f n = true.
Proof.
  unfold Soup.select_one, Soup.select. intros H.
  destruct (List.filter f (Soup.all_nodes soup)) as [|x l] eqn:Hf; [discriminate|].
  injection H as ->.
  assert (Hin : In n (List.filter f (Soup.all_nodes soup))) by (rewrite Hf; by left).
  by apply List.filter_In in Hin as [_ ?].
Qed.

Lemma pdf_link_href soup link :
  Soup.select_one (Soup.a_href_endswith ".pdf") soup = Some link ->
  Py.endswith ".pdf" (Soup.attr_or_empty "href" link) = true.
Proof.
  intros H. apply select_one_matches in H.
  unfold Soup.a_href_endswith in H. apply andb_true_iff in H as [_ H].
  unfold Soup.attr_or_empty. by destruct (Soup.attr "href" link).
Qed.

(** ** Writing the asset (save_stream) *)

Lemma set_files_same st : set_files (files st) st = st.
Proof. by destruct st. Qed.

Lemma write_chunks_complete w path cut chunks : forall i st c,
  files st !! path = Some c ->
  write_fails_at w path = None ->
  match cut with Some k => (i + length chunks <= k)%nat | None => True end ->
  write_chunks w path cut i chunks st =
    (Ret tt, set_files (<[path := c +:+ Py.concat_str chunks]> (files st)) st).
Proof.
  induction chunks as [|x chunks IH]; intros i st c Hc Hw Hcut.
  - cbn. rewrite append_nil_r, insert_id by done. by rewrite set_files_same.
  - cbn [write_chunks]. rewrite Hw.
    assert (Hk : match cut with Some k => (k <=? i)%nat | None => false end = false).
    { destruct cut as [k|]; [|done]. cbn in Hcut. apply Nat.leb_gt. lia. }
    rewrite Hk, bind_modify.
    rewrite (IH (S i) _ (c +:+ x)).
    + cbn. unfold file_content. rewrite Hc. cbn.
      rewrite insert_insert_eq, append_assoc. reflexivity.
    + cbn. unfold file_content. rewrite Hc. cbn. by rewrite lookup_insert_eq.
    + exact Hw.
    + destruct cut as [k|]; [|done]. cbn in Hcut. lia.
Qed.

Lemma save_stream_complete w pdf_path r st :
  open_fails w pdf_path = false ->
  write_fails_at w pdf_path = None ->
  breaks r = false ->
  save_stream w pdf_path r st =
    (Ret tt, set_files (<[pdf_path := body r]> (files st)) st).
Proof.
  intros Ho Hw Hb. unfold save_stream. rewrite Ho, bind_modify.
  rewrite (write_chunks_complete _ _ _ _ _ _ EmptyString).
  - cbn. rewrite insert_insert_eq, iter_content_concat. reflexivity.
  - cbn. by rewrite lookup_insert_eq.
  - exact Hw.
  - unfold breaks in Hb. destruct (cut r) as [k|]; [|done].
    apply Nat.ltb_ge in Hb. cbn. lia.
Qed.

(** A write that raises leaves the chunks written before it in the file. *)
Lemma write_chunks_disk_error w path cut j chunks : forall i st c,
  files st !! path = Some c ->
  write_fails_at w path = Some j ->
  (i <= j < i + length chunks)%nat ->
  match cut with Some k => (j < k)%nat | None => True end ->
  write_chunks w path cut i chunks st =
    (Raise OSError,
     set_files (<[path := c +:+ Py.concat_str (take (j - i) chunks)]> (files st)) st).
Proof.
  induction chunks as [|x chunks IH]; intros i st c Hc Hw Hj Hcut; [cbn in Hj; lia|].
  cbn [write_chunks]. rewrite Hw.
  assert (Hk : match cut with Some k => (k <=? i)%nat | None => false end = false).
  { destruct cut as [k|]; [|done]. apply Nat.leb_gt. lia. }
  rewrite Hk.
  destruct (j =? i)%nat eqn:Hji.
  - apply Nat.eqb_eq in Hji. subst j. rewrite Nat.sub_diag. cbn.
    rewrite append_nil_r, insert_id by done. by rewrite set_files_same.
  - apply Nat.eqb_neq in Hji. rewrite bind_modify.
    rewrite (IH (S i) _ (c +:+ x)).
    + cbn [files set_files]. unfold file_content. rewrite Hc. cbn [default].
      rewrite insert_insert_eq.
      replace (j - i)%nat with (S (j - S i)) by lia.
      cbn [take]. change (Py.concat_str (x :: take (j - S i) chunks))
        with (x +:+ Py.concat_str (take (j - S i) chunks)).
      by rewrite append_assoc.
    + cbn. unfold file_content. rewrite Hc. cbn. by rewrite lookup_insert_eq.
    + exact Hw.
    + cbn [length] in Hj. lia.
    + exact Hcut.
Qed.

Lemma save_stream_disk_error w pdf_path r st :
  storage_fails w pdf_path r = true ->
  exists st',
    save_stream w pdf_path r st = (Raise OSError, st') /\
    (forall path, path <> pdf_path -> files st' !! path = files st !! path) /\
    log_queue st' = log_queue st /\ downloaded_papers st' = downloaded_papers st /\
    total_papers st' = total_papers st /\ sent st' = sent st /\ ui st' = ui st.
Proof.
  unfold storage_fails, save_stream. intros Hf.
  destruct (open_fails w pdf_path).
  - exists st. repeat split; reflexivity.
  - cbn in Hf. destruct (write_fails_at w pdf_path) as [j|] eqn:Hw; [|discriminate].
    apply andb_true_iff in Hf as [Hj Hcut]. apply Nat.ltb_lt in Hj.
    rewrite bind_modify.
    rewrite (write_chunks_disk_error _ _ _ j _ _ _ EmptyString).
    + eexists. split; [reflexivity|]. cbn. split; [|repeat split; reflexivity].
      intros path Hne. by rewrite !lookup_insert_ne.
    + cbn. by rewrite lookup_insert_eq.
    + exact Hw.
    + lia.
    + destruct (cut r) as [k|]; [|done]. by apply Nat.ltb_lt in Hcut.
Qed.

(** ** The download of a paper (download_pdf) *)

Lemma download_pdf_fetch w paper_url md st :
  download_pdf w paper_url md st =
  match page_of w (now st) paper_url with
  | FetchFailed => (Ret tt, queued (ErrorDownloading paper_url) (requested paper_url st))
  | MarkupRejected => (Raise ParserRejectedMarkup, requested paper_url st)
  | Page soup =>
      match Soup.select_one (Soup.a_href_endswith ".pdf") soup with
      | None => (Ret tt, queued (NoPdfFound paper_url) (requested paper_url st))
      | Some pdf_link =>
          let href := Soup.attr_or_empty "href" pdf_link in
          try_except_request
            (log_queue_put (Downloading (Py.last_segment (pdf_url_of href))) ;;
             let! pdf_response := requests_get_stream w (pdf_url_of href) in
             save_stream w (pdf_path_of href) pdf_response ;;
             log_queue_put (Saved (pdf_path_of href)) ;;
             append_row w (row_of md (pdf_path_of href)) ;;
             modify (fun st => set_downloaded_papers (downloaded_papers st + 1) st) ;;
             let! done := get downloaded_papers in
             let! total := get total_papers in
             log_queue_put (DownloadedOf done total) ;;
             ui_do UpdateScheduled)
            (log_queue_put (ErrorDownloading paper_url))
            (requested paper_url st)
      end
  end.
Proof.
  unfold download_pdf, try_except_request.
  rewrite fetch_prefix.
  destruct (page_of w (now st) paper_url) as [| |soup]; try reflexivity.
  destruct (Soup.select_one (Soup.a_href_endswith ".pdf") soup); reflexivity.
Qed.

(** C3. When the detail page arrives and holds no link ending in ".pdf",
    [download_pdf] queues the warning "No PDF found" and returns without
    raising: it sends no asset request, appends nothing to the sink (no file
    changes at all) and leaves [downloaded_papers] as it was.  The loop then
    goes on with the remaining links, and the future of this paper holds no
    exception for [future.result()] to raise. *)
Theorem C3_asset_missing_is_skipped w paper_url md st soup :
  page_of w (now st) paper_url = Page soup ->
  Soup.select_one (Soup.a_href_endswith ".pdf") soup = None ->
  let st' := queued (NoPdfFound paper_url) (requested paper_url st) in
  download_pdf w paper_url md st = (Ret tt, st') /\
  files st' = files st /\ sink st' = sink st /\
  downloaded_papers st' = downloaded_papers st /\
  sent st' = sent st ++ [paper_url] /\
  (forall st0 rest,
     fetch_metadata w paper_url st0 = (Ret (Some md), st) ->
     submit_all w (paper_url :: rest) st0 =
       (let! fs := submit_all w rest in ret (Ret tt :: fs)) st') /\
  (forall fs, results (Ret tt :: fs) = results fs).
Proof.
  intros Hpage Hnone st'.
  assert (Hd : download_pdf w paper_url md st = (Ret tt, st')).
  { rewrite download_pdf_fetch, Hpage, Hnone. reflexivity. }
  split; [exact Hd|]. repeat split.
  intros st0 rest Hmd.
  cbn [submit_all]. unfold paper_unit.
  rewrite bind_assoc, (bind_returns _ _ _ _ _ Hmd).
  rewrite bind_assoc. unfold submit at 1.
  unfold bind at 1. rewrite Hd. reflexivity.
Qed.

Lemma C3_asset_missing_is_skipped_witness :
  page_of Sample.good_world (now (requested Sample.url_b Sample.fresh)) Sample.url_b
    = Page Sample.page_b /\
  Soup.select_one (Soup.a_href_endswith ".pdf") Sample.page_b = None /\
  download_pdf Sample.good_world Sample.url_b Sample.md_b (requested Sample.url_b Sample.fresh) =
    (Ret tt, queued (NoPdfFound Sample.url_b)
               (requested Sample.url_b (requested Sample.url_b Sample.fresh))).
Proof.
  split; [reflexivity|]. split; [reflexivity|].
  exact (proj1 (C3_asset_missing_is_skipped Sample.good_world Sample.url_b Sample.md_b
                  (requested Sample.url_b Sample.fresh) Sample.page_b eq_refl eq_refl)).
Defined.

Lemma append_row_eq w row st :
  open_fails w METADATA_FILE = false ->
  append_row w row st =
    (Ret tt,
     set_files (<[METADATA_FILE :=
                    sink st +:+
                    (if (String.length (sink st) =? 0)%nat then Csv.header else EmptyString) +:+
                    Csv.format_row row]> (files st)) st).
Proof. intros H. unfold append_row. rewrite H. reflexivity. Qed.

(** C10. The status of the asset response is never looked at.  Once the
    detail page holds an asset link, any response to the asset request,
    whatever its status code, is handled as a download: its body becomes the
    content of the asset file, the row of the paper is appended to the sink
    (after the header when the sink was empty), [downloaded_papers] goes up
    by one and the three progress lines are queued.  The conditions are only
    that the body arrives whole and that the disk takes the writes. *)
Theorem C10_asset_status_is_ignored w paper_url md st soup pdf_link r :
  let href := Soup.attr_or_empty "href" pdf_link in
  let pdf_path := pdf_path_of href in
  page_of w (now st) paper_url = Page soup ->
  Soup.select_one (Soup.a_href_endswith ".pdf") soup = Some pdf_link ->
  net w (S (now st)) (pdf_url_of href) = Answer r ->
  breaks r = false ->
  open_fails w pdf_path = false ->
  write_fails_at w pdf_path = None ->
  open_fails w METADATA_FILE = false ->
  exists st',
    download_pdf w paper_url md st = (Ret tt, st') /\
    files st' !! pdf_path = Some (body r) /\
    sink st' = sink st +:+
               (if (String.length (sink st) =? 0)%nat then Csv.header else EmptyString) +:+
               Csv.format_row (row_of md pdf_path) /\
    downloaded_papers st' = downloaded_papers st + 1 /\
    log_queue st' = log_queue st ++
                    [Downloading (Py.last_segment (pdf_url_of href)); Saved pdf_path;
                     DownloadedOf (downloaded_papers st + 1) (total_papers st)] /\
    sent st' = sent st ++ [paper_url; pdf_url_of href] /\
    ui st' = ui st ++ [UpdateScheduled].
Proof.
  intros href pdf_path Hpage Hlink Hnet Hbreak Hopen Hwrite Hsink.
  assert (Hne : pdf_path <> METADATA_FILE)
    by (apply pdf_path_not_sink; eapply pdf_link_href; exact Hlink).
  rewrite download_pdf_fetch, Hpage, Hlink.
  cbv zeta. fold href. fold pdf_path.
  unfold try_except_request.
  unfold log_queue_put at 1. rewrite bind_modify.
  unfold bind at 1. unfold requests_get_stream.
  change (length (sent (set_log_queue _ (requested paper_url st)))) with (length (sent st ++ [paper_url])).
  rewrite length_app, Nat.add_1_r. fold (now st). rewrite Hnet.
  unfold bind at 1. rewrite (save_stream_complete _ _ _ _ Hopen Hwrite Hbreak).
  unfold log_queue_put at 1. rewrite bind_modify.
  unfold bind at 1. rewrite (append_row_eq _ _ _ Hsink).
  eexists. split; [reflexivity|].
  cbn. unfold sink, file_content. cbn.
  assert (Hne' : METADATA_FILE <> pdf_path) by (intros E; apply Hne; symmetry; exact E).
  rewrite (lookup_insert_ne _ METADATA_FILE pdf_path) by exact Hne'.
  rewrite lookup_insert_eq.
  rewrite !(lookup_insert_ne _ pdf_path METADATA_FILE) by exact Hne.
  rewrite lookup_insert_eq.
  rewrite <- !app_assoc.
  repeat split; reflexivity.
Qed.

Lemma C10_asset_status_is_ignored_witness :
  let st := requested Sample.url_a Sample.fresh in
  net Sample.good_world (S (now st)) Sample.pdf_a =
    Answer {| status_code := 404; body := "<html>Not Found</html>"; cut := None |} /\
  exists st',
    download_pdf Sample.good_world Sample.url_a Sample.md_a st = (Ret tt, st') /\
    files st' !! "D:/scraped-pdfs/a-Paper.pdf" = Some "<html>Not Found</html>" /\
    downloaded_papers st' = 1.
Proof.
  split; [reflexivity|].
  destruct (C10_asset_status_is_ignored Sample.good_world Sample.url_a Sample.md_a
              (requested Sample.url_a Sample.fresh) Sample.page_a
              (Sample.anchor "/p/a-Paper.pdf" "Paper")
              {| status_code := 404; body := "<html>Not Found</html>"; cut := None |}
              eq_refl eq_refl eq_refl eq_refl eq_refl eq_refl eq_refl)
    as (st' & Hd & Hf & _ & Hn & _).
  exists st'. split; [exact Hd|]. split; [exact Hf|exact Hn].
Defined.

(** ** Which failures stay inside a unit of work *)

Lemma results_raise futures e :
  In (Raise e) futures -> exists e', forall st, results futures st = (Raise e', st).
Proof.
  induction futures as [|f fs IH]; intros Hin; [destruct Hin|].
  destruct f as [[]|e0].
  - destruct Hin as [Hin|Hin]; [discriminate|]. exact (IH Hin).
  - exists e0. reflexivity.
Qed.

Lemma scrape_years_raise w year rest st e st' :
  scrape_year w year st = (Raise e, st') ->
  scrape_years w (year :: rest) st = (Raise e, st').
Proof. intros H. cbn [scrape_years]. by apply bind_raises. Qed.

Lemma scrape_papers_raise w s e st x st' :
  scrape_years w (year_range s e) st = (Raise x, st') ->
  scrape_papers w s e st = (Raise x, st').
Proof. intros H. unfold scrape_papers. by apply bind_raises. Qed.

(** C2. The code does not keep an io-error inside the unit of work.  On a
    full disk, where the first write to the asset file raises,
    [download_pdf] raises OSError and queues no error line: its only handler
    is for [requests.RequestException].  [future.result()], which the
    comment next to it takes to handle the exceptions of the threads, raises
    the exception again in [scrape_papers]: the batch over 2020..2021 ends
    with it after the units of 2020, the listing of 2021 is never requested
    and [is_scraping] stays set. *)
Lemma C2_io_error_leaves_the_unit :
  let st := requested Sample.url_a Sample.fresh in
  fst (download_pdf Sample.full_disk_world Sample.url_a Sample.md_a st) = Raise OSError /\
  log_queue (snd (download_pdf Sample.full_disk_world Sample.url_a Sample.md_a st)) =
    [Downloading "a-Paper.pdf"] /\
  fst (batch Sample.full_disk_world 2020 2021 Sample.fresh) = Raise OSError /\
  ~ In (year_url 2021) (sent (snd (batch Sample.full_disk_world 2020 2021 Sample.fresh))) /\
  is_scraping (snd (batch Sample.full_disk_world 2020 2021 Sample.fresh)) = true.
Proof.
  cbv zeta. split; [vm_compute; reflexivity|].
  split; [vm_compute; reflexivity|].
  split; [vm_compute; reflexivity|].
  split; [|vm_compute; reflexivity].
  vm_compute. intros H. repeat (destruct H as [H|H]; [discriminate H|]). exact H.
Qed.

(** How far the defect reaches, in any world.  No RequestException ever
    leaves [download_pdf] (the handler queues an error line and the function
    returns).  An io-error does: whenever the asset file cannot be opened,
    or a write to it raises, [download_pdf] raises OSError with no error
    line queued, the sink and the counter unchanged and what was written so
    far left on the disk; an exception kept in a future is raised again by
    [future.result()], and a year that raises ends [scrape_papers] before
    the years after it. *)
Theorem io_errors_leave_download_pdf w paper_url md st :
  fst (download_pdf w paper_url md st) <> Raise RequestException /\
  (forall soup pdf_link r,
     let href := Soup.attr_or_empty "href" pdf_link in
     page_of w (now st) paper_url = Page soup ->
     Soup.select_one (Soup.a_href_endswith ".pdf") soup = Some pdf_link ->
     net w (S (now st)) (pdf_url_of href) = Answer r ->
     storage_fails w (pdf_path_of href) r = true ->
     exists st',
       download_pdf w paper_url md st = (Raise OSError, st') /\
       log_queue st' =
         log_queue st ++ [Downloading (Py.last_segment (pdf_url_of href))] /\
       sink st' = sink st /\
       downloaded_papers st' = downloaded_papers st) /\
  (forall futures e,
     In (Raise e) futures -> exists e', forall st0, results futures st0 = (Raise e', st0)) /\
  (forall year rest s e st0 x st',
     scrape_year w year st0 = (Raise x, st') ->
     scrape_years w (year :: rest) st0 = (Raise x, st') /\
     (year :: rest = year_range s e -> scrape_papers w s e st0 = (Raise x, st'))).
Proof.
  split; [|split; [|split]].
  - unfold download_pdf, try_except_request.
    match goal with |- context [match ?m st with _ => _ end] => destruct (m st) as [[[]|[]] s0] end;
      cbn; discriminate.
  - intros soup pdf_link r href Hpage Hlink Hnet Hfail.
    assert (Hne : pdf_path_of href <> METADATA_FILE)
      by (apply pdf_path_not_sink; eapply pdf_link_href; exact Hlink).
    rewrite download_pdf_fetch, Hpage, Hlink.
    cbv zeta. fold href. unfold try_except_request.
    unfold log_queue_put at 1. rewrite bind_modify.
    unfold bind at 1. unfold requests_get_stream.
    change (length (sent (set_log_queue _ (requested paper_url st))))
      with (length (sent st ++ [paper_url])).
    rewrite length_app, Nat.add_1_r. fold (now st). rewrite Hnet.
    unfold bind at 1.
    match goal with |- context [save_stream w ?p r ?s] =>
      destruct (save_stream_disk_error w p r s Hfail)
        as (st' & Hsave & Hfiles & Hq & Hd & _) end.
    rewrite Hsave. exists st'. split; [reflexivity|].
    split; [exact Hq|]. split; [|exact Hd].
    unfold sink, file_content. rewrite Hfiles; [reflexivity|].
    intros E. apply Hne. symmetry. exact E.
  - intros futures e. apply results_raise.
  - intros year rest s e st0 x st' H.
    pose proof (scrape_years_raise w year rest st0 x st' H) as Hy.
    split; [exact Hy|].
    intros Hr. apply scrape_papers_raise. rewrite <- Hr. exact Hy.
Qed.

Lemma io_error_on_read_only_disk :
  let st := requested Sample.url_a Sample.fresh in
  page_of Sample.read_only_world (now st) Sample.url_a = Page Sample.page_a /\
  storage_fails Sample.read_only_world (pdf_path_of "/p/a-Paper.pdf")
    {| status_code := 404; body := "<html>Not Found</html>"; cut := None |} = true /\
  exists st',
    download_pdf Sample.read_only_world Sample.url_a Sample.md_a st = (Raise OSError, st') /\
    sink st' = sink st.
Proof.
  split; [reflexivity|]. split; [reflexivity|].
  destruct (proj1 (proj2 (io_errors_leave_download_pdf
                            Sample.read_only_world Sample.url_a Sample.md_a
                            (requested Sample.url_a Sample.fresh)))
              Sample.page_a (Sample.anchor "/p/a-Paper.pdf" "Paper")
              {| status_code := 404; body := "<html>Not Found</html>"; cut := None |}
              eq_refl eq_refl eq_refl eq_refl)
    as (st' & Hd & _ & Hs & _).
  exists st'. split; [exact Hd|exact Hs].
Defined.

(** ** The progress state at the start of a batch (start_scraping) *)

(** C9, as the claim states it, fails on the queue.  A batch over 2021,
    whose only paper has no asset link, ends with the warning still queued
    and no [update_progress] scheduled to drain it; the next press of the
    start button starts a batch and leaves that line in the queue. *)
Lemma C9_log_queue_survives_restart :
  let st1 := snd (batch Sample.good_world 2021 2021 Sample.fresh) in
  log_queue st1 = [NoPdfFound Sample.url_b] /\
  ~ In UpdateScheduled (ui st1) /\
  fst (start_scraping Sample.good_world 2021 2021 st1) = Ret (Some (2021, 2021)) /\
  log_queue (snd (start_scraping Sample.good_world 2021 2021 st1)) <> [].
Proof.
  cbv zeta. split; [vm_compute; reflexivity|].
  split; [|split; [vm_compute; reflexivity|vm_compute; discriminate]].
  vm_compute. intros H. repeat (destruct H as [H|H]; [discriminate H|]). exact H.
Qed.

(** C9, amended. At the start of every batch run (a valid range, and a sink
    file that exists or can be created) [start_scraping] sets
    [downloaded_papers] and [total_papers] to 0 and only then starts the
    scraping thread, as its last act; it sends no request.  The log queue is
    not emptied: the lines queued before are still there. *)
Theorem C9_counters_reset_queue_kept w s e st :
  1987 <= s /\ s <= e /\ e <= 2025 ->
  is_Some (files st !! METADATA_FILE) \/ open_fails w METADATA_FILE = false ->
  exists st',
    start_scraping w s e st = (Ret (Some (s, e)), st') /\
    total_papers st' = 0 /\ downloaded_papers st' = 0 /\
    log_queue st' = log_queue st /\
    is_scraping st' = true /\
    sent st' = sent st /\
    ui st' = ui st ++ [LogAreaCleared; ProgressBarSet0; StartButtonDisabled;
                       ThreadStarted s e].
Proof.
  intros Hrange Hfile.
  assert (Hv : range_invalid s e = false).
  { destruct (range_invalid s e) eqn:E; [|reflexivity].
    apply range_invalid_iff in E. contradiction. }
  unfold start_scraping. rewrite bind_modify, Hv.
  unfold init_metadata_file. rewrite bind_assoc, bind_get.
  cbn [files set_downloaded_papers].
  destruct (bool_decide (is_Some (files st !! METADATA_FILE))) eqn:Hex.
  - eexists. split; [reflexivity|]. cbn. rewrite <- !app_assoc. repeat split; reflexivity.
  - destruct Hfile as [Hsome|Hopen].
    + apply bool_decide_eq_false in Hex. contradiction.
    + rewrite Hopen. eexists. split; [reflexivity|].
      cbn. rewrite <- !app_assoc. repeat split; reflexivity.
Qed.

Lemma C9_counters_reset_queue_kept_witness :
  let st1 := snd (batch Sample.good_world 2020 2020 Sample.fresh) in
  downloaded_papers st1 = 1 /\ total_papers st1 = 2 /\
  exists st',
    start_scraping Sample.good_world 2020 2021 st1 = (Ret (Some (2020, 2021)), st') /\
    total_papers st' = 0 /\ downloaded_papers st' = 0 /\
    log_queue st' = log_queue st1.
Proof.
  cbv zeta. split; [reflexivity|]. split; [reflexivity|].
  assert (Hr : 1987 <= 2020 /\ 2020 <= 2021 /\ 2021 <= 2025) by lia.
  destruct (C9_counters_reset_queue_kept Sample.good_world 2020 2021
              (snd (batch Sample.good_world 2020 2020 Sample.fresh)) Hr
              (or_intror eq_refl))
    as (st' & Hs & Ht & Hd & Hq & _).
  exists st'. repeat split; assumption.
Defined.

(** ** Texts that grow *)

Lemma line_count_append (s t : string) :
  Csv.line_count (s +:+ t) = (Csv.line_count s + Csv.line_count t)%nat.
Proof.
  induction s as [|c s IH]; [reflexivity|].
  rewrite append_cons. cbn. rewrite IH. lia.
Qed.

Lemma append_not_empty (s d : string) : s <> EmptyString -> s +:+ d <> EmptyString.
Proof. destruct s; [congruence|]. rewrite append_cons. discriminate. Qed.

(** ** The sink at the start of a batch *)

Lemma length_not_empty (s : string) :
  s <> EmptyString -> (String.length s =? 0)%nat = false.
Proof. by destruct s. Qed.

(** A press of the start button on a valid range starts the thread; the sink
    then is the file as it was, or the header alone when there was no file. *)
Lemma start_scraping_sink w s e st :
  range_invalid s e = false ->
  is_Some (files st !! METADATA_FILE) \/ open_fails w METADATA_FILE = false ->
  exists st',
    start_scraping w s e st = (Ret (Some (s, e)), st') /\
    sink st' = match files st !! METADATA_FILE with
               | Some text => text
               | None => Csv.header
               end.
Proof.
  intros Hv Hfile. unfold start_scraping. rewrite bind_modify, Hv.
  unfold init_metadata_file. rewrite bind_assoc, bind_get.
  cbn [files set_downloaded_papers].
  destruct (files st !! METADATA_FILE) as [text|] eqn:Hm.
  - rewrite bool_decide_eq_true_2 by eauto.
    eexists. split; [reflexivity|]. unfold sink, file_content. cbn. by rewrite Hm.
  - rewrite bool_decide_eq_false_2 by (intros [? ?]; discriminate).
    destruct Hfile as [[? ?]|Hopen]; [discriminate|]. rewrite Hopen.
    eexists. split; [reflexivity|]. unfold sink, file_content. cbn.
    by rewrite lookup_insert_eq.
Qed.

(** ** Workers appending to the sink in any interleaving *)

Lemma line_count_double_quotes s :
  Csv.line_count (Csv.double_quotes s) = Csv.line_count s.
Proof.
  induction s as [|c s IH]; [reflexivity|]. cbn [Csv.double_quotes].
  destruct (Ascii.eqb c Csv.dquote) eqn:E.
  - apply Ascii.eqb_eq in E. subst c. cbn. by rewrite IH.
  - cbn. by rewrite IH.
Qed.

Lemma line_count_field s : Csv.line_count (Csv.field s) = Csv.line_count s.
Proof.
  unfold Csv.field. destruct (Csv.needs_quotes s); [|reflexivity].
  rewrite append_cons. cbn [Csv.line_count].
  rewrite line_count_append, line_count_double_quotes. cbn.
  change (Ascii.eqb Csv.dquote Csv.LF) with false. cbv iota. lia.
Qed.

Lemma line_count_join fields :
  Forall (fun f => Csv.line_count f = O) fields ->
  Csv.line_count (Py.join "," fields) = O.
Proof.
  induction 1 as [|f fs Hf Hfs IH]; [reflexivity|].
  destruct fs as [|g fs]; [exact Hf|].
  change (Py.join "," (f :: g :: fs)) with (f +:+ "," +:+ Py.join "," (g :: fs)).
  rewrite !line_count_append, Hf, IH. reflexivity.
Qed.

Lemma line_count_format_row row :
  Workers.valid_row row = true -> Csv.line_count (Csv.format_row row) = 1%nat.
Proof.
  intros Hv. unfold Csv.format_row. rewrite line_count_append.
  rewrite line_count_join; [reflexivity|].
  unfold Workers.valid_row in Hv. rewrite forallb_forall in Hv.
  apply List.Forall_forall. intros x Hx.
  apply in_map_iff in Hx as (f & <- & Hf).
  rewrite line_count_field. apply Nat.eqb_eq. by apply Hv.
Qed.

Lemma rows_text_cons row rows :
  Workers.rows_text (row :: rows) = Csv.format_row row +:+ Workers.rows_text rows.
Proof. reflexivity. Qed.

Lemma rows_text_app a b :
  Workers.rows_text (a ++ b) = Workers.rows_text a +:+ Workers.rows_text b.
Proof.
  induction a as [|x a IH]; [reflexivity|].
  rewrite <- app_comm_cons, !rows_text_cons, IH. by rewrite append_assoc.
Qed.

Lemma line_count_rows_text rows :
  forallb Workers.valid_row rows = true ->
  Csv.line_count (Workers.rows_text rows) = length rows.
Proof.
  induction rows as [|r rows IH]; [reflexivity|].
  cbn [forallb]. intros [Hr Hrows]%andb_true_iff.
  rewrite rows_text_cons, line_count_append, line_count_format_row, IH by assumption. reflexivity.
Qed.

Lemma forallb_permutation {A} (f : A -> bool) (l l' : list A) :
  l ≡ₚ l' -> forallb f l = forallb f l'.
Proof.
  induction 1 as [|x l l' _ IH|x y l|l l' l'' _ IH1 _ IH2]; cbn.
  - reflexivity.
  - by rewrite IH.
  - destruct (f x), (f y); reflexivity.
  - by rewrite IH1.
Qed.

Lemma run_reaches schedule c : rtc Workers.step c (Workers.run schedule c).
Proof.
  revert c. induction schedule as [|i schedule IH]; intros c; [apply rtc_refl|].
  cbn. etrans; [|apply IH].
  unfold Workers.move. destruct c as [file ws]. cbn.
  destruct (ws !! i) as [wk|] eqn:Hi; [|apply rtc_refl].
  destruct (Workers.exec file wk) as [[file' pc']|] eqn:He; [|apply rtc_refl].
  apply rtc_once. by econstructor.
Qed.

Lemma move_middle pre wk post file :
  Workers.move (length pre) (file, pre ++ wk :: post) =
  match Workers.exec file wk with
  | Some (file', pc') =>
      (file', pre ++ {| Workers.metadata_row := Workers.metadata_row wk;
                        Workers.at_pc := pc' |} :: post)
  | None => (file, pre ++ wk :: post)
  end.
Proof.
  unfold Workers.move. cbn [fst snd].
  rewrite list_lookup_middle by reflexivity.
  destruct (Workers.exec file wk) as [[file' pc']|]; [|reflexivity].
  rewrite insert_app_r_alt by reflexivity.
  by rewrite Nat.sub_diag.
Qed.

(** One worker alone: its four statements append the row, after a header
    when it found the file empty. *)
Lemma four_moves pre row post file :
  Workers.run [length pre; length pre; length pre; length pre]
    (file, pre ++ {| Workers.metadata_row := row; Workers.at_pc := Workers.AtOpen |} :: post) =
  (file +:+ (if (String.length file =? 0)%nat then Csv.header else EmptyString)
        +:+ Csv.format_row row,
   pre ++ {| Workers.metadata_row := row; Workers.at_pc := Workers.Finished |} :: post).
Proof.
  unfold Workers.run. cbn [fold_left].
  rewrite move_middle. cbn [Workers.exec Workers.at_pc Workers.metadata_row].
  rewrite move_middle. cbn [Workers.exec Workers.at_pc Workers.metadata_row].
  rewrite move_middle. cbn [Workers.exec Workers.at_pc Workers.metadata_row].
  rewrite move_middle. cbn [Workers.exec Workers.at_pc Workers.metadata_row].
  reflexivity.
Qed.

(** The block of [download_pdf] is this machine with one worker. *)
Lemma append_row_is_one_worker w row st :
  open_fails w METADATA_FILE = false ->
  sink (snd (append_row w row st)) =
  fst (Workers.run [0; 0; 0; 0]%nat (sink st, Workers.start [row])).
Proof.
  intros Ho. rewrite (append_row_eq _ _ _ Ho).
  pose proof (four_moves [] row [] (sink st)) as H4.
  change (Workers.run [0; 0; 0; 0]%nat (sink st, Workers.start [row]) = 
          (sink st +:+ (if (String.length (sink st) =? 0)%nat then Csv.header else EmptyString)
              +:+ Csv.format_row row,
           [{| Workers.metadata_row := row; Workers.at_pc := Workers.Finished |}])) in H4.
  rewrite H4.
  cbn. unfold sink at 1, file_content at 1. cbn. by rewrite lookup_insert_eq.
Qed.

Lemma one_by_one_finishes rows : forall pre file,
  forallb Workers.is_finished pre = true ->
  Workers.all_finished
    (Workers.run (Workers.one_by_one (length pre) (length rows))
                 (file, pre ++ Workers.start rows)).
Proof.
  induction rows as [|row rows IH]; intros pre file Hpre.
  - unfold Workers.all_finished. cbn. by rewrite app_nil_r.
  - cbn [length]. unfold Workers.one_by_one. cbn [seq flat_map].
    unfold Workers.run. rewrite fold_left_app.
    fold (Workers.run [length pre; length pre; length pre; length pre]
            (file, pre ++ Workers.start (row :: rows))).
    cbn [Workers.start map]. rewrite four_moves.
    rewrite (cons_middle _ pre), app_assoc.
    specialize (IH (pre ++ [{| Workers.metadata_row := row;
                               Workers.at_pc := Workers.Finished |}])).
    rewrite length_app, Nat.add_1_r in IH.
    apply IH. rewrite forallb_app, Hpre. reflexivity.
Qed.

Lemma filter_insert_same ws : forall i wk wk',
  ws !! i = Some wk ->
  Workers.is_finished wk = false -> Workers.is_finished wk' = false ->
  List.filter Workers.is_finished (<[i := wk']> ws) = List.filter Workers.is_finished ws.
Proof.
  induction ws as [|x ws IH]; intros [|i] wk wk' Hi Hwk Hwk'; try discriminate.
  - cbn in Hi. injection Hi as ->.
    change (<[0%nat := wk']> (wk :: ws)) with (wk' :: ws).
    cbn [List.filter]. by rewrite Hwk, Hwk'.
  - cbn in Hi. change (<[S i := wk']> (x :: ws)) with (x :: <[i := wk']> ws).
    cbn [List.filter]. by rewrite (IH i wk wk').
Qed.

Lemma filter_insert_finishing ws : forall i wk wk',
  ws !! i = Some wk ->
  Workers.is_finished wk = false -> Workers.is_finished wk' = true ->
  List.filter Workers.is_finished (<[i := wk']> ws) ≡ₚ
  wk' :: List.filter Workers.is_finished ws.
Proof.
  induction ws as [|x ws IH]; intros [|i] wk wk' Hi Hwk Hwk'; try discriminate.
  - cbn in Hi. injection Hi as ->.
    change (<[0%nat := wk']> (wk :: ws)) with (wk' :: ws).
    cbn [List.filter]. by rewrite Hwk, Hwk'.
  - cbn in Hi. change (<[S i := wk']> (x :: ws)) with (x :: <[i := wk']> ws).
    cbn [List.filter]. destruct (Workers.is_finished x).
    + rewrite (IH i wk wk') by assumption. apply perm_swap.
    + by apply (IH i wk wk').
Qed.

Lemma filter_all_finished ws :
  forallb Workers.is_finished ws = true -> List.filter Workers.is_finished ws = ws.
Proof.
  induction ws as [|x ws IH]; [reflexivity|].
  cbn. intros [Hx Hws]%andb_true_iff. by rewrite Hx, IH.
Qed.

Lemma invariant_start init rows :
  Workers.invariant init rows (init, Workers.start rows).
Proof.
  unfold Workers.invariant. cbn [fst snd]. split; [|split].
  - unfold Workers.start. rewrite map_map. cbn. apply map_id.
  - unfold Workers.start. apply List.Forall_forall. intros wk Hin.
    apply in_map_iff in Hin as (row & <- & _). exact I.
  - exists []. split; [|by rewrite append_nil_r].
    unfold Workers.finished_rows, Workers.start.
    induction rows as [|r rows IH]; [reflexivity|exact IH].
Qed.

Lemma map_insert_same_image {A B} (f : A -> B) (l : list A) : forall i x y,
  l !! i = Some y -> f x = f y -> map f (<[i := x]> l) = map f l.
Proof.
  induction l as [|a l IH]; intros [|i] x y Hi Hf; try discriminate.
  - cbn in Hi. injection Hi as ->. cbn. by rewrite Hf.
  - cbn in Hi. change (<[S i := x]> (a :: l)) with (a :: <[i := x]> l).
    cbn [map]. by rewrite (IH i x y).
Qed.

Lemma invariant_step init rows c c' :
  init <> EmptyString ->
  Workers.invariant init rows c -> Workers.step c c' -> Workers.invariant init rows c'.
Proof.
  intros Hinit (Hrows & Hfree & order & Hperm & Hfile) Hstep.
  destruct Hstep as [i file ws wk file' pc' Hi Hexec].
  unfold Workers.invariant. cbn [fst snd] in *.
  assert (Hwk : Workers.header_free wk)
    by (rewrite List.Forall_forall in Hfree; apply Hfree; eapply list_elem_of_In, list_elem_of_lookup_2; exact Hi).
  assert (Hlen : String.length file <> O).
  { rewrite Hfile, append_length. destruct init; [congruence|]. cbn. lia. }
  split; [|split].
  - rewrite <- Hrows. by apply (map_insert_same_image _ _ _ _ wk).
  - apply Forall_insert; [exact Hfree|].
    unfold Workers.exec in Hexec. unfold Workers.header_free in *. cbn.
    destruct (Workers.at_pc wk) as [|pos|buf|buf|]; try discriminate;
      injection Hexec as <- <-; try exact I.
    + exact Hlen.
    + apply Nat.eqb_neq in Hwk. by rewrite Hwk.
    + by rewrite Hwk.
  - unfold Workers.exec in Hexec. unfold Workers.finished_rows.
    destruct (Workers.at_pc wk) as [|pos|buf|buf|] eqn:Hpc; try discriminate;
      injection Hexec as <- <-.
    1-3: exists order; split; [|exact Hfile];
         rewrite (filter_insert_same ws i wk) by
           (first [exact Hi | unfold Workers.is_finished; cbn; by rewrite ?Hpc]);
         exact Hperm.
    exists (order ++ [Workers.metadata_row wk]). split.
    + rewrite (filter_insert_finishing ws i wk) by
        (first [exact Hi | unfold Workers.is_finished; cbn; by rewrite ?Hpc]).
      cbn [map Workers.metadata_row].
      rewrite <- Permutation_cons_append. by apply perm_skip.
    + rewrite rows_text_app, Hfile, append_assoc. f_equal. f_equal.
      unfold Workers.header_free in Hwk. rewrite Hpc in Hwk. subst buf.
      unfold Workers.rows_text. cbn. by rewrite append_nil_r.
Qed.

Lemma invariant_reach init rows c :
  init <> EmptyString ->
  rtc Workers.step (init, Workers.start rows) c -> Workers.invariant init rows c.
Proof.
  intros Hinit Hsteps.
  revert c Hsteps.
  apply (rtc_ind_r (R:=Workers.step) (Workers.invariant init rows));
    [apply invariant_start|].
  intros y z _ Hyz IH. by apply (invariant_step init rows y z).
Qed.

(** C1, as the claim states it, fails on an empty sink.  A sink file that
    exists and is empty is left empty by [start_scraping]; when two workers
    then open it before either has written, both find position 0 and both
    add a header, so the file ends with four lines for two rows. *)
Lemma C1_two_headers_on_empty_sink :
  sink (snd (start_scraping Sample.good_world 2020 2020
               (initial_state {[METADATA_FILE := EmptyString]}))) = EmptyString /\
  ~ (forall rows c,
       NoDup rows -> forallb Workers.valid_row rows = true ->
       rtc Workers.step (EmptyString, Workers.start rows) c ->
       Workers.all_finished c ->
       Csv.line_count (fst c) = S (length rows)).
Proof.
  split; [vm_compute; reflexivity|].
  intros H.
  specialize (H [SampleRows.row1; SampleRows.row2]
                (Workers.run SampleRows.racing
                   (EmptyString, Workers.start [SampleRows.row1; SampleRows.row2]))).
  assert (Hd : NoDup [SampleRows.row1; SampleRows.row2]).
  { apply NoDup_cons. split; [|apply NoDup_cons; split; [|apply NoDup_nil_2]].
    - intros Hin. apply list_elem_of_In in Hin. destruct Hin as [Hin|[]]. discriminate Hin.
    - intros Hin. apply list_elem_of_In in Hin. destruct Hin. }
  specialize (H Hd eq_refl (run_reaches _ _) eq_refl).
  vm_compute in H. discriminate H.
Qed.

(** C1, amended. Take N workers appending N rows to a sink that is not
    empty when they start (it holds the header, as [start_scraping] leaves a
    file it creates), each worker's buffered text reaching the file as one
    append when it leaves the block.  The workers can always run to the end,
    and however their statements interleave, the file then is what the sink
    held followed by the N rows in some order, each row whole and no further
    header: N more lines when the rows are valid, N+1 lines in all on a sink
    that held the header alone. *)
Theorem C1_rows_whole_after_existing_content rows init :
  init <> EmptyString ->
  (exists c, rtc Workers.step (init, Workers.start rows) c /\ Workers.all_finished c) /\
  (forall c,
     rtc Workers.step (init, Workers.start rows) c ->
     Workers.all_finished c ->
     exists order,
       order ≡ₚ rows /\
       fst c = init +:+ Workers.rows_text order /\
       (forallb Workers.valid_row rows = true ->
          Csv.line_count (fst c) = (Csv.line_count init + length rows)%nat /\
          (init = Csv.header -> Csv.line_count (fst c) = S (length rows)))).
Proof.
  intros Hinit. split.
  - exists (Workers.run (Workers.one_by_one 0 (length rows)) (init, Workers.start rows)).
    split; [apply run_reaches|].
    apply (one_by_one_finishes rows [] init). reflexivity.
  - intros c Hsteps Hfin.
    destruct (invariant_reach init rows c Hinit Hsteps)
      as (Hrows & _ & order & Hperm & Hfile).
    unfold Workers.finished_rows in Hperm.
    rewrite (filter_all_finished _ Hfin), Hrows in Hperm.
    exists order. split; [exact Hperm|]. split; [exact Hfile|].
    intros Hvalid.
    assert (Hcount : Csv.line_count (fst c) = (Csv.line_count init + length rows)%nat).
    { rewrite Hfile, line_count_append, line_count_rows_text.
      - by rewrite (Permutation_length Hperm).
      - by rewrite (forallb_permutation _ _ _ Hperm). }
    split; [exact Hcount|].
    intros ->. rewrite Hcount. reflexivity.
Qed.

Lemma C1_rows_whole_after_existing_content_witness :
  Csv.header <> EmptyString /\
  exists order,
    order ≡ₚ [SampleRows.row1; SampleRows.row2] /\
    fst (Workers.run SampleRows.racing
           (Csv.header, Workers.start [SampleRows.row1; SampleRows.row2]))
      = Csv.header +:+ Workers.rows_text order.
Proof.
  assert (Hh : Csv.header <> EmptyString) by discriminate.
  split; [exact Hh|].
  destruct (proj2 (C1_rows_whole_after_existing_content
                     [SampleRows.row1; SampleRows.row2] Csv.header Hh)
              (Workers.run SampleRows.racing
                 (Csv.header, Workers.start [SampleRows.row1; SampleRows.row2]))
              (run_reaches _ _) eq_refl)
    as (order & Hperm & Hfile & _).
  exists order. split; [exact Hperm|exact Hfile].
Defined.

(** ** The pool: what the threads are bound to add to the sink *)

(** *** Code run with no other thread in between *)

Lemma run_finish {A} (o : outcome A) st : Pool.run (Pool.finish o) st = (o, st).
Proof. by destruct o. Qed.

Lemma run_lift {X} (m : M X) st : Pool.run (Pool.lift m) st = m st.
Proof.
  unfold Pool.lift. cbn [Pool.run]. destruct (m st) as [o st']. apply run_finish.
Qed.

Lemma run_tbind {A B} (p : Pool.thread A) (f : A -> Pool.thread B) st :
  Pool.run (Pool.tbind p f) st = bind (Pool.run p) (fun a => Pool.run (f a)) st.
Proof.
  revert st. induction p as [a|e|X m k IH]; intros st; try reflexivity.
  cbn [Pool.tbind Pool.run]. unfold bind at 1. cbn [Pool.run].
  destruct (m st) as [o st']. apply IH.
Qed.

Lemma run_try_except {A} (p h : Pool.thread A) st :
  Pool.run (Pool.try_except p h) st = try_except_request (Pool.run p) (Pool.run h) st.
Proof.
  revert st. induction p as [a|e|X m k IH]; intros st.
  - reflexivity.
  - by destruct e.
  - cbn [Pool.try_except Pool.run]. unfold try_except_request at 1. cbn [Pool.run].
    destruct (m st) as [o st']. apply IH.
Qed.

Lemma bind_ext {A B} (m m' : M A) (k k' : A -> M B) st :
  (forall s, m s = m' s) -> (forall a s, k a s = k' a s) ->
  bind m k st = bind m' k' st.
Proof.
  intros Hm Hk. unfold bind. rewrite Hm.
  destruct (m' st) as [[a|e] st']; [apply Hk|reflexivity].
Qed.

Lemma try_ext {A} (m m' h h' : M A) st :
  (forall s, m s = m' s) -> (forall s, h s = h' s) ->
  try_except_request m h st = try_except_request m' h' st.
Proof.
  intros Hm Hh. unfold try_except_request. rewrite Hm.
  destruct (m' st) as [[a|[]] st']; try reflexivity. apply Hh.
Qed.

(** Each function taken statement by statement and run without
    interruption is the function as embedded above. *)

Ltac run_link :=
  repeat first
    [ rewrite run_tbind; apply bind_ext; [intros ?; apply run_lift|intros ? ?]
    | rewrite run_try_except; apply try_ext; intros ?
    | apply run_lift
    | reflexivity ].

Lemma run_get_paper_links_task w year st :
  Pool.run (Pool.get_paper_links_task w year) st = get_paper_links w year st.
Proof. unfold Pool.get_paper_links_task, get_paper_links. run_link. Qed.

Lemma run_fetch_metadata_task w paper_url st :
  Pool.run (Pool.fetch_metadata_task w paper_url) st = fetch_metadata w paper_url st.
Proof. unfold Pool.fetch_metadata_task, fetch_metadata. run_link. Qed.

Lemma run_write_chunks_task w path cut chunks : forall i st,
  Pool.run (Pool.write_chunks_task w path cut i chunks) st = write_chunks w path cut i chunks st.
Proof.
  induction chunks as [|c rest IH]; intros i st; [reflexivity|].
  cbn [Pool.write_chunks_task write_chunks].
  destruct (match cut with Some k => (k <=? i)%nat | None => false end); [reflexivity|].
  rewrite run_tbind. unfold bind at 1. rewrite run_lift. unfold Pool.write_chunk.
  destruct (match write_fails_at w path with Some j => (j =? i)%nat | None => false end);
    [reflexivity|].
  unfold bind. cbn [modify]. apply IH.
Qed.

Lemma run_save_stream_task w pdf_path pdf_response st :
  Pool.run (Pool.save_stream_task w pdf_path pdf_response) st
  = save_stream w pdf_path pdf_response st.
Proof.
  unfold Pool.save_stream_task, save_stream.
  rewrite run_tbind. unfold bind at 1. rewrite run_lift. unfold Pool.open_wb.
  destruct (open_fails w pdf_path); [reflexivity|].
  unfold bind. cbn [modify]. apply run_write_chunks_task.
Qed.

Lemma sink_set_files st text rest :
  sink (set_files (<[METADATA_FILE := text]> rest) st) = text.
Proof. unfold sink, file_content. cbn. by rewrite lookup_insert_eq. Qed.

Lemma run_append_row_task w row st :
  Pool.run (Pool.append_row_task w row) st = append_row w row st.
Proof.
  unfold Pool.append_row_task, append_row. cbn. unfold Pool.open_append.
  destruct (open_fails w METADATA_FILE); [reflexivity|].
  cbn. unfold modify. f_equal. rewrite sink_set_files.
  unfold set_files. cbn. f_equal. by rewrite insert_insert_eq.
Qed.

Lemma run_count_task st :
  Pool.run Pool.count_task st
  = modify (fun st => set_downloaded_papers (downloaded_papers st + 1) st) st.
Proof. reflexivity. Qed.

Lemma run_download_task w paper_url md st :
  Pool.run (Pool.download_task w paper_url md) st = download_pdf w paper_url md st.
Proof.
  unfold Pool.download_task, download_pdf.
  rewrite run_try_except; apply try_ext; [intros s|intros s; apply run_lift].
  rewrite run_tbind; apply bind_ext; [intros ?; apply run_lift|intros response s1].
  rewrite run_tbind; apply bind_ext; [intros ?; apply run_lift|intros _ s2].
  rewrite run_tbind; apply bind_ext; [intros ?; apply run_lift|intros soup s3].
  destruct (Soup.select_one (Soup.a_href_endswith ".pdf") soup) as [pdf_link|];
    [|apply run_lift].
  rewrite run_tbind; apply bind_ext; [intros ?; apply run_lift|intros _ s4].
  rewrite run_tbind; apply bind_ext; [intros ?; apply run_lift|intros pdf_response s5].
  rewrite run_tbind; apply bind_ext; [intros ?; apply run_save_stream_task|intros _ s6].
  rewrite run_tbind; apply bind_ext; [intros ?; apply run_lift|intros _ s7].
  rewrite run_tbind; apply bind_ext; [intros ?; apply run_append_row_task|intros _ s8].
  rewrite run_tbind; apply bind_ext; [intros ?; apply run_count_task|intros _ s9].
  run_link.
Qed.

Lemma run_main_in_main {X} (p : Pool.thread X) k futures st :
  Pool.run_main (Pool.in_main p k) futures st
  = Pool.run_main (k (fst (Pool.run p st))) futures (snd (Pool.run p st)).
Proof.
  revert st. induction p as [a|e|Y m k' IH]; intros st; try reflexivity.
  cbn [Pool.in_main Pool.run_main Pool.run].
  destruct (m st) as [o st']. apply IH.
Qed.

(** The [with] block of a year, with each call run as it is submitted, is
    [submit_all] followed by [results]. *)
Lemma run_main_submit_loop w after paper_links : forall futures st,
  Pool.run_main (Pool.submit_loop w paper_links after) futures st
  = match submit_all w paper_links st with
    | (Ret more, st') =>
        match results (futures ++ more) st' with
        | (Ret _, st'') => Pool.run_main after [] st''
        | (Raise e, st'') => (Raise e, st'')
        end
    | (Raise e, st') => (Raise e, st')
    end.
Proof.
  induction paper_links as [|paper_url rest IH]; intros futures st.
  - cbn [Pool.submit_loop Pool.run_main submit_all]. unfold ret at 1.
    rewrite app_nil_r. by destruct (results futures st) as [[[]|e] st'].
  - cbn [Pool.submit_loop submit_all]. rewrite run_main_in_main.
    rewrite run_fetch_metadata_task. unfold paper_unit, bind at 1 2.
    destruct (fetch_metadata w paper_url st) as [[[md|]|e] st1]; cbn [fst snd].
    + cbn [Pool.run_main]. rewrite run_download_task. unfold submit, bind at 1.
      destruct (download_pdf w paper_url md st1) as [o st2].
      rewrite IH. unfold ret at 1, bind.
      destruct (submit_all w rest st2) as [[more|e] st3]; [|reflexivity].
      unfold ret. by rewrite <- app_assoc.
    + rewrite IH. unfold ret at 1, bind.
      destruct (submit_all w rest st1) as [[more|e] st3]; reflexivity.
    + reflexivity.
Qed.

Lemma run_main_scrape_year_thread w year after st :
  Pool.run_main (Pool.scrape_year_thread w year after) [] st
  = match scrape_year w year st with
    | (Ret _, st') => Pool.run_main after [] st'
    | (Raise e, st') => (Raise e, st')
    end.
Proof.
  unfold Pool.scrape_year_thread, scrape_year.
  rewrite run_main_in_main, run_get_paper_links_task. unfold bind at 1.
  destruct (get_paper_links w year st) as [[paper_links|e] st1]; cbn [fst snd];
    [|reflexivity].
  cbn [Pool.run_main get modify fst snd]. rewrite run_main_submit_loop.
  unfold bind, modify. cbn [app].
  destruct (submit_all w paper_links _) as [[more|e] st2]; [|reflexivity].
  by destruct (results more st2) as [[[]|e] st3].
Qed.

(** The schedule that runs every call as it is submitted is the scraping
    thread as embedded above. *)
Lemma run_main_scrape_papers_thread w start_year end_year st :
  Pool.run_main (Pool.scrape_papers_thread w start_year end_year) [] st
  = scrape_papers w start_year end_year st.
Proof.
  unfold Pool.scrape_papers_thread, scrape_papers.
  generalize (year_range start_year end_year) as years. intros years. revert st.
  induction years as [|year rest IH]; intros st; [reflexivity|].
  cbn [Pool.scrape_years_thread scrape_years].
  rewrite run_main_scrape_year_thread. unfold bind at 1 2.
  destruct (scrape_year w year st) as [[[]|e] st1]; [|reflexivity].
  rewrite IH. reflexivity.
Qed.

(** *** What a piece of code is bound to add: the rules *)

Lemma yields_finish {A} (o : outcome A) : Pool.yields (Pool.finish o) [] 0 o.
Proof. by destruct o. Qed.

Lemma yields_lift {X} (m : M X) o : Pool.silent m o -> Pool.yields (Pool.lift m) [] 0 o.
Proof.
  intros H. cbn. exists [], O, [], O. split; [done|]. split; [done|].
  intros st _. destruct (H st) as (Ho & Hs & Hp).
  rewrite Hs, Hp, Ho, append_nil_r, Nat.add_0_r. auto using yields_finish.
Qed.

Lemma yields_tbind {A B} (p : Pool.thread A) (f : A -> Pool.thread B)
    rows1 n1 o rows2 n2 r :
  Pool.yields p rows1 n1 o ->
  Pool.yields (Pool.tbind (Pool.finish o) f) rows2 n2 r ->
  Pool.yields (Pool.tbind p f) (rows1 ++ rows2) (n1 + n2) r.
Proof.
  revert rows1 n1. induction p as [a|e|X m k IH]; intros rows1 n1 Hp Hf.
  - destruct Hp as (-> & -> & ->). exact Hf.
  - destruct Hp as (-> & -> & ->). exact Hf.
  - destruct Hp as (ra & na & rb & nb & -> & -> & Hp).
    cbn [Pool.tbind Pool.yields].
    exists ra, na, (rb ++ rows2), (nb + n2)%nat.
    split; [by rewrite app_assoc|]. split; [lia|].
    intros st Hst. destruct (Hp st Hst) as (Hs & Hn & Hk).
    split; [exact Hs|]. split; [exact Hn|]. by apply IH.
Qed.

Lemma yields_try_except {A} (p h : Pool.thread A) rows1 n1 o rows2 n2 r :
  Pool.yields p rows1 n1 o ->
  Pool.yields (Pool.caught o h) rows2 n2 r ->
  Pool.yields (Pool.try_except p h) (rows1 ++ rows2) (n1 + n2) r.
Proof.
  revert rows1 n1. induction p as [a|e|X m k IH]; intros rows1 n1 Hp Hh.
  - destruct Hp as (-> & -> & ->). exact Hh.
  - destruct Hp as (-> & -> & ->). by destruct e.
  - destruct Hp as (ra & na & rb & nb & -> & -> & Hp).
    cbn [Pool.try_except Pool.yields].
    exists ra, na, (rb ++ rows2), (nb + n2)%nat.
    split; [by rewrite app_assoc|]. split; [lia|].
    intros st Hst. destruct (Hp st Hst) as (Hs & Hn & Hk).
    split; [exact Hs|]. split; [exact Hn|]. by apply IH.
Qed.

(** A silent statement and what follows it. *)
Lemma yields_step {X B} (m : M X) o (f : X -> Pool.thread B) rows n r :
  Pool.silent m o ->
  Pool.yields (Pool.tbind (Pool.finish o) f) rows n r ->
  Pool.yields (Pool.tbind (Pool.lift m) f) rows n r.
Proof.
  intros Hm Hf.
  exact (yields_tbind (Pool.lift m) f [] O o rows n r (yields_lift m o Hm) Hf).
Qed.

(** Whatever the body is bound to do, so is the [try] block around it when
    the handler adds nothing. *)
Lemma yields_try_total {A} (p h : Pool.thread A) rows n o r' :
  Pool.yields p rows n o ->
  Pool.yields h [] 0 r' ->
  exists r, Pool.yields (Pool.try_except p h) rows n r.
Proof.
  intros Hp Hh.
  assert (Hc : exists r, Pool.yields (Pool.caught o h) [] 0 r).
  { destruct o as [a|[]]; cbn; eauto. }
  destruct Hc as [r Hc]. exists r.
  rewrite <- (app_nil_r rows), <- (Nat.add_0_r n).
  by eapply yields_try_except.
Qed.

(** *** The statements that add nothing *)

Lemma silent_pure {X} (m : M X) o : (forall st, m st = (o, st)) -> Pool.silent m o.
Proof. intros H st. by rewrite H. Qed.

Lemma silent_modify f :
  (forall st, files (f st) !! METADATA_FILE = files st !! METADATA_FILE) ->
  (forall st, ui (f st) = ui st) ->
  Pool.silent (modify f) (Ret tt).
Proof.
  intros Hf Hu st. cbn. split; [done|].
  unfold sink, file_content, Pool.polls. by rewrite Hf, Hu.
Qed.

Lemma silent_logging_record r : Pool.silent (logging_record r) (Ret tt).
Proof. by apply silent_modify. Qed.

Lemma silent_log_queue_put l : Pool.silent (log_queue_put l) (Ret tt).
Proof. by apply silent_modify. Qed.

Lemma silent_raise_for_status r : exists o, Pool.silent (raise_for_status r) o.
Proof.
  unfold raise_for_status.
  destruct (_ && _); eexists; apply silent_pure; reflexivity.
Qed.

Lemma silent_BeautifulSoup w markup : exists o, Pool.silent (BeautifulSoup w markup) o.
Proof.
  unfold BeautifulSoup.
  destruct (html_parser w markup); eexists; apply silent_pure; reflexivity.
Qed.

Lemma silent_results futures : exists o, Pool.silent (results futures) o.
Proof.
  induction futures as [|[[]|e] fs IH]; cbn [results];
    [|exact IH|]; eexists; apply silent_pure; reflexivity.
Qed.

Section StationaryPool.

Variable w : world.
Hypothesis Hstat : stationary w.

Lemma silent_requests_get url : exists o, Pool.silent (requests_get w url) o.
Proof.
  exists (match net w 0%nat url with
          | Unreachable => Raise RequestException
          | Answer r => if breaks r then Raise RequestException else Ret r
          end).
  intros st. unfold requests_get. rewrite (Hstat (length (sent st))).
  destruct (net w 0%nat url) as [|r]; [done|]. by destruct (breaks r).
Qed.

Lemma silent_requests_get_stream url : exists o, Pool.silent (requests_get_stream w url) o.
Proof.
  exists (match net w 0%nat url with
          | Unreachable => Raise RequestException
          | Answer r => Ret r
          end).
  intros st. unfold requests_get_stream. rewrite (Hstat (length (sent st))).
  by destruct (net w 0%nat url) as [|r].
Qed.

End StationaryPool.

(** *** What a download is bound to add *)

Lemma silent_open_wb w path :
  path <> METADATA_FILE -> exists o, Pool.silent (Pool.open_wb w path) o.
Proof.
  intros Hne. unfold Pool.open_wb. destruct (open_fails w path).
  - eexists. apply silent_pure. reflexivity.
  - eexists. apply silent_modify; [|done]. intros st. cbn. by rewrite lookup_insert_ne.
Qed.

Lemma silent_write_chunk w path i chunk :
  path <> METADATA_FILE -> exists o, Pool.silent (Pool.write_chunk w path i chunk) o.
Proof.
  intros Hne. unfold Pool.write_chunk.
  destruct (match write_fails_at w path with Some j => (j =? i)%nat | None => false end).
  - eexists. apply silent_pure. reflexivity.
  - eexists. apply silent_modify; [|done]. intros st. cbn. by rewrite lookup_insert_ne.
Qed.

Lemma write_chunks_task_yields w path cut chunks :
  path <> METADATA_FILE ->
  forall i, exists r, Pool.yields (Pool.write_chunks_task w path cut i chunks) [] 0 r.
Proof.
  intros Hne. induction chunks as [|c rest IH]; intros i; cbn [Pool.write_chunks_task].
  - by exists (Ret tt).
  - destruct (match cut with Some k => (k <=? i)%nat | None => false end).
    { by exists (Raise RequestException). }
    destruct (silent_write_chunk w path i c Hne) as [[[]|e] Ho].
    + destruct (IH (S i)) as [r Hr]. exists r.
      eapply yields_step; [exact Ho|exact Hr].
    + exists (Raise e). eapply yields_step; [exact Ho|done].
Qed.

Lemma save_stream_task_yields w path pdf_response :
  path <> METADATA_FILE ->
  exists r, Pool.yields (Pool.save_stream_task w path pdf_response) [] 0 r.
Proof.
  intros Hne. unfold Pool.save_stream_task.
  destruct (silent_open_wb w path Hne) as [[[]|e] Ho].
  - destruct (write_chunks_task_yields w path (cut pdf_response)
                (Py.iter_content 1024 (body pdf_response)) Hne 0%nat) as [r Hr].
    exists r. eapply yields_step; [exact Ho|exact Hr].
  - exists (Raise e). eapply yields_step; [exact Ho|done].
Qed.

(** The block that appends the row, on a sink that is not empty: the row,
    whole and with no header, unless the file cannot be opened. *)
Lemma append_row_task_yields w row :
  exists rows r,
    Pool.yields (Pool.append_row_task w row) rows 0 r /\
    (r = Ret tt /\ rows = [row] \/ r = Raise OSError /\ rows = []).
Proof.
  unfold Pool.append_row_task, Pool.open_append.
  destruct (open_fails w METADATA_FILE) eqn:Hopen.
  - exists [], (Raise OSError). split; [|by right].
    cbn. exists [], O, [], O. split; [done|]. split; [done|].
    intros st _. cbn. by rewrite append_nil_r, Nat.add_0_r.
  - exists [row], (Ret tt). split; [|by left].
    cbn.
    exists [], O, [row], O. split; [done|]. split; [done|].
    intros st Hst. cbn [fst snd]. rewrite sink_set_files, append_nil_r.
    split; [done|]. split; [unfold Pool.polls; cbn; lia|].
    cbn. exists [], O, [row], O. split; [done|]. split; [done|].
    intros st1 Hst1. rewrite append_nil_r, Nat.add_0_r.
    split; [done|]. split; [done|].
    cbn. exists [], O, [row], O. split; [done|]. split; [done|].
    intros st2 Hst2. rewrite append_nil_r, Nat.add_0_r.
    split; [done|]. split; [done|].
    cbn. exists [row], O, [], O. split; [done|]. split; [done|].
    intros st3 Hst3. rewrite sink_set_files.
    rewrite (length_not_empty _ Hst). cbn.
    split; [by rewrite append_nil_r|]. split; [unfold Pool.polls; cbn; lia|done].
Qed.

(** The last statements of a download: the counter, the progress line and
    the poll. *)
Lemma count_and_report_yields :
  Pool.yields
    (Pool.tbind Pool.count_task (fun _ =>
     Pool.tbind (Pool.lift (get downloaded_papers)) (fun done =>
     Pool.tbind (Pool.lift (get total_papers)) (fun total =>
     Pool.tbind (Pool.lift (log_queue_put (DownloadedOf done total))) (fun _ =>
     Pool.lift (ui_do UpdateScheduled))))))
    [] 1 (Ret tt).
Proof.
  cbn. exists [], O, [], 1%nat. split; [done|]. split; [done|].
  intros st _. rewrite append_nil_r, Nat.add_0_r. split; [done|]. split; [done|].
  cbn. exists [], O, [], 1%nat. split; [done|]. split; [done|].
  intros st1 _. rewrite append_nil_r, Nat.add_0_r. split; [done|]. split; [done|].
  cbn. exists [], O, [], 1%nat. split; [done|]. split; [done|].
  intros st2 _. rewrite append_nil_r, Nat.add_0_r. split; [done|]. split; [done|].
  cbn. exists [], O, [], 1%nat. split; [done|]. split; [done|].
  intros st3 _. rewrite append_nil_r, Nat.add_0_r. split; [done|]. split; [done|].
  cbn. exists [], O, [], 1%nat. split; [done|]. split; [done|].
  intros st4 _. rewrite append_nil_r, Nat.add_0_r. split; [done|]. split; [done|].
  cbn. exists [], 1%nat, [], O. split; [done|]. split; [done|].
  intros st5 _. rewrite append_nil_r. split; [done|].
  split; [|done].
  unfold Pool.polls. cbn. rewrite List.filter_app, length_app. reflexivity.
Qed.

Ltac silent_steps :=
  repeat (eapply yields_step; [eassumption|]; cbn [Pool.finish Pool.tbind]).

Section StationaryYields.

Variable w : world.
Hypothesis Hstat : stationary w.

(** With an archive that answers alike whenever it is asked, what a
    download adds does not depend on what the other threads do: its row and
    one poll, or nothing at all. *)
Lemma download_task_yields paper_url md :
  exists rows r, Pool.yields (Pool.download_task w paper_url md) rows (length rows) r.
Proof.
  unfold Pool.download_task.
  match goal with
  | |- exists rows r, Pool.yields (Pool.try_except ?b ?h) _ _ _ =>
      enough (exists rows r, Pool.yields b rows (length rows) r) as (rows & r & Hb)
  end.
  { destruct (yields_try_total _ _ _ _ _ (Ret tt) Hb
                (yields_lift _ _ (silent_log_queue_put (ErrorDownloading paper_url))))
      as [r' Hr'].
    by exists rows, r'. }
  destruct (silent_requests_get w Hstat paper_url) as [[response|e] Hget];
    [|exists [], (Raise e); silent_steps; done].
  destruct (silent_raise_for_status response) as [[[]|e] Hstatus];
    [|exists [], (Raise e); silent_steps; done].
  destruct (silent_BeautifulSoup w (body response)) as [[soup|e] Hsoup];
    [|exists [], (Raise e); silent_steps; done].
  destruct (Soup.select_one (Soup.a_href_endswith ".pdf") soup) as [pdf_link|] eqn:Hlink.
  2: { exists [], (Ret tt). silent_steps. rewrite Hlink.
       apply yields_lift, silent_log_queue_put. }
  assert (Hne : pdf_path_of (Soup.attr_or_empty "href" pdf_link) <> METADATA_FILE)
    by (apply pdf_path_not_sink; eapply pdf_link_href; exact Hlink).
  pose proof (silent_log_queue_put
    (Downloading (Py.last_segment (pdf_url_of (Soup.attr_or_empty "href" pdf_link)))))
    as Hput1.
  destruct (silent_requests_get_stream w Hstat
              (pdf_url_of (Soup.attr_or_empty "href" pdf_link)))
    as [[pdf_response|e] Hget2].
  2: { exists [], (Raise e). silent_steps. rewrite Hlink. silent_steps. done. }
  destruct (save_stream_task_yields w _ pdf_response Hne) as [[[]|e] Hsave].
  2: { exists [], (Raise e). silent_steps. rewrite Hlink. silent_steps.
       refine (yields_tbind _ _ [] O _ [] O _ Hsave _). done. }
  pose proof (silent_log_queue_put
    (Saved (Py.path_join OUTPUT_DIR
       (Py.last_segment (pdf_url_of (Soup.attr_or_empty "href" pdf_link))))))
    as Hput2.
  destruct (append_row_task_yields w
              (row_of md (Py.path_join OUTPUT_DIR
                 (Py.last_segment (pdf_url_of (Soup.attr_or_empty "href" pdf_link))))))
    as (rows & r & Happ & [[-> ->]|[-> ->]]).
  - eexists [_], (Ret tt). silent_steps. rewrite Hlink. silent_steps.
    refine (yields_tbind _ _ [] O _ [_] 1%nat _ Hsave _).
    cbn [Pool.finish Pool.tbind]. silent_steps.
    refine (yields_tbind _ _ [_] O _ [] 1%nat _ Happ _).
    cbn [Pool.finish Pool.tbind]. exact count_and_report_yields.
  - exists [], (Raise OSError). silent_steps. rewrite Hlink. silent_steps.
    refine (yields_tbind _ _ [] O _ [] O _ Hsave _).
    cbn [Pool.finish Pool.tbind]. silent_steps.
    refine (yields_tbind _ _ [] O _ [] O _ Happ _). done.
Qed.

Lemma get_paper_links_task_yields year :
  exists r, Pool.yields (Pool.get_paper_links_task w year) [] 0 r.
Proof.
  unfold Pool.get_paper_links_task.
  pose proof (silent_logging_record (InfoFetchingLinks (year_url year))) as Hlog.
  match goal with
  | |- exists r, Pool.yields (Pool.tbind _ (fun _ => Pool.try_except ?b ?h)) _ _ _ =>
      enough (exists r, Pool.yields b [] 0 r) as (r & Hb);
      [assert (Hh : Pool.yields h [] 0 (Ret []))|]
  end.
  { pose proof (silent_logging_record ErrorFetchingLinks). silent_steps. done. }
  { destruct (yields_try_total _ _ _ _ _ _ Hb Hh) as [r' Hr'].
    exists r'. silent_steps. exact Hr'. }
  destruct (silent_requests_get w Hstat (year_url year)) as [[response|e] Hget];
    [|exists (Raise e); silent_steps; done].
  destruct (silent_raise_for_status response) as [[[]|e] Hstatus];
    [|exists (Raise e); silent_steps; done].
  destruct (silent_BeautifulSoup w (body response)) as [[soup|e] Hsoup];
    [|exists (Raise e); silent_steps; done].
  pose proof (silent_logging_record (InfoFound (length (abstract_links soup)) year)).
  eexists. silent_steps. done.
Qed.

Lemma fetch_metadata_task_yields paper_url :
  exists r, Pool.yields (Pool.fetch_metadata_task w paper_url) [] 0 r.
Proof.
  unfold Pool.fetch_metadata_task.
  match goal with
  | |- exists r, Pool.yields (Pool.try_except ?b ?h) _ _ _ =>
      enough (exists r, Pool.yields b [] 0 r) as (r & Hb);
      [assert (Hh : Pool.yields h [] 0 (Ret None))|]
  end.
  { pose proof (silent_logging_record (ErrorFetchingMetadata paper_url)).
    silent_steps. done. }
  { exact (yields_try_total _ _ _ _ _ _ Hb Hh). }
  destruct (silent_requests_get w Hstat paper_url) as [[response|e] Hget];
    [|exists (Raise e); silent_steps; done].
  destruct (silent_raise_for_status response) as [[[]|e] Hstatus];
    [|exists (Raise e); silent_steps; done].
  destruct (silent_BeautifulSoup w (body response)) as [[soup|e] Hsoup];
    [|exists (Raise e); silent_steps; done].
  eexists. silent_steps. done.
Qed.

End StationaryYields.

(** *** What the scraping thread is bound to add *)

Lemma main_yields_in_main {X} (p : Pool.thread X) k futures rows n o :
  Pool.yields p [] 0 o ->
  Pool.main_yields (k o) futures rows n ->
  Pool.main_yields (Pool.in_main p k) futures rows n.
Proof.
  induction p as [a|e|Y m k' IH]; intros Hp Hk.
  - destruct Hp as (_ & _ & ->). exact Hk.
  - destruct Hp as (_ & _ & ->). exact Hk.
  - destruct Hp as (ra & na & rb & nb & Hr & Hn & Hp).
    symmetry in Hr. apply app_eq_nil in Hr as [-> ->].
    assert (na = O /\ nb = O) as [-> ->] by lia.
    cbn [Pool.in_main Pool.main_yields]. intros st Hst.
    destruct (Hp st Hst) as (Hs & Hpn & Hy).
    rewrite append_nil_r in Hs. rewrite Nat.add_0_r in Hpn.
    split; [exact Hs|]. split; [exact Hpn|]. by apply IH.
Qed.

Lemma all_done_or_raised (futures : list (outcome unit)) :
  all_done futures \/ exists e, In (Raise e) futures.
Proof.
  induction futures as [|[[]|e] fs IH].
  - left. constructor.
  - destruct IH as [IH|[e He]]; [left; by constructor|right; exists e; by right].
  - right. exists e. by left.
Qed.

Lemma results_when_all_done futures st : all_done futures -> results futures st = (Ret tt, st).
Proof.
  induction 1 as [|f fs Hf _ IH]; [reflexivity|]. subst f. exact IH.
Qed.

Section StationaryMain.

Variable w : world.
Hypothesis Hstat : stationary w.

Lemma submit_loop_yields after :
  (exists rows, Pool.main_yields after [] rows (length rows)) ->
  forall paper_links futures,
    exists rows,
      Pool.main_yields (Pool.submit_loop w paper_links after) futures rows (length rows).
Proof.
  intros [rows_after Hafter].
  induction paper_links as [|paper_url rest IH]; intros futures.
  - cbn [Pool.submit_loop].
    destruct (all_done_or_raised futures) as [Hdone|[e He]].
    + exists rows_after. cbn [Pool.main_yields]. intros done Hperm st _.
      assert (Hd : all_done done).
      { unfold all_done. by rewrite Hperm. }
      rewrite (results_when_all_done _ _ Hd). auto.
    + exists []. cbn [Pool.main_yields]. intros done Hperm st _.
      assert (Hin : In (Raise e) done).
      { apply list_elem_of_In. rewrite Hperm. by apply list_elem_of_In. }
      destruct (results_raise _ _ Hin) as [e' He']. rewrite He'. cbn. auto.
  - cbn [Pool.submit_loop].
    destruct (fetch_metadata_task_yields w Hstat paper_url) as [[[md|]|e] Hfetch].
    + destruct (download_task_yields w Hstat paper_url md) as (rows1 & r & Htask).
      destruct (IH (futures ++ [r])) as [rows2 Hrest].
      exists (rows1 ++ rows2).
      eapply main_yields_in_main; [exact Hfetch|]. cbn [Pool.main_yields].
      exists rows1, (length rows1), r, rows2, (length rows2).
      split; [done|]. split; [by rewrite length_app|]. by split.
    + destruct (IH futures) as [rows Hrest]. exists rows.
      eapply main_yields_in_main; [exact Hfetch|]. exact Hrest.
    + exists []. eapply main_yields_in_main; [exact Hfetch|].
      cbn [Pool.main_yields]. intros done _. auto.
Qed.

Lemma scrape_year_thread_yields year after :
  (exists rows, Pool.main_yields after [] rows (length rows)) ->
  exists rows, Pool.main_yields (Pool.scrape_year_thread w year after) [] rows (length rows).
Proof.
  intros Hafter. unfold Pool.scrape_year_thread.
  destruct (get_paper_links_task_yields w Hstat year) as [[paper_links|e] Hlinks].
  - destruct (submit_loop_yields after Hafter paper_links []) as [rows Hrows].
    exists rows. eapply main_yields_in_main; [exact Hlinks|].
    cbn [Pool.main_yields]. intros st _. cbn [get fst snd].
    split; [done|]. split; [done|].
    intros st1 _. cbn [modify fst snd]. split; [done|]. split; [done|]. exact Hrows.
  - exists []. eapply main_yields_in_main; [exact Hlinks|]. by cbn.
Qed.

Lemma scrape_years_thread_yields years :
  exists rows, Pool.main_yields (Pool.scrape_years_thread w years) [] rows (length rows).
Proof.
  induction years as [|year rest IH]; cbn [Pool.scrape_years_thread].
  - exists []. cbn. intros st _. split; [done|]. split; [done|].
    intros st1 _. split; [done|]. split; [|done].
    unfold Pool.polls. cbn. rewrite List.filter_app, length_app. cbn. lia.
  - by apply scrape_year_thread_yields.
Qed.

End StationaryMain.

(** *** The invariant of the runs *)

Lemma rows_left_snoc ys y : Pool.rows_left (ys ++ [y]) = Pool.rows_left ys ++ y.1.1.
Proof.
  unfold Pool.rows_left. rewrite map_app, concat_app. cbn. by rewrite app_nil_r.
Qed.

Lemma polls_left_snoc ys y : Pool.polls_left (ys ++ [y]) = (Pool.polls_left ys + y.1.2)%nat.
Proof.
  unfold Pool.polls_left. induction ys as [|x ys IH]; cbn; [lia|].
  cbn in IH. rewrite IH. lia.
Qed.

Lemma rows_left_insert ys : forall i a b n n' r r',
  ys !! i = Some (a ++ b, n, r) ->
  a ++ Pool.rows_left (<[i := (b, n', r')]> ys) ≡ₚ Pool.rows_left ys.
Proof.
  unfold Pool.rows_left.
  induction ys as [|y ys IH]; intros [|i] a b n n' r r' Hi; try discriminate.
  - cbn in Hi. injection Hi as ->. cbn. by rewrite app_assoc.
  - cbn in Hi.
    change (<[S i := (b, n', r')]> (y :: ys)) with (y :: <[i := (b, n', r')]> ys).
    cbn [map concat]. rewrite <- (IH i a b n n' r r' Hi).
    rewrite !app_assoc. apply Permutation_app_tail, Permutation_app_comm.
Qed.

Lemma polls_left_insert ys : forall i rows rows' a b r r',
  ys !! i = Some (rows, (a + b)%nat, r) ->
  (a + Pool.polls_left (<[i := (rows', b, r')]> ys))%nat = Pool.polls_left ys.
Proof.
  unfold Pool.polls_left.
  induction ys as [|y ys IH]; intros [|i] rows rows' a b r r' Hi; try discriminate.
  - cbn in Hi. injection Hi as ->. cbn. lia.
  - cbn in Hi.
    change (<[S i := (rows', b, r')]> (y :: ys)) with (y :: <[i := (rows', b, r')]> ys).
    cbn [map sum_list sum_list_with]. cbn.
    specialize (IH i rows rows' a b r r' Hi). cbn in IH. lia.
Qed.

Lemma results_of_snoc_waiting cs p :
  Pool.results_of (cs ++ [Pool.Waiting p]) = Pool.results_of cs.
Proof.
  induction cs as [|c cs IH]; [reflexivity|].
  cbn. destruct c; by rewrite ?IH.
Qed.

Lemma results_of_insert_same cs : forall i c c',
  cs !! i = Some c ->
  Pool.is_finished c = false -> Pool.is_finished c' = false ->
  Pool.results_of (<[i := c']> cs) = Pool.results_of cs.
Proof.
  induction cs as [|x cs IH]; intros [|i] c c' Hi Hc Hc'; try discriminate.
  - cbn in Hi. injection Hi as ->.
    change (<[0%nat := c']> (c :: cs)) with (c' :: cs).
    by destruct c, c'.
  - cbn in Hi. change (<[S i := c']> (x :: cs)) with (x :: <[i := c']> cs).
    cbn [Pool.results_of]. rewrite (IH i c c') by assumption. reflexivity.
Qed.

Lemma results_of_insert_finished cs : forall i c r,
  cs !! i = Some c ->
  Pool.is_finished c = false ->
  Pool.results_of (<[i := Pool.Finished r]> cs) ≡ₚ Pool.results_of cs ++ [r].
Proof.
  induction cs as [|x cs IH]; intros [|i] c r Hi Hc; try discriminate.
  - cbn in Hi. injection Hi as ->.
    change (<[0%nat := Pool.Finished r]> (c :: cs)) with (Pool.Finished r :: cs).
    destruct c; try discriminate; cbn; apply Permutation_cons_append.
  - cbn in Hi.
    change (<[S i := Pool.Finished r]> (x :: cs)) with (x :: <[i := Pool.Finished r]> cs).
    specialize (IH i c r Hi Hc). destruct x; cbn [Pool.results_of]; try exact IH.
    cbn. by rewrite IH.
Qed.

(** Once every call of the pool is done, nothing is left to add, and the
    results are those the calls were bound to end with. *)
Lemma all_finished_yields cs ys :
  forallb Pool.is_finished cs = true ->
  Forall2 Pool.call_yields cs ys ->
  Pool.results_of cs = map snd ys /\ Pool.rows_left ys = [] /\ Pool.polls_left ys = O.
Proof.
  intros Hfin H. induction H as [|c y cs ys Hc _ IH]; [done|].
  cbn in Hfin. apply andb_true_iff in Hfin as [Hc' Hfin].
  destruct (IH Hfin) as (IH1 & IH2 & IH3).
  destruct c as [p|p|r]; try discriminate.
  destruct Hc as (Hr & Hn & Ho).
  unfold Pool.rows_left, Pool.polls_left in *. cbn.
  rewrite Hr, Hn, Ho, IH1. cbn in IH3. rewrite IH3. by rewrite IH2.
Qed.

Lemma polls_set_log_queue q st : Pool.polls (set_log_queue q st) = Pool.polls st.
Proof. reflexivity. Qed.

(** Every statement of every thread keeps the invariant. *)
Lemma pool_invariant_step init before rows c c' :
  Pool.invariant init before rows c -> Pool.step c c' ->
  Pool.invariant init before rows c'.
Proof.
  intros (written & ys & rm & nm & Hsink & Hne & Hpool & Hmain & Hdone & Hrows & Hpolls) Hstep.
  destruct Hstep as [X m k c Hs|task k c Hs|k c Hs Hfin|i p c Hi Hfirst Hroom
                    |i X m k c Hi|i a c Hi|i e c Hi|line rest c Hpoll Hq].
  - (* a statement of the scraping thread *)
    rewrite Hs in Hmain. cbn [Pool.main_yields] in Hmain.
    destruct (Hmain (Pool.shared c) Hne) as (Hs1 & Hp1 & Hk).
    exists written, ys, rm, nm. cbn [Pool.shared Pool.scraper Pool.pool Pool.completed].
    rewrite Hs1, Hp1. auto 10.
  - (* a call is submitted *)
    rewrite Hs in Hmain. cbn [Pool.main_yields] in Hmain.
    destruct Hmain as (rows1 & n1 & r & rows2 & n2 & -> & -> & Htask & Hk).
    exists written, (ys ++ [(rows1, n1, r)]), rows2, n2.
    cbn [Pool.shared Pool.scraper Pool.pool Pool.completed].
    split; [exact Hsink|]. split; [exact Hne|].
    split; [apply Forall2_app; [exact Hpool|by repeat constructor]|].
    split; [by rewrite map_app|].
    split; [by rewrite results_of_snoc_waiting|].
    split.
    + rewrite rows_left_snoc. cbn. rewrite <- Hrows. by rewrite <- !app_assoc.
    + rewrite polls_left_snoc. cbn. lia.
  - (* the with block is left *)
    rewrite Hs in Hmain. cbn [Pool.main_yields] in Hmain.
    destruct (all_finished_yields _ _ Hfin Hpool) as (Hres & Hleft & Hpl).
    exists written, [], rm, nm.
    cbn [Pool.shared Pool.scraper Pool.pool Pool.completed].
    split; [exact Hsink|]. split; [exact Hne|]. split; [constructor|].
    split; [apply Hmain; by rewrite Hdone, Hres|].
    split; [done|].
    rewrite Hleft in Hrows. rewrite Hpl in Hpolls. by split.
  - (* a worker takes a call *)
    destruct (Forall2_lookup_l _ _ _ _ _ Hpool Hi) as (y & Hy & Hcy).
    exists written, ys, rm, nm.
    cbn [Pool.shared Pool.scraper Pool.pool Pool.completed].
    split; [exact Hsink|]. split; [exact Hne|].
    split.
    { rewrite <- (list_insert_id ys i y Hy). by apply Forall2_insert. }
    split; [exact Hmain|].
    split; [by rewrite (results_of_insert_same _ i (Pool.Waiting p))|].
    by split.
  - (* a statement of a call *)
    destruct (Forall2_lookup_l _ _ _ _ _ Hpool Hi) as ([[ry ny] oy] & Hy & Hcy).
    cbn [Pool.call_yields Pool.yields fst snd] in Hcy.
    destruct Hcy as (r1 & n1 & r2 & n2 & -> & -> & Hact).
    destruct (Hact (Pool.shared c) Hne) as (Hs1 & Hp1 & Hk).
    exists (written ++ r1), (<[i := (r2, n2, oy)]> ys), rm, nm.
    cbn [Pool.shared Pool.scraper Pool.pool Pool.completed].
    split; [by rewrite Hs1, Hsink, rows_text_app, append_assoc|].
    split; [rewrite Hs1; by apply append_not_empty|].
    split; [by apply Forall2_insert|].
    split; [by rewrite (map_insert_same_image snd ys i _ _ Hy)|].
    split; [by rewrite (results_of_insert_same _ i (Pool.Running (Pool.Act m k)))|].
    split.
    + rewrite <- Hrows, <- (rows_left_insert ys i r1 r2 _ n2 oy oy Hy).
      by rewrite <- !app_assoc.
    + rewrite Hp1. rewrite <- (polls_left_insert ys i _ r2 n1 n2 oy oy Hy) in Hpolls. lia.
  - (* a call returns *)
    destruct (Forall2_lookup_l _ _ _ _ _ Hpool Hi) as ([[ry ny] oy] & Hy & Hcy).
    cbn [Pool.call_yields Pool.yields fst snd] in Hcy. destruct Hcy as (-> & -> & ->).
    exists written, ys, rm, nm.
    cbn [Pool.shared Pool.scraper Pool.pool Pool.completed].
    split; [exact Hsink|]. split; [exact Hne|].
    split.
    { rewrite <- (list_insert_id ys i _ Hy). by apply Forall2_insert. }
    split; [exact Hmain|].
    split; [by rewrite (results_of_insert_finished _ i _ _ Hi), Hdone|].
    by split.
  - (* a call raises *)
    destruct (Forall2_lookup_l _ _ _ _ _ Hpool Hi) as ([[ry ny] oy] & Hy & Hcy).
    cbn [Pool.call_yields Pool.yields fst snd] in Hcy. destruct Hcy as (-> & -> & ->).
    exists written, ys, rm, nm.
    cbn [Pool.shared Pool.scraper Pool.pool Pool.completed].
    split; [exact Hsink|]. split; [exact Hne|].
    split.
    { rewrite <- (list_insert_id ys i _ Hy). by apply Forall2_insert. }
    split; [exact Hmain|].
    split; [by rewrite (results_of_insert_finished _ i _ _ Hi), Hdone|].
    by split.
  - (* the poll takes a line *)
    exists written, ys, rm, nm.
    cbn [Pool.shared Pool.scraper Pool.pool Pool.completed].
    change (sink (set_log_queue rest (Pool.shared c))) with (sink (Pool.shared c)).
    rewrite polls_set_log_queue. auto 10.
Qed.

Lemma pool_invariant_run init before rows c c' :
  Pool.invariant init before rows c -> rtc Pool.step c c' ->
  Pool.invariant init before rows c'.
Proof.
  intros Hinv Hrun. induction Hrun as [|c c1 c2 Hstep _ IH]; [exact Hinv|].
  apply IH. by eapply pool_invariant_step.
Qed.

(** The invariant at the start of the thread and at its end. *)
Lemma pool_invariant_started w s e st rows :
  Pool.main_yields (Pool.scrape_papers_thread w s e) [] rows (length rows) ->
  sink st <> EmptyString ->
  Pool.invariant (sink st) (Pool.polls st) rows (Pool.started w s e st).
Proof.
  intros Hmain Hne. exists [], [], rows, (length rows).
  cbn [Pool.started Pool.shared Pool.scraper Pool.pool Pool.completed].
  split; [by rewrite append_nil_r|]. split; [exact Hne|]. split; [constructor|].
  split; [exact Hmain|]. split; [done|]. split; [done|].
  unfold Pool.polls_left. cbn. lia.
Qed.

Lemma pool_invariant_ended init before rows c :
  Pool.invariant init before rows c -> Pool.ended c ->
  exists order,
    order ≡ₚ rows /\
    sink (Pool.shared c) = init +:+ Workers.rows_text order /\
    Pool.polls (Pool.shared c) = (before + length rows)%nat.
Proof.
  intros (written & ys & rm & nm & Hsink & Hne & Hpool & Hmain & Hdone & Hrows & Hpolls)
         [r Hend].
  rewrite Hend in Hmain. destruct Hmain as (Hys & -> & ->).
  destruct ys; [|discriminate].
  unfold Pool.rows_left, Pool.polls_left in *. cbn in Hrows, Hpolls.
  rewrite app_nil_r in Hrows.
  exists written. split; [exact Hrows|]. split; [exact Hsink|]. lia.
Qed.

(** *** The run in which every call is run as it is submitted *)

(** A worker that is left alone runs its call to the end. *)
Lemma serial_call (p : Pool.thread unit) : forall st main cs done i,
  cs !! i = Some (Pool.Running p) ->
  rtc Pool.step
    {| Pool.shared := st; Pool.scraper := main; Pool.pool := cs; Pool.completed := done |}
    {| Pool.shared := snd (Pool.run p st); Pool.scraper := main;
       Pool.pool := <[i := Pool.Finished (fst (Pool.run p st))]> cs;
       Pool.completed := done ++ [fst (Pool.run p st)] |}.
Proof.
  induction p as [a|e|X m k IH]; intros st main cs done i Hi.
  - apply rtc_once.
    exact (Pool.step_return i a
             {| Pool.shared := st; Pool.scraper := main; Pool.pool := cs;
                Pool.completed := done |} Hi).
  - apply rtc_once.
    exact (Pool.step_raise i e
             {| Pool.shared := st; Pool.scraper := main; Pool.pool := cs;
                Pool.completed := done |} Hi).
  - eapply rtc_l.
    { exact (Pool.step_worker i m k
               {| Pool.shared := st; Pool.scraper := main; Pool.pool := cs;
                  Pool.completed := done |} Hi). }
    cbn [Pool.shared Pool.scraper Pool.pool Pool.completed Pool.run].
    destruct (m st) as [o st1]. cbn [fst snd].
    assert (Hlen : (i < length cs)%nat) by (eapply lookup_lt_Some; exact Hi).
    assert (Hi1 : <[i := Pool.Running (k o)]> cs !! i = Some (Pool.Running (k o)))
      by (by apply list_lookup_insert_eq).
    pose proof (IH o st1 main _ done i Hi1) as Hrun.
    by rewrite list_insert_insert_eq in Hrun.
Qed.

Lemma existsb_waiting_finished futures :
  existsb Pool.is_waiting (map Pool.Finished futures) = false.
Proof. by induction futures. Qed.

Lemma filter_running_finished futures :
  List.filter Pool.is_running (map Pool.Finished futures) = [].
Proof. by induction futures. Qed.

Lemma forallb_finished futures :
  forallb Pool.is_finished (map Pool.Finished futures) = true.
Proof. by induction futures. Qed.

(** The scraping thread with every call run as it is submitted: a run of
    the program, which ends as [run_main] says. *)
Lemma serial_main (p : Pool.main_thread) : forall futures st,
  exists cs done,
    rtc Pool.step
      {| Pool.shared := st; Pool.scraper := p;
         Pool.pool := map Pool.Finished futures; Pool.completed := futures |}
      {| Pool.shared := snd (Pool.run_main p futures st);
         Pool.scraper := Pool.Done (fst (Pool.run_main p futures st));
         Pool.pool := cs; Pool.completed := done |}.
Proof.
  induction p as [r|X m k IH|task k IH|k IH]; intros futures st.
  - eexists _, _. apply rtc_refl.
  - cbn [Pool.run_main]. destruct (m st) as [o st1] eqn:Hm.
    destruct (IH o futures st1) as (cs & done & Hrun).
    exists cs, done. eapply rtc_l; [|exact Hrun].
    pose proof (Pool.step_main m k
      {| Pool.shared := st; Pool.scraper := Pool.Main m k;
         Pool.pool := map Pool.Finished futures; Pool.completed := futures |} eq_refl)
      as Hstep.
    cbn [Pool.shared Pool.scraper Pool.pool Pool.completed] in Hstep.
    by rewrite Hm in Hstep.
  - cbn [Pool.run_main]. destruct (Pool.run task st) as [o st1] eqn:Htask.
    destruct (IH (futures ++ [o]) st1) as (cs & done & Hrun).
    exists cs, done.
    set (i := length (map Pool.Finished futures)).
    assert (Hi : (map Pool.Finished futures ++ [Pool.Waiting task]) !! i
                 = Some (Pool.Waiting task)).
    { subst i. by rewrite lookup_app_r, Nat.sub_diag by lia. }
    eapply rtc_l.
    { exact (Pool.step_submit task k
               {| Pool.shared := st; Pool.scraper := Pool.Submit task k;
                  Pool.pool := map Pool.Finished futures; Pool.completed := futures |}
               eq_refl). }
    cbn [Pool.shared Pool.scraper Pool.pool Pool.completed].
    eapply rtc_l.
    { apply (Pool.step_start i task
               {| Pool.shared := st; Pool.scraper := k;
                  Pool.pool := map Pool.Finished futures ++ [Pool.Waiting task];
                  Pool.completed := futures |} Hi).
      - cbn [Pool.pool]. subst i. rewrite take_app_length.
        apply existsb_waiting_finished.
      - cbn [Pool.pool]. rewrite List.filter_app, filter_running_finished.
        cbn. unfold THREAD_COUNT. lia. }
    cbn [Pool.shared Pool.scraper Pool.pool Pool.completed].
    assert (Hins : forall c : Pool.call,
              <[i := c]> (map Pool.Finished futures ++ [Pool.Waiting task])
              = map Pool.Finished futures ++ [c]).
    { intros c. subst i. rewrite insert_app_r_alt, Nat.sub_diag by lia. reflexivity. }
    rewrite Hins.
    assert (Hi1 : (map Pool.Finished futures ++ [Pool.Running task]) !! i
                  = Some (Pool.Running task)).
    { subst i. by rewrite lookup_app_r, Nat.sub_diag by lia. }
    etrans; [exact (serial_call task st k _ futures i Hi1)|].
    rewrite Htask. cbn [fst snd].
    assert (Hins1 : <[i := Pool.Finished o]> (map Pool.Finished futures ++ [Pool.Running task])
                    = map Pool.Finished (futures ++ [o])).
    { subst i. rewrite insert_app_r_alt, Nat.sub_diag, map_app by lia. reflexivity. }
    rewrite Hins1. exact Hrun.
  - cbn [Pool.run_main].
    destruct (IH futures [] st) as (cs & done & Hrun).
    exists cs, done. eapply rtc_l; [|exact Hrun].
    exact (Pool.step_wait k
             {| Pool.shared := st; Pool.scraper := Pool.Wait k;
                Pool.pool := map Pool.Finished futures; Pool.completed := futures |}
             eq_refl (forallb_finished futures)).
Qed.

(** The thread can always run to its end: for one, in the order that
    [scrape_papers] above stands for. *)
Lemma serial_run w start_year end_year st :
  exists c,
    rtc Pool.step (Pool.started w start_year end_year st) c /\
    Pool.ended c /\
    Pool.shared c = snd (scrape_papers w start_year end_year st) /\
    Pool.scraper c = Pool.Done (fst (scrape_papers w start_year end_year st)).
Proof.
  destruct (serial_main (Pool.scrape_papers_thread w start_year end_year) [] st)
    as (cs & done & Hrun).
  rewrite run_main_scrape_papers_thread in Hrun.
  eexists. split; [exact Hrun|]. split; [by eexists|]. by split.
Qed.

(** ** Running the same range twice *)

(** A press of the start button that starts the thread: the thread gets the
    years given; no poll is scheduled; the sink is the file as it was, or
    the header alone when there was no file. *)
Lemma start_scraping_thread w s e st a b st0 :
  start_scraping w s e st = (Ret (Some (a, b)), st0) ->
  a = s /\ b = e /\ Pool.polls st0 = Pool.polls st /\
  sink st0 = match files st !! METADATA_FILE with
             | Some text => text
             | None => Csv.header
             end.
Proof.
  unfold start_scraping. rewrite bind_modify.
  destruct (range_invalid s e); [discriminate|].
  unfold init_metadata_file. rewrite bind_assoc, bind_get.
  cbn [files set_downloaded_papers].
  assert (Hpolls : forall u : list ui_call,
            length (List.filter Pool.is_poll
              (((((u ++ [LogAreaCleared]) ++ [ProgressBarSet0]) ++ [StartButtonDisabled])
                ++ [ThreadStarted s e])))
            = length (List.filter Pool.is_poll u)).
  { intros u. rewrite !List.filter_app, !length_app. cbn. lia. }
  destruct (files st !! METADATA_FILE) as [text|] eqn:Hm.
  - rewrite bool_decide_eq_true_2 by eauto.
    intros H. injection H as <- <- <-.
    split; [done|]. split; [done|]. split; [exact (Hpolls (ui st))|].
    unfold sink, file_content. cbn. by rewrite Hm.
  - rewrite bool_decide_eq_false_2 by (intros [? ?]; discriminate).
    destruct (open_fails w METADATA_FILE); [discriminate|].
    intros H. injection H as <- <- <-.
    split; [done|]. split; [done|]. split; [exact (Hpolls (ui st))|].
    unfold sink, file_content. cbn. by rewrite lookup_insert_eq.
Qed.

(** Every run of the thread that starts on a sink holding text adds the
    rows the thread is bound to add, in some order, and as many polls. *)
Lemma run_adds_the_rows w s e rows st c :
  Pool.main_yields (Pool.scrape_papers_thread w s e) [] rows (length rows) ->
  sink st <> EmptyString ->
  rtc Pool.step (Pool.started w s e st) c ->
  Pool.ended c ->
  exists order,
    order ≡ₚ rows /\
    sink (Pool.shared c) = sink st +:+ Workers.rows_text order /\
    Pool.polls (Pool.shared c) = (Pool.polls st + length rows)%nat.
Proof.
  intros Hmain Hne Hrun Hend.
  eapply pool_invariant_ended; [|exact Hend].
  eapply pool_invariant_run; [|exact Hrun].
  by apply pool_invariant_started.
Qed.

Lemma line_count_rows_text_perm (a b : list (list string)) :
  a ≡ₚ b ->
  Csv.line_count (Workers.rows_text a) = Csv.line_count (Workers.rows_text b).
Proof.
  induction 1 as [|x a b _ IH|x y a|a b c _ IH1 _ IH2].
  - reflexivity.
  - by rewrite !rows_text_cons, !line_count_append, IH.
  - rewrite !rows_text_cons, !line_count_append. lia.
  - by rewrite IH1.
Qed.

(** A batch on a valid range, with a sink file that is there or can be
    made, can run to its end. *)
Lemma batch_can_end w s e st :
  range_invalid s e = false ->
  is_Some (files st !! METADATA_FILE) \/ open_fails w METADATA_FILE = false ->
  exists c, Pool.batch_ends w s e st c.
Proof.
  intros Hv Hfile.
  destruct (start_scraping_sink w s e st Hv Hfile) as (st0 & Hs0 & _).
  destruct (serial_run w s e st0) as (c & Hrun & Hend & _).
  exists c, s, e, st0. auto.
Qed.

Lemma sink_is_some st : sink st <> EmptyString -> is_Some (files st !! METADATA_FILE).
Proof.
  unfold sink, file_content. intros Hne.
  destruct (files st !! METADATA_FILE); [eauto|]. by destruct Hne.
Qed.

(** Two runs of the thread over the same years, each started on a sink
    that holds text, with an archive that answers alike whenever it is
    asked: the second adds the rows the first added, in some order. *)
Lemma runs_add_the_rows_again w s e st c1 :
  stationary w ->
  sink st <> EmptyString ->
  rtc Pool.step (Pool.started w s e st) c1 ->
  Pool.ended c1 ->
  exists first,
    sink (Pool.shared c1) = sink st +:+ Workers.rows_text first /\
    Pool.polls (Pool.shared c1) = (Pool.polls st + length first)%nat /\
    forall st2 c2,
      sink st2 <> EmptyString ->
      rtc Pool.step (Pool.started w s e st2) c2 ->
      Pool.ended c2 ->
      exists second,
        second ≡ₚ first /\
        sink (Pool.shared c2) = sink st2 +:+ Workers.rows_text second /\
        Pool.polls (Pool.shared c2) = (Pool.polls st2 + length second)%nat.
Proof.
  intros Hstat Hne Hrun1 Hend1.
  destruct (scrape_years_thread_yields w Hstat (year_range s e)) as [rows Hrows].
  destruct (run_adds_the_rows w s e rows st c1 Hrows Hne Hrun1 Hend1)
    as (first & Hperm1 & Hsink1 & Hpolls1).
  exists first. split; [exact Hsink1|].
  split; [by rewrite (Permutation_length Hperm1)|].
  intros st2 c2 Hne2 Hrun2 Hend2.
  destruct (run_adds_the_rows w s e rows st2 c2 Hrows Hne2 Hrun2 Hend2)
    as (second & Hperm2 & Hsink2 & Hpolls2).
  exists second. split; [by rewrite Hperm1, Hperm2|].
  split; [exact Hsink2|]. by rewrite (Permutation_length Hperm2).
Qed.

(** C8. Running the same range twice, on a sink that already holds text and
    with an archive that answers the same way both times, whatever the
    order in which the statements of the scraping thread, of the workers of
    its pool and of the poll follow each other in either run.  Both
    batches can run to the end.  When the first has ended, the sink is what
    it held followed by the rows of the papers stored, each row whole: one
    row for each poll the workers scheduled.  When the second has ended
    (started from any state whose sink is the one the first left), the sink
    is the sink the first left followed by the same rows once more, in an
    order that may differ: nothing of the earlier text is rewritten, no row
    is left out as a duplicate, and the rows and the lines added by the two
    runs are twice those added by the first. *)
Theorem C8_second_run_adds_the_rows_again w start_year end_year st :
  stationary w ->
  range_invalid start_year end_year = false ->
  sink st <> EmptyString ->
  (exists c1, Pool.batch_ends w start_year end_year st c1) /\
  forall c1, Pool.batch_ends w start_year end_year st c1 ->
    exists first,
      sink (Pool.shared c1) = sink st +:+ Workers.rows_text first /\
      Pool.polls (Pool.shared c1) = (Pool.polls st + length first)%nat /\
      forall st1, sink st1 = sink (Pool.shared c1) ->
        (exists c2, Pool.batch_ends w start_year end_year st1 c2) /\
        forall c2, Pool.batch_ends w start_year end_year st1 c2 ->
          exists second,
            second ≡ₚ first /\
            sink (Pool.shared c2)
              = sink st +:+ Workers.rows_text first +:+ Workers.rows_text second /\
            Pool.polls (Pool.shared c2) = (Pool.polls st1 + length second)%nat /\
            (Csv.line_count (sink (Pool.shared c2)) - Csv.line_count (sink st)
             = 2 * (Csv.line_count (sink (Pool.shared c1)) - Csv.line_count (sink st)))%nat.
Proof.
  intros Hstat Hv Hne.
  split; [apply batch_can_end; [exact Hv|left; by apply sink_is_some]|].
  intros c1 (s1 & e1 & st0 & Hs0 & Hrun1 & Hend1).
  destruct (start_scraping_thread _ _ _ _ _ _ _ Hs0) as (-> & -> & Hp0 & Hk0).
  destruct (sink_is_some st Hne) as [text Htext].
  rewrite Htext in Hk0.
  assert (Hk0' : sink st0 = sink st).
  { rewrite Hk0. unfold sink, file_content. by rewrite Htext. }
  assert (Hne0 : sink st0 <> EmptyString) by (by rewrite Hk0').
  destruct (runs_add_the_rows_again w _ _ st0 c1 Hstat Hne0 Hrun1 Hend1)
    as (first & Hsink1 & Hpolls1 & Hsecond).
  rewrite Hk0' in Hsink1. rewrite Hp0 in Hpolls1.
  exists first. split; [exact Hsink1|]. split; [exact Hpolls1|].
  intros st1 Hst1.
  assert (Hne1 : sink st1 <> EmptyString).
  { rewrite Hst1, Hsink1. by apply append_not_empty. }
  split; [apply batch_can_end; [exact Hv|left; by apply sink_is_some]|].
  intros c2 (s2 & e2 & st2 & Hs2 & Hrun2 & Hend2).
  destruct (start_scraping_thread _ _ _ _ _ _ _ Hs2) as (-> & -> & Hp2 & Hk2).
  destruct (sink_is_some st1 Hne1) as [text1 Htext1].
  rewrite Htext1 in Hk2.
  assert (Hk2' : sink st2 = sink st1).
  { rewrite Hk2. unfold sink, file_content. by rewrite Htext1. }
  assert (Hne2 : sink st2 <> EmptyString) by (by rewrite Hk2').
  destruct (Hsecond st2 c2 Hne2 Hrun2 Hend2) as (second & Hperm & Hsink2 & Hpolls2).
  rewrite Hk2', Hst1, Hsink1 in Hsink2. rewrite Hp2 in Hpolls2.
  exists second. split; [exact Hperm|].
  split; [by rewrite Hsink2, append_assoc|].
  split; [exact Hpolls2|].
  rewrite Hsink2, Hsink1, !line_count_append.
  rewrite (line_count_rows_text_perm _ _ Hperm). lia.
Qed.

Lemma C8_second_run_adds_the_rows_again_witness :
  let st := snd (batch Sample.good_world 2020 2020 Sample.fresh) in
  stationary Sample.good_world /\
  range_invalid 2020 2020 = false /\
  sink st <> EmptyString /\
  exists c1 first,
    Pool.batch_ends Sample.good_world 2020 2020 st c1 /\
    sink (Pool.shared c1) = sink st +:+ Workers.rows_text first /\
    length first = 1%nat.
Proof.
  cbv zeta.
  set (st := snd (batch Sample.good_world 2020 2020 Sample.fresh)).
  assert (Hs : stationary Sample.good_world) by (intros t u; reflexivity).
  assert (Hv : range_invalid 2020 2020 = false) by reflexivity.
  assert (Hn : sink st <> EmptyString) by (vm_compute; discriminate).
  split; [exact Hs|]. split; [exact Hv|]. split; [exact Hn|].
  set (st0 := snd (start_scraping Sample.good_world 2020 2020 st)).
  assert (Hs0 : start_scraping Sample.good_world 2020 2020 st
                = (Ret (Some (2020, 2020)), st0)) by (vm_compute; reflexivity).
  destruct (serial_run Sample.good_world 2020 2020 st0) as (c1 & Hrun & Hend & Hshared & _).
  assert (Hc1 : Pool.batch_ends Sample.good_world 2020 2020 st c1).
  { exists 2020, 2020, st0. auto. }
  destruct (proj2 (C8_second_run_adds_the_rows_again Sample.good_world 2020 2020 st
                     Hs Hv Hn) c1 Hc1) as (first & Hsink & Hpolls & _).
  exists c1, first. split; [exact Hc1|]. split; [exact Hsink|].
  assert (Hafter : Pool.polls (snd (scrape_papers Sample.good_world 2020 2020 st0)) = 2%nat)
    by (vm_compute; reflexivity).
  assert (Hbefore : Pool.polls st = 1%nat) by (vm_compute; reflexivity).
  rewrite Hshared, Hafter, Hbefore in Hpolls. lia.
Defined.

(** * Further properties of the program *)

(** ** Relations every run keeps *)

Lemma keeps_ret {A} R (a : A) : (forall st, R st st) -> keeps R (ret a).
Proof. intros Hrefl st. apply Hrefl. Qed.

Lemma keeps_raise {A} R e : (forall st, R st st) -> keeps R (@raise A e).
Proof. intros Hrefl st. apply Hrefl. Qed.

Lemma keeps_modify (R : state -> state -> Prop) f :
  (forall st, R st (f st)) -> keeps R (modify f).
Proof. intros H st. apply H. Qed.

Lemma keeps_bind {A B} (R : state -> state -> Prop) (m : M A) (k : A -> M B) :
  (forall a b c, R a b -> R b c -> R a c) ->
  keeps R m -> (forall a, keeps R (k a)) -> keeps R (bind m k).
Proof.
  intros Htrans Hm Hk st. unfold bind. specialize (Hm st).
  destruct (m st) as [[a|e] st1]; cbn in Hm; [|exact Hm].
  eapply Htrans; [exact Hm|apply Hk].
Qed.

Lemma keeps_try {A} (R : state -> state -> Prop) (m h : M A) :
  (forall a b c, R a b -> R b c -> R a c) ->
  keeps R m -> keeps R h -> keeps R (try_except_request m h).
Proof.
  intros Htrans Hm Hh st. unfold try_except_request. specialize (Hm st).
  destruct (m st) as [[a|[]] st1]; cbn in Hm; try exact Hm.
  eapply Htrans; [exact Hm|apply Hh].
Qed.

Lemma keeps_submit (R : state -> state -> Prop) (m : M unit) :
  keeps R m -> keeps R (submit m).
Proof. intros Hm st. unfold submit. specialize (Hm st). by destruct (m st). Qed.

Lemma keeps_results R futures : (forall st, R st st) -> keeps R (results futures).
Proof.
  intros Hrefl. induction futures as [|[[]|e] fs IH]; cbn [results].
  - by apply keeps_ret.
  - exact IH.
  - by apply keeps_raise.
Qed.

Section Keeps.

Variable w : world.
Variable R : state -> state -> Prop.

Hypothesis R_refl : forall st, R st st.
Hypothesis R_trans : forall a b c, R a b -> R b c -> R a c.
Hypothesis R_sent : forall st url, R st (requested url st).
Hypothesis R_logging : forall st r, R st (logged r st).
Hypothesis R_queue : forall st l, R st (queued l st).
Hypothesis R_ui : forall st c, R st (shown c st).
Hypothesis R_asset : forall st href v,
  Py.endswith ".pdf" href = true ->
  R st (set_files (<[pdf_path_of href := v]> (files st)) st).

Lemma keeps_requests_get url : keeps R (requests_get w url).
Proof.
  intros st. unfold requests_get.
  destruct (net w (length (sent st)) url) as [|r]; [apply R_sent|].
  destruct (breaks r); apply R_sent.
Qed.

Lemma keeps_requests_get_stream url : keeps R (requests_get_stream w url).
Proof.
  intros st. unfold requests_get_stream.
  destruct (net w (length (sent st)) url); apply R_sent.
Qed.

Lemma keeps_raise_for_status r : keeps R (raise_for_status r).
Proof.
  unfold raise_for_status. destruct (_ && _); [by apply keeps_raise|by apply keeps_ret].
Qed.

Lemma keeps_BeautifulSoup markup : keeps R (BeautifulSoup w markup).
Proof.
  unfold BeautifulSoup.
  destruct (html_parser w markup); [by apply keeps_ret|by apply keeps_raise].
Qed.

Lemma keeps_logging_record r : keeps R (logging_record r).
Proof. apply keeps_modify. intros st. apply R_logging. Qed.

Lemma keeps_log_queue_put l : keeps R (log_queue_put l).
Proof. apply keeps_modify. intros st. apply R_queue. Qed.

Lemma keeps_ui_do c : keeps R (ui_do c).
Proof. apply keeps_modify. intros st. apply R_ui. Qed.

Lemma keeps_write_chunks href cut chunks i :
  Py.endswith ".pdf" href = true ->
  keeps R (write_chunks w (pdf_path_of href) cut i chunks).
Proof.
  intros Hend. revert i. induction chunks as [|c chunks IH]; intros i.
  - by apply keeps_ret.
  - cbn [write_chunks].
    destruct (match cut with Some k => (k <=? i)%nat | None => false end);
      [by apply keeps_raise|].
    destruct (match write_fails_at w (pdf_path_of href) with
              | Some j => (j =? i)%nat | None => false end);
      [by apply keeps_raise|].
    apply keeps_bind; [exact R_trans| |intros _; apply IH].
    apply keeps_modify. intros st. by apply R_asset.
Qed.

Lemma keeps_save_stream href r :
  Py.endswith ".pdf" href = true ->
  keeps R (save_stream w (pdf_path_of href) r).
Proof.
  intros Hend. unfold save_stream.
  destruct (open_fails w (pdf_path_of href)); [by apply keeps_raise|].
  apply keeps_bind; [exact R_trans| |intros _; by apply keeps_write_chunks].
  apply keeps_modify. intros st. by apply R_asset.
Qed.

Lemma keeps_get_paper_links year : keeps R (get_paper_links w year).
Proof.
  unfold get_paper_links.
  apply keeps_bind; [exact R_trans|apply keeps_logging_record|intros _].
  apply keeps_try; [exact R_trans| |].
  - apply keeps_bind; [exact R_trans|apply keeps_requests_get|intros response].
    apply keeps_bind; [exact R_trans|apply keeps_raise_for_status|intros _].
    apply keeps_bind; [exact R_trans|apply keeps_BeautifulSoup|intros soup].
    apply keeps_bind; [exact R_trans|apply keeps_logging_record|intros _].
    by apply keeps_ret.
  - apply keeps_bind; [exact R_trans|apply keeps_logging_record|intros _].
    by apply keeps_ret.
Qed.

Lemma keeps_fetch_metadata paper_url : keeps R (fetch_metadata w paper_url).
Proof.
  unfold fetch_metadata. apply keeps_try; [exact R_trans| |].
  - apply keeps_bind; [exact R_trans|apply keeps_requests_get|intros response].
    apply keeps_bind; [exact R_trans|apply keeps_raise_for_status|intros _].
    apply keeps_bind; [exact R_trans|apply keeps_BeautifulSoup|intros soup].
    by apply keeps_ret.
  - apply keeps_bind; [exact R_trans|apply keeps_logging_record|intros _].
    by apply keeps_ret.
Qed.

(** The two ways a download can end: with the relation kept, or with the
    paper stored on top of a state that kept it. *)
Lemma download_pdf_effect paper_url md st :
  R st (snd (download_pdf w paper_url md st)) \/
  (fst (download_pdf w paper_url md st) = Ret tt /\
   exists st1 href,
     Py.endswith ".pdf" href = true /\
     open_fails w METADATA_FILE = false /\
     R st st1 /\
     snd (download_pdf w paper_url md st) = finished (row_of md (pdf_path_of href)) st1).
Proof.
  destruct (download_pdf w paper_url md st) as [res st'] eqn:Hdl. cbn [fst snd].
  rewrite download_pdf_fetch in Hdl.
  destruct (page_of w (now st) paper_url) as [| |soup].
  - left. injection Hdl as <- <-. eapply R_trans; [apply R_sent|apply R_queue].
  - left. injection Hdl as <- <-. apply R_sent.
  - destruct (Soup.select_one (Soup.a_href_endswith ".pdf") soup) as [pdf_link|] eqn:Hlink.
    2:{ left. injection Hdl as <- <-. eapply R_trans; [apply R_sent|apply R_queue]. }
    pose proof (pdf_link_href _ _ Hlink) as Hend.
    cbv zeta in Hdl. set (href := Soup.attr_or_empty "href" pdf_link) in *.
    unfold try_except_request in Hdl.
    unfold log_queue_put at 1 in Hdl. rewrite bind_modify in Hdl.
    set (s1 := set_log_queue _ (requested paper_url st)) in Hdl.
    assert (H1 : R st s1) by (eapply R_trans; [apply R_sent|apply R_queue]).
    unfold bind at 1 in Hdl.
    pose proof (keeps_requests_get_stream (pdf_url_of href) s1) as H2.
    destruct (requests_get_stream w (pdf_url_of href) s1) as [[r|e] s2]; cbn in H2.
    2:{ left. destruct e; cbn in Hdl; injection Hdl as <- <-; eauto. }
    unfold bind at 1 in Hdl.
    pose proof (keeps_save_stream href r Hend s2) as H3.
    destruct (save_stream w (pdf_path_of href) r s2) as [[[]|e] s3]; cbn in H3.
    2:{ left. destruct e; cbn in Hdl; injection Hdl as <- <-; eauto. }
    unfold log_queue_put at 1 in Hdl. rewrite bind_modify in Hdl.
    set (s4 := set_log_queue _ s3) in Hdl.
    assert (H4 : R st s4) by (subst s4; eauto).
    unfold append_row in Hdl.
    destruct (open_fails w METADATA_FILE) eqn:Hopen.
    + left. cbn in Hdl. injection Hdl as <- <-. exact H4.
    + right. rewrite bind_modify, bind_modify, bind_get, bind_get in Hdl.
      unfold log_queue_put in Hdl. rewrite bind_modify in Hdl.
      unfold ui_do, modify in Hdl. injection Hdl as <- <-.
      split; [reflexivity|].
      exists s4, href. repeat split; try assumption.
Qed.

End Keeps.

(** ** Rows and counters *)

Lemma same_progress_refl st : same_progress st st.
Proof. by repeat split. Qed.

Lemma same_progress_trans a b c :
  same_progress a b -> same_progress b c -> same_progress a c.
Proof.
  intros (H1 & H2 & H3 & H4) (K1 & K2 & K3 & K4).
  repeat split; congruence.
Qed.

Lemma same_progress_asset st href v :
  Py.endswith ".pdf" href = true ->
  same_progress st (set_files (<[pdf_path_of href := v]> (files st)) st).
Proof.
  intros Hend. repeat split. unfold sink, file_content. cbn.
  rewrite lookup_insert_ne; [reflexivity|]. by apply pdf_path_not_sink.
Qed.

Lemma format_row_length row : (String.length (Csv.format_row row) <> 0)%nat.
Proof. unfold Csv.format_row. rewrite append_length. cbn. lia. Qed.

Lemma sink_appended row st :
  sink (appended row st) =
  sink st +:+ (if (String.length (sink st) =? 0)%nat then Csv.header else EmptyString)
          +:+ Csv.format_row row.
Proof. unfold appended, sink at 1, file_content. cbn. by rewrite lookup_insert_eq. Qed.

Lemma grew_nothing a b : same_progress a b -> grew a b [].
Proof.
  intros (Hs & Hd & _). split.
  - rewrite Hs. cbn. change (Workers.rows_text []) with EmptyString.
    by rewrite !append_nil_r.
  - rewrite Hd. cbn. lia.
Qed.

Lemma grew_finished row st : grew st (finished row st) [row].
Proof.
  split; [|cbn; lia].
  change (sink (finished row st)) with (sink (appended row st)).
  rewrite sink_appended. cbn [header_for].
  rewrite rows_text_cons. change (Workers.rows_text []) with EmptyString.
  by rewrite append_nil_r.
Qed.

Lemma grew_trans a b c r1 r2 :
  grew a b r1 -> grew b c r2 -> grew a c (r1 ++ r2).
Proof.
  intros [Hs1 Hd1] [Hs2 Hd2]. split.
  2:{ rewrite Hd2, Hd1, length_app. lia. }
  destruct r1 as [|x r1].
  - cbn in Hs1. change (Workers.rows_text []) with EmptyString in Hs1.
    rewrite !append_nil_r in Hs1. rewrite Hs2, Hs1. reflexivity.
  - assert (Hb : (String.length (sink b) =? 0)%nat = false).
    { apply Nat.eqb_neq. rewrite Hs1, !append_length, rows_text_cons, append_length.
      pose proof (format_row_length x). lia. }
    assert (Hh : header_for (sink b) r2 = EmptyString).
    { destruct r2; [reflexivity|]. cbn. by rewrite Hb. }
    rewrite Hs2, Hh, Hs1.
    change (header_for (sink a) ((x :: r1) ++ r2)) with (header_for (sink a) (x :: r1)).
    rewrite (rows_text_app (x :: r1) r2), !append_assoc. reflexivity.
Qed.


Lemma tally_same a b : same_progress a b -> tally 0 a b.
Proof.
  intros H. exists []. split; [by apply grew_nothing|].
  destruct H as (_ & _ & Ht & Hi). auto.
Qed.

Lemma tally_trans n m a b c : tally n a b -> tally m b c -> tally (n + m) a c.
Proof.
  intros (r1 & Hg1 & Hl1 & Ht1 & Hi1) (r2 & Hg2 & Hl2 & Ht2 & Hi2).
  exists (r1 ++ r2). split; [by eapply grew_trans|].
  rewrite length_app. repeat split; [lia|congruence|congruence].
Qed.

Lemma tally_weaken n m a b : (n <= m)%nat -> tally n a b -> tally m a b.
Proof.
  intros Hle (rows & Hg & Hl & Ht & Hi). exists rows.
  split; [exact Hg|]. split; [lia|]. split; assumption.
Qed.

Lemma tally_finished row st : tally 1 st (finished row st).
Proof. exists [row]. split; [apply grew_finished|]. by repeat split. Qed.

Lemma download_pdf_tally w paper_url md st :
  tally 1 st (snd (download_pdf w paper_url md st)).
Proof.
  destruct (download_pdf_effect w same_progress same_progress_refl same_progress_trans)
    with (paper_url := paper_url) (md := md) (st := st)
    as [Hsame|(_ & st1 & href & _ & _ & Hsame & ->)].
  - intros a v. by repeat split.
  - intros a v. by repeat split.
  - intros a href v. apply same_progress_asset.
  - apply (tally_weaken 0); [lia|]. by apply tally_same.
  - apply (tally_trans 0 1 st st1); [by apply tally_same|apply tally_finished].
Qed.

Lemma fetch_metadata_same w paper_url st :
  same_progress st (snd (fetch_metadata w paper_url st)).
Proof.
  apply (keeps_fetch_metadata w same_progress same_progress_refl same_progress_trans).
  - intros a v. by repeat split.
  - intros a v. by repeat split.
Qed.

Lemma get_paper_links_same w year st :
  same_progress st (snd (get_paper_links w year st)).
Proof.
  apply (keeps_get_paper_links w same_progress same_progress_refl same_progress_trans).
  - intros a v. by repeat split.
  - intros a v. by repeat split.
Qed.

Lemma paper_unit_tally w paper_url st :
  tally 1 st (snd (paper_unit w paper_url st)).
Proof.
  unfold paper_unit, bind.
  pose proof (fetch_metadata_same w paper_url st) as Hf.
  destruct (fetch_metadata w paper_url st) as [[[md|]|e] st1]; cbn in Hf.
  - unfold submit.
    pose proof (download_pdf_tally w paper_url md st1) as Hd.
    destruct (download_pdf w paper_url md st1) as [r st2]. cbn in *.
    apply (tally_trans 0 1 st st1); [by apply tally_same|exact Hd].
  - cbn. apply (tally_weaken 0); [lia|]. by apply tally_same.
  - cbn. apply (tally_weaken 0); [lia|]. by apply tally_same.
Qed.

Lemma submit_all_tally w paper_links : forall st,
  tally (length paper_links) st (snd (submit_all w paper_links st)).
Proof.
  induction paper_links as [|u rest IH]; intros st.
  - cbn. apply tally_same, same_progress_refl.
  - cbn [submit_all length]. unfold bind at 1.
    pose proof (paper_unit_tally w u st) as Hu.
    destruct (paper_unit w u st) as [[f|e] st1]; cbn in Hu.
    + unfold bind. specialize (IH st1).
      destruct (submit_all w rest st1) as [[fs|e] st2]; cbn in IH |- *;
        exact (tally_trans 1 (length rest) st st1 st2 Hu IH).
    + cbn. apply (tally_weaken 1); [lia|exact Hu].
Qed.

Lemma within_refl st : within_discovered st st.
Proof.
  exists []. split; [apply grew_nothing, same_progress_refl|]. cbn. lia.
Qed.

Lemma within_trans a b c :
  within_discovered a b -> within_discovered b c -> within_discovered a c.
Proof.
  intros (r1 & Hg1 & Hl1) (r2 & Hg2 & Hl2).
  exists (r1 ++ r2). split; [by eapply grew_trans|]. rewrite length_app. lia.
Qed.

Lemma within_same a b : same_progress a b -> within_discovered a b.
Proof.
  intros H. exists []. split; [by apply grew_nothing|].
  destruct H as (_ & _ & Ht & _). rewrite Ht. cbn. lia.
Qed.

Lemma results_state futures st : snd (results futures st) = st.
Proof. induction futures as [|[[]|e] fs IH]; cbn; auto. Qed.

(** What a year does to the totals: the links found are added to
    [total_papers] before the first paper is looked at. *)
Lemma scrape_year_state w year st :
  (exists links st1,
     same_progress st st1 /\
     fst (get_paper_links w year st) = Ret links /\
     tally (length links)
           (set_total_papers (total_papers st1 + Z.of_nat (length links)) st1)
           (snd (scrape_year w year st))) \/
  ((exists e, fst (get_paper_links w year st) = Raise e) /\
   same_progress st (snd (scrape_year w year st))).
Proof.
  unfold scrape_year, bind.
  pose proof (get_paper_links_same w year st) as Hg.
  destruct (get_paper_links w year st) as [[links|e] st1]; cbn [fst snd] in *.
  - left. exists links, st1. split; [exact Hg|]. split; [reflexivity|].
    cbn.
    pose proof (submit_all_tally w links
                  (set_total_papers (total_papers st1 + Z.of_nat (length links)) st1)) as Hs.
    destruct (submit_all w links _) as [[fs|e] st2]; cbn [fst snd] in *.
    + by rewrite results_state.
    + exact Hs.
  - right. split; [by eexists|exact Hg].
Qed.

Lemma scrape_year_within w year st :
  within_discovered st (snd (scrape_year w year st)).
Proof.
  destruct (scrape_year_state w year st)
    as [(links & st1 & Hsame & _ & rows & Hgrew & Hlen & Htot & _)|[_ Hsame]].
  - destruct Hsame as (Hs & Hd & Ht & Hi).
    exists rows. split.
    + destruct Hgrew as [G1 G2]. split.
      * change (sink (set_total_papers (total_papers st1 + Z.of_nat (length links)) st1))
          with (sink st1) in G1.
        rewrite Hs in G1. exact G1.
      * rewrite G2. cbn. by rewrite Hd.
    + rewrite Htot. cbn. rewrite Ht. lia.
  - by apply within_same.
Qed.

Lemma scrape_years_within w years : forall st,
  within_discovered st (snd (scrape_years w years st)).
Proof.
  induction years as [|y rest IH]; intros st; [apply within_refl|].
  cbn [scrape_years]. unfold bind.
  pose proof (scrape_year_within w y st) as Hy.
  destruct (scrape_year w y st) as [[[]|e] st1]; cbn in Hy |- *; [|exact Hy].
  by apply (within_trans st st1).
Qed.

Lemma scrape_papers_within w s e st :
  within_discovered st (snd (scrape_papers w s e st)).
Proof.
  unfold scrape_papers, bind.
  pose proof (scrape_years_within w (year_range s e) st) as Hy.
  destruct (scrape_years w (year_range s e) st) as [[[]|x] st1]; cbn in Hy |- *; [|exact Hy].
  apply (within_trans st st1); [exact Hy|].
  exists []. split; [|cbn; lia]. split; [|cbn; lia].
  change (sink (set_ui _ (set_is_scraping false st1))) with (sink st1).
  cbn. change (Workers.rows_text []) with EmptyString. by rewrite !append_nil_r.
Qed.

(** X3. What a year adds to [total_papers], in any world: the number of
    paper links on its listing when the listing arrives, nothing when the
    retrieval fails or raises; it is the same whether or not the papers are
    stored afterwards. *)
Theorem scrape_year_discovers_the_links w year st :
  total_papers (snd (scrape_year w year st)) =
  total_papers st +
  match page_of w (now st) (year_url year) with
  | Page soup => Z.of_nat (length (abstract_links soup))
  | _ => 0
  end.
Proof.
  destruct (scrape_year_state w year st)
    as [(links & st1 & Hsame & Hlinks & rows & _ & _ & Htot & _)|[[e He] Hsame]].
  - rewrite Htot. cbn. destruct Hsame as (_ & _ & -> & _).
    rewrite get_paper_links_eq in Hlinks.
    destruct (page_of w (now st) (year_url year)); cbn in Hlinks;
      try discriminate; injection Hlinks as <-; cbn; lia.
  - destruct Hsame as (_ & _ & -> & _).
    rewrite get_paper_links_eq in He.
    destruct (page_of w (now st) (year_url year)); cbn in He; try discriminate. lia.
Qed.

(** A press of the start button on a valid range, with a sink file that is
    there or can be made: the thread is started on zeroed counters. *)
Lemma start_scraping_started w s e st :
  range_invalid s e = false ->
  is_Some (files st !! METADATA_FILE) \/ open_fails w METADATA_FILE = false ->
  exists st0,
    start_scraping w s e st = (Ret (Some (s, e)), st0) /\
    downloaded_papers st0 = 0 /\ total_papers st0 = 0 /\ is_scraping st0 = true /\
    log_queue st0 = log_queue st /\
    sink st0 = match files st !! METADATA_FILE with
               | Some text => text
               | None => Csv.header
               end.
Proof.
  intros Hv Hfile. unfold start_scraping. rewrite bind_modify, Hv.
  unfold init_metadata_file. rewrite bind_assoc, bind_get.
  cbn [files set_downloaded_papers].
  destruct (files st !! METADATA_FILE) as [text|] eqn:Hm.
  - rewrite bool_decide_eq_true_2 by eauto.
    eexists. split; [reflexivity|]. unfold sink, file_content. cbn. by rewrite Hm.
  - rewrite bool_decide_eq_false_2 by (intros [? ?]; discriminate).
    destruct Hfile as [[? ?]|Hopen]; [discriminate|]. rewrite Hopen.
    eexists. split; [reflexivity|]. unfold sink, file_content. cbn.
    by rewrite lookup_insert_eq.
Qed.

(** ** The poll (update_progress) *)

Lemma drain_map queue : drain queue = map LogAreaInsert queue.
Proof. induction queue as [|l q IH]; [reflexivity|]. cbn. by rewrite IH. Qed.

Lemma in_drain c queue :
  In c (drain queue) -> exists l, c = LogAreaInsert l.
Proof.
  rewrite drain_map. intros H. apply in_map_iff in H as (l & <- & _). by exists l.
Qed.

(** X5. A poll with [total_papers] at 0 raises ZeroDivisionError, and only
    then.  It has by then moved every queued line to the log area, in queue
    order, and left the queue empty; it sets no progress, shows no box and,
    even while [is_scraping] is set, does not schedule the next poll. *)
Theorem update_progress_zero_total st :
  (fst (fst (update_progress st)) = ZeroDivisionError <-> total_papers st = 0) /\
  (total_papers st = 0 ->
     snd (fst (update_progress st)) = map LogAreaInsert (log_queue st) /\
     ~ In PollAgain (snd (fst (update_progress st))) /\
     log_queue (snd (update_progress st)) = []).
Proof.
  unfold update_progress. split.
  - destruct (total_papers st =? 0) eqn:E; cbn.
    + apply Z.eqb_eq in E. tauto.
    + apply Z.eqb_neq in E. split; [discriminate|contradiction].
  - intros H0. apply Z.eqb_eq in H0. rewrite H0. cbn. rewrite drain_map.
    split; [reflexivity|]. split; [|reflexivity].
    intros Hin. apply in_map_iff in Hin as (l & Hl & _). discriminate Hl.
Qed.

Lemma update_progress_zero_total_witness :
  total_papers (snd (batch Sample.good_world 1999 1999 Sample.fresh)) = 0 /\
  fst (fst (update_progress (snd (batch Sample.good_world 1999 1999 Sample.fresh))))
    = ZeroDivisionError.
Proof.
  split; [reflexivity|].
  apply (proj1 (update_progress_zero_total
                  (snd (batch Sample.good_world 1999 1999 Sample.fresh)))).
  reflexivity.
Defined.

(** X6. A poll with [total_papers] not 0 returns.  It moves the queued lines
    to the log area in queue order and empties the queue, sets the progress
    from the two counters, shows the success box exactly when
    [downloaded_papers] equals [total_papers] (whether or not scraping is
    still going on), and schedules the next poll exactly when [is_scraping]
    is set.  It changes nothing but the queue. *)
Theorem update_progress_polls st :
  total_papers st <> 0 ->
  let calls := snd (fst (update_progress st)) in
  let st' := snd (update_progress st) in
  fst (fst (update_progress st)) = Polled /\
  (exists rest,
     calls = map LogAreaInsert (log_queue st) ++
             ProgressBarSet (downloaded_papers st) (total_papers st) :: rest /\
     forall c, In c rest -> c = ShowSuccess \/ c = PollAgain) /\
  (In ShowSuccess calls <-> downloaded_papers st = total_papers st) /\
  (In PollAgain calls <-> is_scraping st = true) /\
  st' = set_log_queue [] st.
Proof.
  intros Hne. apply Z.eqb_neq in Hne. unfold update_progress. rewrite Hne. cbn [fst snd].
  split; [reflexivity|]. split; [|split; [|split; [|reflexivity]]].
  - eexists. rewrite drain_map. split; [reflexivity|].
    intros c Hc. apply in_app_or in Hc as [Hc|Hc].
    + destruct (downloaded_papers st =? total_papers st); [|destruct Hc].
      destruct Hc as [<-|[]]. by left.
    + destruct (is_scraping st); [|destruct Hc]. destruct Hc as [<-|[]]. by right.
  - rewrite !in_app_iff. split.
    + intros [H|[H|[H|H]]].
      * apply in_drain in H as [l Hl]. discriminate Hl.
      * destruct H as [H|[]]. discriminate H.
      * destruct (downloaded_papers st =? total_papers st) eqn:E; [|destruct H].
        by apply Z.eqb_eq.
      * destruct (is_scraping st); [|destruct H]. destruct H as [H|[]]. discriminate H.
    + intros Heq. apply Z.eqb_eq in Heq. rewrite Heq. right. right. left. by left.
  - rewrite !in_app_iff. split.
    + intros [H|[H|[H|H]]].
      * apply in_drain in H as [l Hl]. discriminate Hl.
      * destruct H as [H|[]]. discriminate H.
      * destruct (downloaded_papers st =? total_papers st); [|destruct H].
        destruct H as [H|[]]. discriminate H.
      * destruct (is_scraping st); [reflexivity|destruct H].
    + intros ->. right. right. right. by left.
Qed.

Lemma update_progress_polls_witness :
  let st := snd (batch Sample.good_world 2020 2020 Sample.fresh) in
  total_papers st <> 0 /\
  fst (fst (update_progress st)) = Polled /\
  ~ In ShowSuccess (snd (fst (update_progress st))).
Proof.
  cbv zeta.
  assert (Hne : total_papers (snd (batch Sample.good_world 2020 2020 Sample.fresh)) <> 0)
    by (vm_compute; discriminate).
  split; [exact Hne|].
  destruct (update_progress_polls _ Hne) as (Hp & _ & Hs & _).
  split; [exact Hp|].
  intros Hin. apply Hs in Hin. vm_compute in Hin. discriminate Hin.
Defined.

(** ** What a whole batch keeps *)

Section KeepsBatch.

Variable w : world.
Variable R : state -> state -> Prop.

Hypothesis R_refl : forall st, R st st.
Hypothesis R_trans : forall a b c, R a b -> R b c -> R a c.
Hypothesis R_sent : forall st url, R st (requested url st).
Hypothesis R_logging : forall st r, R st (logged r st).
Hypothesis R_queue : forall st l, R st (queued l st).
Hypothesis R_ui : forall st c, R st (shown c st).
Hypothesis R_total : forall st v, R st (set_total_papers v st).
Hypothesis R_downloaded : forall st v, R st (set_downloaded_papers v st).
Hypothesis R_scraping : forall st v, R st (set_is_scraping v st).
Hypothesis R_asset : forall st href v,
  Py.endswith ".pdf" href = true ->
  R st (set_files (<[pdf_path_of href := v]> (files st)) st).
Hypothesis R_sink : forall st v,
  R st (set_files (<[METADATA_FILE := v]> (files st)) st).

Lemma R_finished row st : R st (finished row st).
Proof.
  unfold finished, shown, queued, appended.
  eapply R_trans; [apply R_sink|].
  eapply R_trans; [apply R_downloaded|].
  eapply R_trans; [apply R_queue|apply R_ui].
Qed.

Lemma keeps_download_pdf paper_url md : keeps R (download_pdf w paper_url md).
Proof.
  intros st.
  destruct (download_pdf_effect w R R_refl R_trans R_sent R_queue R_asset paper_url md st)
    as [H|(_ & st1 & href & _ & _ & H1 & ->)]; [exact H|].
  eapply R_trans; [exact H1|apply R_finished].
Qed.

Lemma keeps_paper_unit paper_url : keeps R (paper_unit w paper_url).
Proof.
  unfold paper_unit.
  apply keeps_bind; [exact R_trans|by apply keeps_fetch_metadata|intros [md|]].
  - apply keeps_bind; [exact R_trans|apply keeps_submit, keeps_download_pdf|intros f].
    by apply keeps_ret.
  - by apply keeps_ret.
Qed.

Lemma keeps_submit_all paper_links : keeps R (submit_all w paper_links).
Proof.
  induction paper_links as [|u rest IH]; cbn [submit_all]; [by apply keeps_ret|].
  apply keeps_bind; [exact R_trans|apply keeps_paper_unit|intros f].
  apply keeps_bind; [exact R_trans|exact IH|intros fs]. by apply keeps_ret.
Qed.

Lemma keeps_scrape_year year : keeps R (scrape_year w year).
Proof.
  unfold scrape_year.
  apply keeps_bind; [exact R_trans|by apply keeps_get_paper_links|intros links].
  apply keeps_bind; [exact R_trans| |intros _].
  { apply keeps_modify. intros st. apply R_total. }
  apply keeps_bind; [exact R_trans|apply keeps_submit_all|intros fs].
  by apply keeps_results.
Qed.

Lemma keeps_scrape_years years : keeps R (scrape_years w years).
Proof.
  induction years as [|y rest IH]; cbn [scrape_years]; [by apply keeps_ret|].
  apply keeps_bind; [exact R_trans|apply keeps_scrape_year|intros _; exact IH].
Qed.

Lemma keeps_scrape_papers s e : keeps R (scrape_papers w s e).
Proof.
  unfold scrape_papers.
  apply keeps_bind; [exact R_trans|apply keeps_scrape_years|intros _].
  apply keeps_bind; [exact R_trans| |intros _; by apply keeps_ui_do].
  apply keeps_modify. intros st. apply R_scraping.
Qed.

Lemma keeps_start_scraping s e : keeps R (start_scraping w s e).
Proof.
  unfold start_scraping.
  apply keeps_bind; [exact R_trans| |intros _].
  { apply keeps_modify. intros st. apply R_downloaded. }
  destruct (range_invalid s e).
  - apply keeps_bind; [exact R_trans|by apply keeps_ui_do|intros _]. by apply keeps_ret.
  - apply keeps_bind; [exact R_trans| |intros _].
    { unfold init_metadata_file. intros st. rewrite bind_get.
      destruct (bool_decide _); [apply R_refl|].
      destruct (open_fails w METADATA_FILE); [apply R_refl|]. apply R_sink. }
    apply keeps_bind; [exact R_trans|by apply keeps_ui_do|intros _].
    apply keeps_bind; [exact R_trans|by apply keeps_ui_do|intros _].
    apply keeps_bind; [exact R_trans| |intros _].
    { apply keeps_modify. intros st. apply R_total. }
    apply keeps_bind; [exact R_trans|by apply keeps_ui_do|intros _].
    apply keeps_bind; [exact R_trans| |intros _].
    { apply keeps_modify. intros st. apply R_scraping. }
    apply keeps_bind; [exact R_trans|by apply keeps_ui_do|intros _].
    by apply keeps_ret.
Qed.

Lemma keeps_batch s e : keeps R (batch w s e).
Proof.
  unfold batch.
  apply keeps_bind; [exact R_trans|apply keeps_start_scraping|intros [[a b]|]].
  - apply keeps_scrape_papers.
  - by apply keeps_ret.
Qed.

End KeepsBatch.

(** ** Where the batch writes *)

Lemma contains_slash_cons c s :
  Py.contains "/" (String c s) = Ascii.eqb c Py.slash || Py.contains "/" s.
Proof.
  cbn [Py.contains]. f_equal.
  change (String.prefix "/" (String c s))
    with (if ascii_dec "/" c then String.prefix EmptyString s else false).
  destruct (ascii_dec "/" c) as [<-|Hne]; [by destruct s|].
  symmetry. apply Ascii.eqb_neq. unfold Py.slash. congruence.
Qed.

Lemma contains_slash_append a b :
  Py.contains "/" (a +:+ b) = Py.contains "/" a || Py.contains "/" b.
Proof.
  induction a as [|c a IH].
  - change (EmptyString +:+ b) with b. reflexivity.
  - rewrite append_cons, !contains_slash_cons, IH. by rewrite orb_assoc.
Qed.

Lemma last_segment_from_no_slash s : forall cur,
  Py.contains "/" cur = false ->
  Py.contains "/" (Py.last_segment_from cur s) = false.
Proof.
  induction s as [|c s IH]; intros cur Hcur; [exact Hcur|].
  cbn [Py.last_segment_from].
  destruct (Ascii.eqb c Py.slash) eqn:E; [by apply IH|].
  apply IH. rewrite contains_slash_append, Hcur, contains_slash_cons, E. reflexivity.
Qed.

Lemma pdf_path_in_output_dir href : in_output_dir (pdf_path_of href).
Proof.
  exists (Py.last_segment (pdf_url_of href)). split; [reflexivity|].
  by apply last_segment_from_no_slash.
Qed.

Lemma sink_in_output_dir : in_output_dir METADATA_FILE.
Proof. exists "metadata.csv". split; reflexivity. Qed.

(** X7. Whatever the archive serves and however the batch ends, a press of
    the start button changes no file outside the output directory: every
    path written is the output directory, a slash, and a name without a
    slash (the sink, or what follows the last slash of an asset link). *)
Theorem batch_writes_only_inside_output_dir w s e st path :
  ~ in_output_dir path ->
  files (snd (batch w s e st)) !! path = files st !! path.
Proof.
  intros Hout. revert path Hout.
  change (wrote_inside st (snd (batch w s e st))).
  apply (keeps_batch w wrote_inside); unfold wrote_inside; try (intros; reflexivity).
  - intros a b c Hab Hbc path Hout. rewrite Hbc, Hab by assumption. reflexivity.
  - intros a href v _ path Hout. cbn.
    apply lookup_insert_ne. intros <-. apply Hout, pdf_path_in_output_dir.
  - intros a v path Hout. cbn.
    apply lookup_insert_ne. intros <-. apply Hout, sink_in_output_dir.
Qed.

Lemma batch_writes_only_inside_output_dir_witness :
  ~ in_output_dir "D:/notes.txt" /\
  files (snd (batch Sample.good_world 2020 2021
                (initial_state {["D:/notes.txt" := "keep"]}))) !! "D:/notes.txt"
    = Some "keep".
Proof.
  assert (Hout : ~ in_output_dir "D:/notes.txt").
  { intros (name & Hname & _). vm_compute in Hname. discriminate Hname. }
  split; [exact Hout|].
  rewrite (batch_writes_only_inside_output_dir Sample.good_world 2020 2021 _ _ Hout).
  reflexivity.
Defined.

(** ** A connection that breaks while the asset is streamed *)

Lemma write_chunks_broken w path k chunks : forall i st c,
  files st !! path = Some c ->
  write_fails_at w path = None ->
  (i <= k < i + length chunks)%nat ->
  write_chunks w path (Some k) i chunks st =
    (Raise RequestException,
     set_files (<[path := c +:+ Py.concat_str (take (k - i) chunks)]> (files st)) st).
Proof.
  induction chunks as [|x chunks IH]; intros i st c Hc Hw Hk; [cbn in Hk; lia|].
  cbn [write_chunks]. rewrite Hw.
  destruct (k <=? i)%nat eqn:Hki.
  - apply Nat.leb_le in Hki. replace (k - i)%nat with O by lia. cbn.
    rewrite append_nil_r, insert_id by done. by rewrite set_files_same.
  - apply Nat.leb_gt in Hki. rewrite bind_modify.
    rewrite (IH (S i) _ (c +:+ x)).
    + cbn [files set_files]. unfold file_content. rewrite Hc. cbn [default].
      rewrite insert_insert_eq.
      replace (k - i)%nat with (S (k - S i)) by lia.
      cbn [take]. change (Py.concat_str (x :: take (k - S i) chunks))
        with (x +:+ Py.concat_str (take (k - S i) chunks)).
      by rewrite append_assoc.
    + cbn. unfold file_content. rewrite Hc. cbn. by rewrite lookup_insert_eq.
    + exact Hw.
    + cbn [length] in Hk. lia.
Qed.

Lemma concat_str_app a b :
  Py.concat_str (a ++ b) = Py.concat_str a +:+ Py.concat_str b.
Proof.
  induction a as [|x a IH]; [reflexivity|].
  change (Py.concat_str ((x :: a) ++ b)) with (x +:+ Py.concat_str (a ++ b)).
  change (Py.concat_str (x :: a)) with (x +:+ Py.concat_str a).
  by rewrite IH, append_assoc.
Qed.

(** X8. When the asset request is answered and the connection breaks after
    [k] chunks of the body, on a disk that takes the writes: [download_pdf]
    returns, the handler having queued the error line; the asset file is
    left on the disk holding just those [k] chunks, a proper beginning of
    the body; no row is appended, the counter stays and no poll is
    scheduled. *)
Theorem download_pdf_broken_stream_leaves_partial_file
    w paper_url md st soup pdf_link r k :
  let href := Soup.attr_or_empty "href" pdf_link in
  let pdf_path := pdf_path_of href in
  let chunks := Py.iter_content 1024 (body r) in
  page_of w (now st) paper_url = Page soup ->
  Soup.select_one (Soup.a_href_endswith ".pdf") soup = Some pdf_link ->
  net w (S (now st)) (pdf_url_of href) = Answer r ->
  cut r = Some k -> (k < length chunks)%nat ->
  open_fails w pdf_path = false ->
  write_fails_at w pdf_path = None ->
  exists st',
    download_pdf w paper_url md st = (Ret tt, st') /\
    files st' !! pdf_path = Some (Py.concat_str (take k chunks)) /\
    body r = Py.concat_str (take k chunks) +:+ Py.concat_str (drop k chunks) /\
    drop k chunks <> [] /\
    log_queue st' = log_queue st ++
                    [Downloading (Py.last_segment (pdf_url_of href));
                     ErrorDownloading paper_url] /\
    sink st' = sink st /\
    downloaded_papers st' = downloaded_papers st /\
    ui st' = ui st.
Proof.
  intros href pdf_path chunks Hpage Hlink Hnet Hcut Hk Hopen Hwrite.
  assert (Hne : pdf_path <> METADATA_FILE)
    by (apply pdf_path_not_sink; eapply pdf_link_href; exact Hlink).
  rewrite download_pdf_fetch, Hpage, Hlink.
  cbv zeta. fold href. fold pdf_path.
  unfold try_except_request.
  unfold log_queue_put at 1. rewrite bind_modify.
  unfold bind at 1. unfold requests_get_stream.
  change (length (sent (set_log_queue _ (requested paper_url st))))
    with (length (sent st ++ [paper_url])).
  rewrite length_app, Nat.add_1_r. fold (now st). rewrite Hnet.
  unfold bind at 1. unfold save_stream. rewrite Hopen, bind_modify, Hcut.
  rewrite (write_chunks_broken _ _ _ _ _ _ EmptyString);
    [|cbn; by rewrite lookup_insert_eq|exact Hwrite|fold chunks; lia].
  eexists. split; [reflexivity|].
  cbn. rewrite insert_insert_eq, lookup_insert_eq, Nat.sub_0_r. fold chunks.
  split; [reflexivity|]. split.
  { rewrite <- concat_str_app, take_drop. symmetry. apply iter_content_concat. }
  split.
  { intros Hd. apply (f_equal length) in Hd. rewrite length_drop in Hd. cbn in Hd. lia. }
  split; [by rewrite <- app_assoc|].
  split; [|split; reflexivity].
  unfold sink, file_content. cbn. by rewrite lookup_insert_ne.
Qed.

Lemma download_pdf_broken_stream_leaves_partial_file_witness :
  let st := requested Sample.url_a Sample.fresh in
  exists st',
    download_pdf Sample.flaky_world Sample.url_a Sample.md_a st = (Ret tt, st') /\
    files st' !! "D:/scraped-pdfs/a-Paper.pdf" = Some EmptyString /\
    downloaded_papers st' = 0.
Proof.
  destruct (download_pdf_broken_stream_leaves_partial_file
              Sample.flaky_world Sample.url_a Sample.md_a
              (requested Sample.url_a Sample.fresh) Sample.page_a
              (Sample.anchor "/p/a-Paper.pdf" "Paper")
              {| status_code := 200; body := "%PDF-1.4 ..."; cut := Some O |} O
              eq_refl eq_refl eq_refl eq_refl ltac:(vm_compute; lia) eq_refl eq_refl)
    as (st' & Hd & Hf & _ & _ & _ & _ & Hn & _).
  exists st'. split; [exact Hd|]. split; [exact Hf|exact Hn].
Defined.

(** ** A batch on a healthy disk and parser *)

Lemma returns_ret {A} (a : A) : returns (ret a).
Proof. intros st. by exists a. Qed.

Lemma returns_modify f : returns (modify f).
Proof. intros st. by exists tt. Qed.

Lemma returns_get {A} (f : state -> A) : returns (get f).
Proof. intros st. by eexists. Qed.

Lemma returns_bind {A B} (m : M A) (k : A -> M B) :
  returns m -> (forall a, returns (k a)) -> returns (bind m k).
Proof.
  intros Hm Hk st. unfold bind. destruct (Hm st) as [a Ha].
  destruct (m st) as [[a'|e] st1]; cbn in Ha; [|discriminate]. apply Hk.
Qed.

Lemma request_error_only_returns {A} (m : M A) : returns m -> request_error_only m.
Proof. intros H st. left. apply H. Qed.

Lemma request_error_only_bind {A B} (m : M A) (k : A -> M B) :
  request_error_only m -> (forall a, request_error_only (k a)) ->
  request_error_only (bind m k).
Proof.
  intros Hm Hk st. unfold bind. destruct (Hm st) as [[a Ha]|He].
  - destruct (m st) as [[a'|e] st1]; cbn in Ha; [|discriminate]. apply Hk.
  - destruct (m st) as [[a'|e] st1]; cbn in He; [discriminate|].
    injection He as ->. by right.
Qed.

Lemma returns_try {A} (m h : M A) :
  request_error_only m -> returns h -> returns (try_except_request m h).
Proof.
  intros Hm Hh st. unfold try_except_request. destruct (Hm st) as [[a Ha]|He].
  - destruct (m st) as [[a'|e] st1]; cbn in Ha; [|discriminate]. by exists a'.
  - destruct (m st) as [[a'|e] st1]; cbn in He; [discriminate|].
    injection He as ->. apply Hh.
Qed.

Section Healthy.

Variable w : world.
Hypothesis Hw : healthy w.

Lemma only_requests_get url : request_error_only (requests_get w url).
Proof.
  intros st. unfold requests_get.
  destruct (net w (length (sent st)) url) as [|r]; [by right|].
  destruct (breaks r); [by right|left; by eexists].
Qed.

Lemma only_requests_get_stream url : request_error_only (requests_get_stream w url).
Proof.
  intros st. unfold requests_get_stream.
  destruct (net w (length (sent st)) url) as [|r]; [by right|left; by eexists].
Qed.

Lemma only_raise_for_status r : request_error_only (raise_for_status r).
Proof.
  intros st. unfold raise_for_status.
  destruct (_ && _); [by right|left; by eexists].
Qed.

Lemma returns_BeautifulSoup markup : returns (BeautifulSoup w markup).
Proof.
  intros st. unfold BeautifulSoup. destruct Hw as (_ & _ & Hp).
  destruct (html_parser w markup) eqn:E; [by eexists|]. by apply Hp in E.
Qed.

Lemma only_write_chunks path cut chunks i :
  request_error_only (write_chunks w path cut i chunks).
Proof.
  revert i. induction chunks as [|c chunks IH]; intros i.
  - apply request_error_only_returns, returns_ret.
  - cbn [write_chunks]. destruct Hw as (_ & Hwr & _). rewrite Hwr.
    destruct (match cut with Some k => (k <=? i)%nat | None => false end).
    + intros st. by right.
    + apply request_error_only_bind; [|intros _; apply IH].
      apply request_error_only_returns, returns_modify.
Qed.

Lemma only_save_stream path r : request_error_only (save_stream w path r).
Proof.
  unfold save_stream. destruct Hw as (Ho & _ & _). rewrite Ho.
  apply request_error_only_bind; [|intros _; apply only_write_chunks].
  apply request_error_only_returns, returns_modify.
Qed.

Lemma returns_append_row row : returns (append_row w row).
Proof.
  unfold append_row. destruct Hw as (Ho & _ & _). rewrite Ho. apply returns_modify.
Qed.

Lemma returns_get_paper_links year : returns (get_paper_links w year).
Proof.
  unfold get_paper_links. apply returns_bind; [apply returns_modify|intros _].
  apply returns_try.
  - apply request_error_only_bind; [apply only_requests_get|intros response].
    apply request_error_only_bind; [apply only_raise_for_status|intros _].
    apply request_error_only_returns.
    apply returns_bind; [apply returns_BeautifulSoup|intros soup].
    apply returns_bind; [apply returns_modify|intros _]. apply returns_ret.
  - apply returns_bind; [apply returns_modify|intros _]. apply returns_ret.
Qed.

Lemma returns_fetch_metadata paper_url : returns (fetch_metadata w paper_url).
Proof.
  unfold fetch_metadata. apply returns_try.
  - apply request_error_only_bind; [apply only_requests_get|intros response].
    apply request_error_only_bind; [apply only_raise_for_status|intros _].
    apply request_error_only_returns.
    apply returns_bind; [apply returns_BeautifulSoup|intros soup]. apply returns_ret.
  - apply returns_bind; [apply returns_modify|intros _]. apply returns_ret.
Qed.

Lemma returns_download_pdf paper_url md : returns (download_pdf w paper_url md).
Proof.
  unfold download_pdf. apply returns_try; [|apply returns_modify].
  apply request_error_only_bind; [apply only_requests_get|intros response].
  apply request_error_only_bind; [apply only_raise_for_status|intros _].
  apply request_error_only_bind;
    [apply request_error_only_returns, returns_BeautifulSoup|intros soup].
  destruct (Soup.select_one (Soup.a_href_endswith ".pdf") soup) as [pdf_link|];
    [|apply request_error_only_returns, returns_modify].
  apply request_error_only_bind;
    [apply request_error_only_returns, returns_modify|intros _].
  apply request_error_only_bind; [apply only_requests_get_stream|intros pdf_response].
  apply request_error_only_bind; [apply only_save_stream|intros _].
  apply request_error_only_returns.
  apply returns_bind; [apply returns_modify|intros _].
  apply returns_bind; [apply returns_append_row|intros _].
  apply returns_bind; [apply returns_modify|intros _].
  apply returns_bind; [apply returns_get|intros done].
  apply returns_bind; [apply returns_get|intros total].
  apply returns_bind; [apply returns_modify|intros _].
  apply returns_modify.
Qed.

Lemma submit_all_all_done paper_links st :
  exists fs, fst (submit_all w paper_links st) = Ret fs /\ all_done fs.
Proof.
  revert st. induction paper_links as [|u rest IH]; intros st.
  - exists []. split; [reflexivity|constructor].
  - cbn [submit_all]. unfold bind at 1. unfold paper_unit at 1. unfold bind at 1.
    destruct (returns_fetch_metadata u st) as [md Hmd].
    destruct (fetch_metadata w u st) as [[md'|e] st1]; cbn in Hmd; [|discriminate].
    destruct md' as [md'|].
    + unfold bind at 1. unfold submit.
      destruct (returns_download_pdf u md' st1) as [[] Hd].
      destruct (download_pdf w u md' st1) as [r st2]. cbn in Hd. subst r. cbn.
      unfold bind. destruct (IH st2) as (fs & Hfs & Hall).
      destruct (submit_all w rest st2) as [[fs'|e] st3]; cbn in Hfs; [|discriminate].
      injection Hfs as ->. exists (Ret tt :: fs). split; [reflexivity|].
      by constructor.
    + cbn. unfold bind. destruct (IH st1) as (fs & Hfs & Hall).
      destruct (submit_all w rest st1) as [[fs'|e] st3]; cbn in Hfs; [|discriminate].
      injection Hfs as ->. exists fs. split; [reflexivity|exact Hall].
Qed.

Lemma results_all_done fs st : all_done fs -> results fs st = (Ret tt, st).
Proof.
  induction 1 as [|f fs Hf _ IH]; [reflexivity|]. subst f. exact IH.
Qed.

Lemma returns_scrape_year year : returns (scrape_year w year).
Proof.
  intros st. unfold scrape_year, bind.
  destruct (returns_get_paper_links year st) as [links Hl].
  destruct (get_paper_links w year st) as [[links'|e] st1]; cbn in Hl; [|discriminate].
  cbn.
  match goal with |- context [submit_all w links' ?s] =>
    destruct (submit_all_all_done links' s) as (fs & Hfs & Hall);
    destruct (submit_all w links' s) as [[fs'|e] st2] end;
    cbn in Hfs; [|discriminate].
  injection Hfs as ->. rewrite (results_all_done _ _ Hall). by exists tt.
Qed.

Lemma returns_scrape_years years : returns (scrape_years w years).
Proof.
  induction years as [|y rest IH]; cbn [scrape_years]; [apply returns_ret|].
  apply returns_bind; [apply returns_scrape_year|intros _; exact IH].
Qed.

End Healthy.

(** The batch with every call run to its end as it is submitted, on a disk
    that takes every write and with a parser that takes every page: no
    exception is raised, whatever the archive answers, and the last thing
    [scrape_papers] does is to clear [is_scraping] and to ask for the start
    button to be enabled again. *)
Theorem batch_on_healthy_disk_reaches_idle w s e st :
  healthy w ->
  1987 <= s /\ s <= e /\ e <= 2025 ->
  exists st',
    batch w s e st = (Ret tt, st') /\
    is_scraping st' = false /\
    exists before, ui st' = before ++ [StartButtonNormal].
Proof.
  intros Hw Hrange.
  assert (Hv : range_invalid s e = false).
  { destruct (range_invalid s e) eqn:E; [|reflexivity].
    apply range_invalid_iff in E. contradiction. }
  destruct (start_scraping_started w s e st Hv) as (st0 & Hs0 & _).
  { right. apply Hw. }
  unfold batch. rewrite (bind_returns _ _ _ _ _ Hs0).
  unfold scrape_papers, bind.
  destruct (returns_scrape_years w Hw (year_range s e) st0) as [[] Hy].
  destruct (scrape_years w (year_range s e) st0) as [[[]|x] st1]; cbn in Hy; [|discriminate].
  eexists. split; [reflexivity|]. split; [reflexivity|]. by eexists.
Qed.

Lemma batch_on_healthy_disk_reaches_idle_witness :
  healthy Sample.good_unparsed_world /\
  fst (batch Sample.good_unparsed_world 2020 2021 Sample.fresh) = Ret tt.
Proof.
  assert (Hh : healthy Sample.good_unparsed_world).
  { split; [reflexivity|]. split; [reflexivity|]. intros markup. discriminate. }
  split; [exact Hh|].
  assert (Hr : 1987 <= 2020 /\ 2020 <= 2021 /\ 2021 <= 2025) by lia.
  destruct (batch_on_healthy_disk_reaches_idle Sample.good_unparsed_world 2020 2021
              Sample.fresh Hh Hr) as (st' & Hb & _).
  rewrite Hb. reflexivity.
Defined.

(** ** What the two extractors return *)

(** X10. When the listing of a year arrives, [get_paper_links] returns a
    link for exactly the anchors of the page whose [href] contains
    "-Abstract.html": every link returned is the site address followed by
    such an [href], every such anchor of the page has its link in the list,
    and the count logged is the length of the list. *)
Theorem get_paper_links_returns_the_abstract_anchors w year st soup :
  page_of w (now st) (year_url year) = Page soup ->
  exists links st',
    get_paper_links w year st = (Ret links, st') /\
    Forall (fun link => exists href, paper_link href link) links /\
    (forall tag href,
       In tag (Soup.all_nodes soup) -> Soup.name_is "a" tag = true ->
       Soup.attr "href" tag = Some href ->
       Py.contains "-Abstract.html" href = true ->
       In (SITE +:+ href) links) /\
    logging st' = logging st ++
                  [InfoFetchingLinks (year_url year); InfoFound (length links) year].
Proof.
  intros Hpage. rewrite get_paper_links_eq, Hpage.
  eexists _, _. split; [reflexivity|]. split; [|split].
  - unfold abstract_links, Soup.select. apply List.Forall_forall. intros link Hin.
    apply in_map_iff in Hin as (tag & <- & Htag).
    apply List.filter_In in Htag as [_ Hm].
    unfold Soup.a_href_contains in Hm. apply andb_true_iff in Hm as [_ Hm].
    unfold Soup.attr_or_empty.
    destruct (Soup.attr "href" tag) as [href|]; [|discriminate].
    exists href. by split.
  - intros tag href Hin Ha Hattr Hc.
    unfold abstract_links, Soup.select. apply in_map_iff. exists tag. split.
    + unfold Soup.attr_or_empty. by rewrite Hattr.
    + apply List.filter_In. split; [exact Hin|].
      unfold Soup.a_href_contains. by rewrite Ha, Hattr.
  - cbn. by rewrite <- app_assoc.
Qed.

Lemma get_paper_links_returns_the_abstract_anchors_witness :
  page_of Sample.good_world (now Sample.fresh) (year_url 2020) = Page Sample.listing /\
  fst (get_paper_links Sample.good_world 2020 Sample.fresh) =
    Ret [Sample.url_a; Sample.url_b].
Proof.
  split; [reflexivity|].
  destruct (get_paper_links_returns_the_abstract_anchors
              Sample.good_world 2020 Sample.fresh Sample.listing eq_refl)
    as (links & st' & Hg & _).
  rewrite Hg. cbn [fst]. vm_compute in Hg. by injection Hg as <- _.
Defined.

Lemma lstrip_head s :
  match Py.lstrip s with
  | EmptyString => True
  | String c _ => Py.is_space c = false
  end.
Proof.
  induction s as [|c s IH]; [exact I|]. cbn [Py.lstrip].
  destruct (Py.is_space c) eqn:E; [exact IH|exact E].
Qed.

Lemma rstrip_head s :
  match Py.rstrip s with
  | EmptyString => True
  | String c _ => exists s', s = String c s'
  end.
Proof.
  destruct s as [|c s]; [exact I|]. cbn [Py.rstrip].
  destruct (Py.rstrip s); [destruct (Py.is_space c)|]; eauto.
Qed.

Lemma rstrip_last s :
  match last_char (Py.rstrip s) with
  | Some c => Py.is_space c = false
  | None => True
  end.
Proof.
  induction s as [|c s IH]; [exact I|]. cbn [Py.rstrip].
  destruct (Py.rstrip s) as [|d r] eqn:E.
  - destruct (Py.is_space c) eqn:Ec; [exact I|exact Ec].
  - change (last_char (String c (String d r)))
      with (match last_char (String d r) with Some x => Some x | None => Some c end).
    destruct (last_char (String d r)) eqn:El; [exact IH|].
    cbn in El. by destruct (last_char r).
Qed.

Lemma strip_trimmed s : trimmed (Py.strip s).
Proof.
  unfold trimmed, Py.strip. split; [|apply rstrip_last].
  pose proof (rstrip_head (Py.lstrip s)) as Hr.
  pose proof (lstrip_head s) as Hl.
  destruct (Py.rstrip (Py.lstrip s)) as [|c r]; [exact I|].
  destruct Hr as [s' Hs']. by rewrite Hs' in Hl.
Qed.

Lemma lstrip_all_space s : all_space s = true -> Py.lstrip s = EmptyString.
Proof.
  induction s as [|c s IH]; [reflexivity|]. cbn.
  intros [Hc Hs]%andb_true_iff. rewrite Hc. by apply IH.
Qed.

(** X11. Whatever the page holds, the title [fetch_metadata] extracts and
    every author name in its list neither begin nor end with white space. *)
Theorem extracted_fields_are_trimmed soup :
  trimmed (extract_title soup) /\ Forall trimmed (extract_authors soup).
Proof.
  split.
  - unfold extract_title.
    destruct (Soup.select_one (Soup.name_is "h4") soup); [apply strip_trimmed|].
    split; reflexivity.
  - unfold extract_authors.
    destruct (Soup.select_h4_plus_p soup) as [|p rest]; [constructor|].
    apply List.Forall_forall. intros a Hin.
    apply in_map_iff in Hin as (tag & <- & _). apply strip_trimmed.
Qed.

(** X12. The title "No Title" stands for a missing heading only: a page that
    arrives with an [h4] heading holding nothing but white space gets the
    empty string as its title. *)
Theorem blank_heading_gives_empty_title w paper_url st soup h4 :
  page_of w (now st) paper_url = Page soup ->
  Soup.select_one (Soup.name_is "h4") soup = Some h4 ->
  all_space (Soup.text h4) = true ->
  exists md st',
    fetch_metadata w paper_url st = (Ret (Some md), st') /\
    title md = EmptyString.
Proof.
  intros Hpage Hh4 Hblank. rewrite fetch_metadata_eq, Hpage.
  eexists _, _. split; [reflexivity|]. cbn [title].
  unfold extract_title. rewrite Hh4. unfold Py.strip.
  by rewrite lstrip_all_space.
Qed.

Lemma blank_heading_gives_empty_title_witness :
  exists md st',
    fetch_metadata Sample.blank_world Sample.url_c Sample.fresh = (Ret (Some md), st') /\
    title md = EmptyString.
Proof.
  exact (blank_heading_gives_empty_title Sample.blank_world Sample.url_c Sample.fresh
           Sample.page_blank (Soup.Tag "h4" ∅ [Soup.Text "  "]) eq_refl eq_refl eq_refl).
Defined.

(** ** The sink file at the start of a batch *)

(** X13. On a valid range [start_scraping] never touches a sink file that
    is there (not even an empty one): no file changes.  When there is none
    it creates it holding the header alone; and when it cannot create it,
    it raises OSError before the window is touched and before any thread is
    started, with [is_scraping] and [total_papers] as they were. *)
Theorem start_scraping_creates_the_sink_once w s e st :
  1987 <= s /\ s <= e /\ e <= 2025 ->
  let r := start_scraping w s e st in
  match files st !! METADATA_FILE with
  | Some _ => fst r = Ret (Some (s, e)) /\ files (snd r) = files st
  | None =>
      if open_fails w METADATA_FILE
      then fst r = Raise OSError /\ files (snd r) = files st /\
           ui (snd r) = ui st /\ is_scraping (snd r) = is_scraping st /\
           total_papers (snd r) = total_papers st
      else fst r = Ret (Some (s, e)) /\
           files (snd r) = <[METADATA_FILE := Csv.header]> (files st)
  end.
Proof.
  intros Hrange.
  assert (Hv : range_invalid s e = false).
  { destruct (range_invalid s e) eqn:E; [|reflexivity].
    apply range_invalid_iff in E. contradiction. }
  cbv zeta. unfold start_scraping. rewrite bind_modify, Hv.
  unfold init_metadata_file. rewrite bind_assoc, bind_get.
  cbn [files set_downloaded_papers].
  destruct (files st !! METADATA_FILE) as [text|] eqn:Hm.
  - rewrite bool_decide_eq_true_2 by eauto. split; reflexivity.
  - rewrite bool_decide_eq_false_2 by (intros [? ?]; discriminate).
    destruct (open_fails w METADATA_FILE); repeat split; reflexivity.
Qed.

Lemma start_scraping_creates_the_sink_once_witness :
  1987 <= 2020 /\ 2020 <= 2021 /\ 2021 <= 2025 /\
  fst (start_scraping Sample.locked_world 2020 2021 Sample.fresh) = Raise OSError /\
  files (snd (start_scraping Sample.good_world 2020 2021 Sample.fresh)) =
    {[METADATA_FILE := Csv.header]}.
Proof.
  assert (Hr : 1987 <= 2020 /\ 2020 <= 2021 /\ 2021 <= 2025) by lia.
  pose proof (start_scraping_creates_the_sink_once Sample.locked_world 2020 2021
                Sample.fresh Hr) as H1.
  pose proof (start_scraping_creates_the_sink_once Sample.good_world 2020 2021
                Sample.fresh Hr) as H2.
  destruct Hr as (A & B & C).
  split; [exact A|]. split; [exact B|]. split; [exact C|].
  split; [exact (proj1 H1)|exact (proj2 H2)].
Defined.

(** ** The poll once the batch is over *)






(** ** The traces only grow *)

Lemma only_appended_refl a : only_appended a a.
Proof. repeat split; exists []; by rewrite app_nil_r. Qed.

Lemma only_appended_trans a b c :
  only_appended a b -> only_appended b c -> only_appended a c.
Proof.
  intros ([q1 Q1] & [l1 L1] & [s1 S1] & [u1 U1]) ([q2 Q2] & [l2 L2] & [s2 S2] & [u2 U2]).
  rewrite Q1 in Q2. rewrite L1 in L2. rewrite S1 in S2. rewrite U1 in U2.
  rewrite <- app_assoc in Q2, L2, S2, U2. repeat split; by eexists.
Qed.

Lemma only_appended_same_traces a b :
  log_queue b = log_queue a -> logging b = logging a ->
  sent b = sent a -> ui b = ui a -> only_appended a b.
Proof.
  intros Hq Hl Hs Hu. repeat split; exists []; by rewrite app_nil_r.
Qed.

Lemma only_appended_requested a u : only_appended a (requested u a).
Proof. repeat split; try (exists []; by rewrite app_nil_r). by eexists. Qed.

Lemma only_appended_logged a r : only_appended a (logged r a).
Proof. repeat split; try (exists []; by rewrite app_nil_r). by eexists. Qed.

Lemma only_appended_queued a l : only_appended a (queued l a).
Proof. repeat split; try (exists []; by rewrite app_nil_r). by eexists. Qed.

Lemma only_appended_shown a c : only_appended a (shown c a).
Proof. repeat split; try (exists []; by rewrite app_nil_r). by eexists. Qed.

Lemma only_appended_asset a href v :
  Py.endswith ".pdf" href = true ->
  only_appended a (set_files (<[pdf_path_of href := v]> (files a)) a).
Proof. intros _. by apply only_appended_same_traces. Qed.

Lemma only_appended_sink a v :
  only_appended a (set_files (<[METADATA_FILE := v]> (files a)) a).
Proof. by apply only_appended_same_traces. Qed.


Lemma only_appended_downloaded a v : only_appended a (set_downloaded_papers v a).
Proof. by apply only_appended_same_traces. Qed.


(** ** The papers of one year *)

Lemma submit_all_only_appended w paper_links st :
  only_appended st (snd (submit_all w paper_links st)).
Proof.
  apply (keeps_submit_all w only_appended);
    eauto using only_appended_refl, only_appended_trans, only_appended_requested,
      only_appended_logged, only_appended_queued, only_appended_shown,
      only_appended_downloaded, only_appended_asset, only_appended_sink.
Qed.

Lemma paper_unit_only_appended w paper_url st :
  only_appended st (snd (paper_unit w paper_url st)).
Proof.
  apply (keeps_paper_unit w only_appended);
    eauto using only_appended_refl, only_appended_trans, only_appended_requested,
      only_appended_logged, only_appended_queued, only_appended_shown,
      only_appended_downloaded, only_appended_asset, only_appended_sink.
Qed.

Lemma paper_unit_requests_its_page w paper_url st :
  (forall markup, html_parser w markup <> None) ->
  (exists fs, fst (paper_unit w paper_url st) = Ret fs) /\
  In paper_url (sent (snd (paper_unit w paper_url st))).
Proof.
  intros Hparser. unfold paper_unit, bind.
  rewrite fetch_metadata_eq.
  destruct (page_of w (now st) paper_url) as [| |soup] eqn:Hpage.
  - cbn. split; [by eexists|]. apply in_or_app. right. by left.
  - exfalso. unfold page_of in Hpage.
    destruct (net w (now st) paper_url) as [|r]; [discriminate|].
    destruct (breaks r); [discriminate|]. destruct (http_error r); [discriminate|].
    destruct (html_parser w (body r)) eqn:E; [discriminate|]. by apply Hparser in E.
  - unfold submit.
    match goal with |- context [download_pdf w paper_url ?md ?s] =>
      pose proof (keeps_download_pdf w only_appended only_appended_refl only_appended_trans
                    only_appended_requested only_appended_queued only_appended_shown
                    only_appended_downloaded only_appended_asset only_appended_sink
                    paper_url md s) as Hd;
      destruct (download_pdf w paper_url md s) as [r st2] end.
    cbn in *. split; [by eexists|].
    destruct Hd as (_ & _ & [new Hs] & _). rewrite Hs. cbn.
    apply in_or_app. left. apply in_or_app. right. by left.
Qed.

(** X16. As long as the parser takes every page, the loop over the papers
    of a year raises nothing itself, whatever the disk does and whatever the
    archive answers (what a download raised waits in its future); once every
    request has been answered or has failed the loop has ended, and the page
    of every paper link has been requested.  An io-error on one paper
    therefore costs the later years, not the later papers of its year. *)
Theorem every_paper_of_a_year_is_attempted w paper_links st :
  (forall markup, html_parser w markup <> None) ->
  (exists futures, fst (submit_all w paper_links st) = Ret futures) /\
  Forall (fun paper_url => In paper_url (sent (snd (submit_all w paper_links st))))
         paper_links.
Proof.
  intros Hparser. revert st.
  induction paper_links as [|u rest IH]; intros st.
  - split; [by eexists|constructor].
  - assert (Heq : submit_all w (u :: rest) st =
                  match paper_unit w u st with
                  | (Ret f, st1) =>
                      match submit_all w rest st1 with
                      | (Ret fs, st2) => (Ret (f ++ fs), st2)
                      | (Raise e, st2) => (Raise e, st2)
                      end
                  | (Raise e, st1) => (Raise e, st1)
                  end) by reflexivity.
    rewrite Heq. clear Heq.
    destruct (paper_unit_requests_its_page w u st Hparser) as [[f Hf] Hin].
    destruct (paper_unit w u st) as [[f'|e] st1]; cbn in Hf, Hin; [|discriminate].
    destruct (IH st1) as [[fs Hfs] Hall].
    pose proof (submit_all_only_appended w rest st1) as (_ & _ & [new Hs] & _).
    destruct (submit_all w rest st1) as [[fs'|e] st2]; cbn in Hfs, Hall, Hs; [|discriminate].
    cbn. split; [by eexists|]. constructor; [|exact Hall].
    rewrite Hs. apply in_or_app. by left.
Qed.

Lemma every_paper_of_a_year_is_attempted_witness :
  (forall markup, html_parser Sample.good_unparsed_world markup <> None) /\
  In Sample.url_b
     (sent (snd (submit_all
                   {| net := Sample.archive;
                      html_parser := html_parser Sample.good_unparsed_world;
                      open_fails := fun _ => true;
                      write_fails_at := fun _ => None |}
                   [Sample.url_a; Sample.url_b] Sample.fresh))).
Proof.
  assert (Hp : forall markup, html_parser Sample.good_unparsed_world markup <> None)
    by (intros markup; discriminate).
  split; [exact Hp|].
  pose proof (proj2 (every_paper_of_a_year_is_attempted
                {| net := Sample.archive;
                   html_parser := html_parser Sample.good_unparsed_world;
                   open_fails := fun _ => true;
                   write_fails_at := fun _ => None |}
                [Sample.url_a; Sample.url_b] Sample.fresh Hp)) as Hall.
  rewrite List.Forall_forall in Hall. apply Hall. right. by left.
Defined.

(** ** Workers racing on an empty sink *)

Lemma entries_text_app a b :
  entries_text (a ++ b) = entries_text a +:+ entries_text b.
Proof. unfold entries_text. by rewrite map_app, concat_str_app. Qed.

Lemma entry_text_not_empty entry : entry_text entry <> EmptyString.
Proof.
  unfold entry_text. intros H. apply (f_equal String.length) in H.
  rewrite append_length in H. pose proof (format_row_length (snd entry)). cbn in H. lia.
Qed.

Lemma append_not_empty_r (s t : string) : t <> EmptyString -> s +:+ t <> EmptyString.
Proof.
  intros Ht H. apply (f_equal String.length) in H. rewrite append_length in H.
  destruct t; [congruence|]. cbn in H. lia.
Qed.

Lemma may_hold_grows file file' wk :
  (file <> EmptyString -> file' <> EmptyString) ->
  may_hold file wk -> may_hold file' wk.
Proof.
  intros Hgrow. unfold may_hold.
  destruct (Workers.at_pc wk); intuition.
Qed.

Lemma race_invariant_start rows :
  race_invariant rows (EmptyString, Workers.start rows).
Proof.
  unfold race_invariant. cbn [fst snd]. split; [|split].
  - unfold Workers.start. rewrite map_map. cbn. apply map_id.
  - unfold Workers.start. apply List.Forall_forall. intros wk Hin.
    apply in_map_iff in Hin as (row & <- & _). exact I.
  - exists []. split; [|split; [reflexivity|exact I]].
    unfold Workers.finished_rows, Workers.start.
    induction rows as [|r rows IH]; [reflexivity|exact IH].
Qed.

Lemma race_invariant_step rows c c' :
  race_invariant rows c -> Workers.step c c' -> race_invariant rows c'.
Proof.
  intros (Hrows & Hhold & entries & Hperm & Hfile & Hfirst) Hstep.
  destruct Hstep as [i file ws wk file' pc' Hi Hexec].
  unfold race_invariant. cbn [fst snd] in *.
  assert (Hwk : may_hold file wk).
  { rewrite List.Forall_forall in Hhold. apply Hhold.
    eapply list_elem_of_In, list_elem_of_lookup_2. exact Hi. }
  split; [rewrite <- Hrows; by apply (map_insert_same_image _ _ _ _ wk)|].
  unfold Workers.exec in Hexec. unfold Workers.finished_rows.
  destruct (Workers.at_pc wk) as [|pos|buf|buf|] eqn:Hpc; try discriminate;
    injection Hexec as <- <-.
  - (* open *)
    split.
    + apply Forall_insert; [exact Hhold|]. unfold may_hold. cbn.
      intros Hpos Hempty. apply Hpos. by rewrite Hempty.
    + exists entries. split; [|by split].
      rewrite (filter_insert_same ws i wk) by
        (first [exact Hi | unfold Workers.is_finished; cbn; by rewrite ?Hpc]).
      exact Hperm.
  - (* tell *)
    split.
    + apply Forall_insert; [exact Hhold|]. unfold may_hold in *. cbn. rewrite Hpc in Hwk.
      destruct pos as [|pos]; [by left|]. right. split; [reflexivity|]. by apply Hwk.
    + exists entries. split; [|by split].
      rewrite (filter_insert_same ws i wk) by
        (first [exact Hi | unfold Workers.is_finished; cbn; by rewrite ?Hpc]).
      exact Hperm.
  - (* write the row *)
    split.
    + apply Forall_insert; [exact Hhold|]. unfold may_hold in *. cbn. rewrite Hpc in Hwk.
      destruct Hwk as [->|[-> Hne]]; [by left|]. right. by split.
    + exists entries. split; [|by split].
      rewrite (filter_insert_same ws i wk) by
        (first [exact Hi | unfold Workers.is_finished; cbn; by rewrite ?Hpc]).
      exact Hperm.
  - (* close *)
    unfold may_hold in Hwk. rewrite Hpc in Hwk.
    assert (Hbuf : exists h, buf = entry_text (h, Workers.metadata_row wk) /\
                             (h = false -> file <> EmptyString)).
    { destruct Hwk as [->|[-> Hne]]; [exists true|exists false]; split; try done. }
    destruct Hbuf as (h & -> & Hh).
    split.
    + apply Forall_insert; [|exact I].
      eapply List.Forall_impl; [|exact Hhold].
      intros wk0. apply may_hold_grows. intros _. apply append_not_empty_r, entry_text_not_empty.
    + exists (entries ++ [(h, Workers.metadata_row wk)]). split; [|split].
      * rewrite (filter_insert_finishing ws i wk) by
          (first [exact Hi | unfold Workers.is_finished; cbn; by rewrite ?Hpc]).
        rewrite map_app. cbn [map snd Workers.metadata_row].
        rewrite <- Permutation_cons_append. by apply perm_skip.
      * rewrite entries_text_app, Hfile. f_equal.
        unfold entries_text. cbn. by rewrite append_nil_r.
      * destruct entries as [|first rest]; [|exact Hfirst].
        cbn. destruct h; [reflexivity|]. exfalso. apply Hh; [reflexivity|exact Hfile].
Qed.

Lemma race_invariant_reach rows c :
  rtc Workers.step (EmptyString, Workers.start rows) c -> race_invariant rows c.
Proof.
  revert c.
  apply (rtc_ind_r (R:=Workers.step) (race_invariant rows)); [apply race_invariant_start|].
  intros y z _ Hyz IH. by apply (race_invariant_step rows y z).
Qed.

Lemma line_count_entries entries :
  forallb Workers.valid_row (map snd entries) = true ->
  Csv.line_count (entries_text entries) = (length entries + headers entries)%nat.
Proof.
  induction entries as [|[h row] entries IH]; [reflexivity|].
  cbn [map snd forallb]. intros [Hrow Hrest]%andb_true_iff.
  change (entries_text ((h, row) :: entries))
    with (entry_text (h, row) +:+ entries_text entries).
  rewrite line_count_append, IH by exact Hrest.
  unfold entry_text. cbn [fst snd]. rewrite line_count_append, line_count_format_row by exact Hrow.
  unfold headers. cbn [List.filter fst].
  destruct h; cbn [length]; [|cbn; lia].
  change (Csv.line_count Csv.header) with 1%nat. lia.
Qed.

Lemma headers_bounds entries :
  (headers entries <= length entries)%nat /\
  (match entries with [] => True | first :: _ => fst first = true end ->
   entries <> [] -> 1 <= headers entries)%nat.
Proof.
  unfold headers. split; [apply List.filter_length_le|].
  destruct entries as [|[h row] rest]; [congruence|].
  cbn. intros -> _. cbn. lia.
Qed.

(** X17. N workers appending N rows to a sink that is empty when they
    start, in any interleaving (each worker's buffered text reaching the
    file as one append when it leaves the block): the file ends as the N
    rows in the order the workers closed it, each row whole and some of them
    preceded by a header; the first is always preceded by one.  With valid
    rows the file has between N+1 and 2N lines. *)
Theorem racing_workers_write_whole_rows_and_headers rows c :
  rtc Workers.step (EmptyString, Workers.start rows) c ->
  Workers.all_finished c ->
  exists entries,
    map snd entries ≡ₚ rows /\
    fst c = entries_text entries /\
    match entries with [] => True | first :: _ => fst first = true end /\
    (forallb Workers.valid_row rows = true -> rows <> [] ->
       (length rows + 1 <= Csv.line_count (fst c) <= 2 * length rows)%nat).
Proof.
  intros Hsteps Hfin.
  destruct (race_invariant_reach rows c Hsteps) as (Hrows & _ & entries & Hperm & Hfile & Hfirst).
  unfold Workers.finished_rows in Hperm.
  rewrite (filter_all_finished _ Hfin), Hrows in Hperm.
  exists entries. split; [exact Hperm|]. split; [exact Hfile|]. split; [exact Hfirst|].
  intros Hvalid Hne.
  assert (Hlen : length entries = length rows).
  { rewrite <- (Permutation_length Hperm). by rewrite length_map. }
  rewrite Hfile, line_count_entries
    by (by rewrite (forallb_permutation _ _ _ Hperm)).
  destruct (headers_bounds entries) as [Hle Hge].
  assert (entries <> []) by (intros ->; destruct rows; [congruence|discriminate Hlen]).
  specialize (Hge Hfirst ltac:(assumption)). lia.
Qed.

Lemma racing_workers_write_whole_rows_and_headers_witness :
  exists entries,
    map snd entries ≡ₚ [SampleRows.row1; SampleRows.row2] /\
    fst (Workers.run SampleRows.racing
           (EmptyString, Workers.start [SampleRows.row1; SampleRows.row2]))
      = entries_text entries.
Proof.
  destruct (racing_workers_write_whole_rows_and_headers
              [SampleRows.row1; SampleRows.row2]
              (Workers.run SampleRows.racing
                 (EmptyString, Workers.start [SampleRows.row1; SampleRows.row2]))
              (run_reaches _ _) eq_refl)
    as (entries & Hperm & Hfile & _).
  exists entries. split; [exact Hperm|exact Hfile].
Defined.

(** ** The pool: one run in full, and two batches from scratch *)

(** X2. Among the runs of the scraping thread and its pool there is the
    one in which every call is run to its end as it is submitted.  In any
    world and from any state, that run ends with the result and the state
    of [scrape_papers] as embedded above, and at its end the sink is what it
    was followed by the rows of the papers stored (after one header if it
    was empty and a row came), [downloaded_papers] has gone up by the number
    of those rows, and that number is at most what [total_papers] has gone
    up by.  (In other runs workers may both find the sink empty, or both
    read the counter before either stores it.) *)
Theorem serialized_run_rows_match_counters w s e st :
  exists c,
    rtc Pool.step (Pool.started w s e st) c /\
    Pool.scraper c = Pool.Done (fst (scrape_papers w s e st)) /\
    Pool.shared c = snd (scrape_papers w s e st) /\
    exists rows,
      sink (Pool.shared c)
        = sink st +:+ header_for (sink st) rows +:+ Workers.rows_text rows /\
      downloaded_papers (Pool.shared c) = downloaded_papers st + Z.of_nat (length rows) /\
      Z.of_nat (length rows) <= total_papers (Pool.shared c) - total_papers st.
Proof.
  destruct (serial_run w s e st) as (c & Hrun & _ & Hshared & Hdone).
  exists c. split; [exact Hrun|]. split; [exact Hdone|]. split; [exact Hshared|].
  rewrite Hshared.
  destruct (scrape_papers_within w s e st) as (rows & [Hs Hd] & Hl).
  exists rows. auto.
Qed.

(** X18. Two batches over the same valid range from scratch: no sink file
    at first, and an archive that answers the same way both times; whatever
    the order in which the statements of the threads follow each other.
    Both batches can run to the end.  When the first has ended the sink is
    the header followed by the rows of the papers stored, one row for each
    poll the workers scheduled; when the second has ended (started from any
    state whose sink is the one the first left) the sink is that text
    followed by the same rows once more, in an order that may differ, and
    by no second header. *)
Theorem two_runs_from_scratch w s e st :
  stationary w ->
  range_invalid s e = false ->
  files st !! METADATA_FILE = None ->
  open_fails w METADATA_FILE = false ->
  (exists c1, Pool.batch_ends w s e st c1) /\
  forall c1, Pool.batch_ends w s e st c1 ->
    exists first,
      sink (Pool.shared c1) = Csv.header +:+ Workers.rows_text first /\
      Pool.polls (Pool.shared c1) = (Pool.polls st + length first)%nat /\
      forall st1, sink st1 = sink (Pool.shared c1) ->
        (exists c2, Pool.batch_ends w s e st1 c2) /\
        forall c2, Pool.batch_ends w s e st1 c2 ->
          exists second,
            second ≡ₚ first /\
            sink (Pool.shared c2)
              = Csv.header +:+ Workers.rows_text first +:+ Workers.rows_text second /\
            Pool.polls (Pool.shared c2) = (Pool.polls st1 + length second)%nat.
Proof.
  intros Hstat Hv Hnone Hopen.
  split; [apply batch_can_end; [exact Hv|by right]|].
  intros c1 (s1 & e1 & st0 & Hs0 & Hrun1 & Hend1).
  destruct (start_scraping_thread _ _ _ _ _ _ _ Hs0) as (-> & -> & Hp0 & Hk0).
  rewrite Hnone in Hk0.
  assert (Hne0 : sink st0 <> EmptyString) by (by rewrite Hk0).
  destruct (runs_add_the_rows_again w _ _ st0 c1 Hstat Hne0 Hrun1 Hend1)
    as (first & Hsink1 & Hpolls1 & Hsecond).
  rewrite Hk0 in Hsink1. rewrite Hp0 in Hpolls1.
  exists first. split; [exact Hsink1|]. split; [exact Hpolls1|].
  intros st1 Hst1.
  assert (Hne1 : sink st1 <> EmptyString) by (by rewrite Hst1, Hsink1).
  split; [apply batch_can_end; [exact Hv|left; by apply sink_is_some]|].
  intros c2 (s2 & e2 & st2 & Hs2 & Hrun2 & Hend2).
  destruct (start_scraping_thread _ _ _ _ _ _ _ Hs2) as (-> & -> & Hp2 & Hk2).
  destruct (sink_is_some st1 Hne1) as [text1 Htext1].
  rewrite Htext1 in Hk2.
  assert (Hk2' : sink st2 = sink st1).
  { rewrite Hk2. unfold sink, file_content. by rewrite Htext1. }
  assert (Hne2 : sink st2 <> EmptyString) by (by rewrite Hk2').
  destruct (Hsecond st2 c2 Hne2 Hrun2 Hend2) as (second & Hperm & Hsink2 & Hpolls2).
  rewrite Hk2', Hst1, Hsink1 in Hsink2. rewrite Hp2 in Hpolls2.
  exists second. split; [exact Hperm|].
  split; [by rewrite Hsink2, append_assoc|]. exact Hpolls2.
Qed.

Lemma two_runs_from_scratch_witness :
  stationary Sample.good_world /\
  range_invalid 2020 2020 = false /\
  files Sample.fresh !! METADATA_FILE = None /\
  open_fails Sample.good_world METADATA_FILE = false /\
  exists c1 first,
    Pool.batch_ends Sample.good_world 2020 2020 Sample.fresh c1 /\
    sink (Pool.shared c1) = Csv.header +:+ Workers.rows_text first /\
    length first = 1%nat.
Proof.
  assert (Hs : stationary Sample.good_world) by (intros t u; reflexivity).
  split; [exact Hs|]. split; [reflexivity|]. split; [reflexivity|].
  split; [reflexivity|].
  set (st0 := snd (start_scraping Sample.good_world 2020 2020 Sample.fresh)).
  assert (Hs0 : start_scraping Sample.good_world 2020 2020 Sample.fresh
                = (Ret (Some (2020, 2020)), st0)) by (vm_compute; reflexivity).
  destruct (serial_run Sample.good_world 2020 2020 st0) as (c1 & Hrun & Hend & Hshared & _).
  assert (Hc1 : Pool.batch_ends Sample.good_world 2020 2020 Sample.fresh c1).
  { exists 2020, 2020, st0. auto. }
  destruct (proj2 (two_runs_from_scratch Sample.good_world 2020 2020 Sample.fresh
                     Hs eq_refl eq_refl eq_refl) c1 Hc1) as (first & Hsink & Hpolls & _).
  exists c1, first. split; [exact Hc1|]. split; [exact Hsink|].
  assert (Hafter : Pool.polls (snd (scrape_papers Sample.good_world 2020 2020 st0)) = 1%nat)
    by (vm_compute; reflexivity).
  assert (Hbefore : Pool.polls Sample.fresh = 0%nat) by reflexivity.
  rewrite Hshared, Hafter, Hbefore in Hpolls. lia.
Defined.

(** ** The pool on a healthy disk and parser *)

Lemma ends_in_mono {A} (Q Q' : outcome A -> Prop) (p : Pool.thread A) :
  (forall o, Q o -> Q' o) -> Pool.ends_in Q p -> Pool.ends_in Q' p.
Proof.
  intros HQ. induction p as [a|e|X m k IH]; cbn; [by auto|by auto|].
  intros Hp st. destruct (Hp st) as [Hs Hk]. split; [exact Hs|]. by apply IH.
Qed.

Lemma ends_in_finish {A} (Q : outcome A -> Prop) o : Q o -> Pool.ends_in Q (Pool.finish o).
Proof. by destruct o. Qed.

Lemma ends_in_lift {X} (Q : outcome X -> Prop) (m : M X) :
  (forall st, is_scraping (snd (m st)) = is_scraping st /\ Q (fst (m st))) ->
  Pool.ends_in Q (Pool.lift m).
Proof.
  intros H st. destruct (H st) as [Hs Hq]. split; [exact Hs|]. by apply ends_in_finish.
Qed.

(** [p] and then [f]: [f] on what [p] returns ends in [Q], and so does what
    [p] raises. *)
Lemma ends_in_tbind {A B} (Q : outcome B -> Prop) (p : Pool.thread A)
    (f : A -> Pool.thread B) :
  Pool.ends_in (fun o => match o with
                         | Ret a => Pool.ends_in Q (f a)
                         | Raise e => Q (Raise e)
                         end) p ->
  Pool.ends_in Q (Pool.tbind p f).
Proof.
  induction p as [a|e|X m k IH]; cbn; [done|done|].
  intros Hp st. destruct (Hp st) as [Hs Hk]. split; [exact Hs|]. by apply IH.
Qed.

Lemma ends_in_try_except {A} (Q : outcome A -> Prop) (p h : Pool.thread A) :
  Pool.ends_in (fun o => match o with
                         | Raise RequestException => Pool.ends_in Q h
                         | _ => Q o
                         end) p ->
  Pool.ends_in Q (Pool.try_except p h).
Proof.
  induction p as [a|e|X m k IH]; cbn.
  - done.
  - by destruct e.
  - intros Hp st. destruct (Hp st) as [Hs Hk]. split; [exact Hs|]. by apply IH.
Qed.

(** A statement that may fail on the network only, and what follows it. *)
Lemma request_step {X B} (m : M X) (f : X -> Pool.thread B) :
  (forall st, is_scraping (snd (m st)) = is_scraping st) ->
  request_error_only m ->
  (forall x, Pool.ends_in Pool.returned_or_request_error (f x)) ->
  Pool.ends_in Pool.returned_or_request_error (Pool.tbind (Pool.lift m) f).
Proof.
  intros Hs Hm Hf. apply ends_in_tbind, ends_in_lift. intros st.
  split; [apply Hs|]. destruct (Hm st) as [[x ->]| ->]; [apply Hf|by right].
Qed.

Lemma returned_step {X B} (Q : outcome B -> Prop) (m : M X) (f : X -> Pool.thread B) :
  (forall st, is_scraping (snd (m st)) = is_scraping st) ->
  returns m ->
  (forall x, Pool.ends_in Q (f x)) ->
  Pool.ends_in Q (Pool.tbind (Pool.lift m) f).
Proof.
  intros Hs Hm Hf. apply ends_in_tbind, ends_in_lift. intros st.
  split; [apply Hs|]. destruct (Hm st) as [x ->]. apply Hf.
Qed.

Lemma returned_last {X} (m : M X) :
  (forall st, is_scraping (snd (m st)) = is_scraping st) ->
  returns m ->
  Pool.ends_in Pool.returned (Pool.lift m).
Proof.
  intros Hs Hm. apply ends_in_lift. intros st. split; [apply Hs|]. apply Hm.
Qed.

Lemma returned_weaken {A} (p : Pool.thread A) :
  Pool.ends_in Pool.returned p -> Pool.ends_in Pool.returned_or_request_error p.
Proof. apply ends_in_mono. intros o Ho. by left. Qed.

(** A [try] block whose body may fail on the network only. *)
Lemma returned_try_except {A} (p h : Pool.thread A) :
  Pool.ends_in Pool.returned_or_request_error p ->
  Pool.ends_in Pool.returned h ->
  Pool.ends_in Pool.returned (Pool.try_except p h).
Proof.
  intros Hp Hh. apply ends_in_try_except.
  eapply ends_in_mono; [|exact Hp].
  intros [a|e] [[a' Ha]|He]; try discriminate.
  - by exists a.
  - by injection He as ->.
Qed.

Lemma keeps_flag_requests_get w url st :
  is_scraping (snd (requests_get w url st)) = is_scraping st.
Proof.
  unfold requests_get. destruct (net w (length (sent st)) url) as [|r]; [done|].
  by destruct (breaks r).
Qed.

Lemma keeps_flag_requests_get_stream w url st :
  is_scraping (snd (requests_get_stream w url st)) = is_scraping st.
Proof. unfold requests_get_stream. by destruct (net w (length (sent st)) url). Qed.

Lemma keeps_flag_raise_for_status r st :
  is_scraping (snd (raise_for_status r st)) = is_scraping st.
Proof. unfold raise_for_status. by destruct (_ && _). Qed.

Lemma keeps_flag_BeautifulSoup w markup st :
  is_scraping (snd (BeautifulSoup w markup st)) = is_scraping st.
Proof. unfold BeautifulSoup. by destruct (html_parser w markup). Qed.

Section HealthyPool.

Variable w : world.
Hypothesis Hw : healthy w.

Lemma write_chunks_task_ends path cut chunks : forall i,
  Pool.ends_in Pool.returned_or_request_error (Pool.write_chunks_task w path cut i chunks).
Proof.
  induction chunks as [|c rest IH]; intros i; cbn [Pool.write_chunks_task].
  - left. by exists tt.
  - destruct (match cut with Some k => (k <=? i)%nat | None => false end); [by right|].
    apply request_step; [| |intros _; apply IH].
    + intros st. unfold Pool.write_chunk. destruct Hw as (_ & Hwr & _). by rewrite Hwr.
    + apply request_error_only_returns. intros st. unfold Pool.write_chunk.
      destruct Hw as (_ & Hwr & _). rewrite Hwr. by exists tt.
Qed.

Lemma save_stream_task_ends path r :
  Pool.ends_in Pool.returned_or_request_error (Pool.save_stream_task w path r).
Proof.
  unfold Pool.save_stream_task.
  apply request_step; [| |intros _; apply write_chunks_task_ends].
  - intros st. unfold Pool.open_wb. destruct Hw as (Ho & _ & _). by rewrite Ho.
  - apply request_error_only_returns. intros st. unfold Pool.open_wb.
    destruct Hw as (Ho & _ & _). rewrite Ho. by exists tt.
Qed.

Lemma append_row_task_ends row :
  Pool.ends_in Pool.returned (Pool.append_row_task w row).
Proof.
  unfold Pool.append_row_task.
  apply returned_step; [| |intros pos].
  - intros st. unfold Pool.open_append. destruct Hw as (Ho & _ & _). by rewrite Ho.
  - intros st. unfold Pool.open_append. destruct Hw as (Ho & _ & _). rewrite Ho.
    by eexists.
  - apply returned_step; [done|apply returns_ret|intros buffer].
    apply returned_step; [done|apply returns_ret|intros buffer'].
    apply returned_last; [done|apply returns_modify].
Qed.

Lemma download_task_ends paper_url md :
  Pool.ends_in Pool.returned (Pool.download_task w paper_url md).
Proof.
  unfold Pool.download_task.
  apply returned_try_except; [|apply returned_last; [done|apply returns_modify]].
  apply request_step;
    [apply keeps_flag_requests_get|apply only_requests_get|intros response].
  apply request_step;
    [apply keeps_flag_raise_for_status|apply only_raise_for_status|intros _].
  apply request_step;
    [apply keeps_flag_BeautifulSoup
    |by apply request_error_only_returns, returns_BeautifulSoup|intros soup].
  destruct (Soup.select_one (Soup.a_href_endswith ".pdf") soup) as [pdf_link|].
  2: { apply returned_weaken, returned_last; [done|apply returns_modify]. }
  apply request_step; [done|apply request_error_only_returns, returns_modify|intros _].
  apply request_step;
    [apply keeps_flag_requests_get_stream|apply only_requests_get_stream
    |intros pdf_response].
  apply ends_in_tbind.
  eapply ends_in_mono; [|apply save_stream_task_ends].
  intros [[]|e] [[u Hu]|He]; try discriminate; [|by right].
  apply returned_weaken.
  apply returned_step; [done|apply returns_modify|intros _].
  apply ends_in_tbind.
  eapply ends_in_mono; [|apply append_row_task_ends].
  intros [[]|e] [v Hv]; [|discriminate].
  apply ends_in_tbind. unfold Pool.count_task.
  apply returned_step; [done|apply returns_get|intros count].
  apply ends_in_lift. intros st. split; [done|].
  apply returned_step; [done|apply returns_get|intros done].
  apply returned_step; [done|apply returns_get|intros total].
  apply returned_step; [done|apply returns_modify|intros _].
  apply returned_last; [done|apply returns_modify].
Qed.

Lemma get_paper_links_task_ends year :
  Pool.ends_in Pool.returned (Pool.get_paper_links_task w year).
Proof.
  unfold Pool.get_paper_links_task.
  apply returned_step; [done|apply returns_modify|intros _].
  apply returned_try_except.
  - apply request_step;
      [apply keeps_flag_requests_get|apply only_requests_get|intros response].
    apply request_step;
      [apply keeps_flag_raise_for_status|apply only_raise_for_status|intros _].
    apply request_step;
      [apply keeps_flag_BeautifulSoup
      |by apply request_error_only_returns, returns_BeautifulSoup|intros soup].
    apply request_step; [done|apply request_error_only_returns, returns_modify|intros _].
    left. by eexists.
  - apply returned_step; [done|apply returns_modify|intros _]. by eexists.
Qed.

Lemma fetch_metadata_task_ends paper_url :
  Pool.ends_in Pool.returned (Pool.fetch_metadata_task w paper_url).
Proof.
  unfold Pool.fetch_metadata_task.
  apply returned_try_except.
  - apply request_step;
      [apply keeps_flag_requests_get|apply only_requests_get|intros response].
    apply request_step;
      [apply keeps_flag_raise_for_status|apply only_raise_for_status|intros _].
    apply request_step;
      [apply keeps_flag_BeautifulSoup
      |by apply request_error_only_returns, returns_BeautifulSoup|intros soup].
    left. by eexists.
  - apply returned_step; [done|apply returns_modify|intros _]. by eexists.
Qed.

End HealthyPool.

Lemma ends_idle_in_main {X} (Q : outcome X -> Prop) (p : Pool.thread X) k flag :
  Pool.ends_in Q p ->
  (forall o, Q o -> Pool.ends_idle (k o) flag) ->
  Pool.ends_idle (Pool.in_main p k) flag.
Proof.
  induction p as [a|e|Y m k' IH]; cbn [Pool.ends_in Pool.in_main]; intros Hp Hk.
  - by apply Hk.
  - by apply Hk.
  - cbn [Pool.ends_idle]. intros st Hst. destruct (Hp st) as [Hs Hq].
    rewrite Hs, Hst. by apply IH.
Qed.

Section HealthyMain.

Variable w : world.
Hypothesis Hw : healthy w.

Lemma submit_loop_ends_idle after flag :
  Pool.ends_idle after flag ->
  forall paper_links, Pool.ends_idle (Pool.submit_loop w paper_links after) flag.
Proof.
  intros Hafter. induction paper_links as [|paper_url rest IH]; cbn [Pool.submit_loop].
  - cbn [Pool.ends_idle]. intros done Hdone st Hst.
    rewrite (results_when_all_done _ _ Hdone). cbn [fst snd]. by rewrite Hst.
  - eapply ends_idle_in_main; [apply (fetch_metadata_task_ends w Hw)|].
    intros o [[md|] ->]; [|exact IH].
    cbn [Pool.ends_idle]. split; [apply (download_task_ends w Hw)|exact IH].
Qed.

Lemma scrape_year_thread_ends_idle year after flag :
  Pool.ends_idle after flag ->
  Pool.ends_idle (Pool.scrape_year_thread w year after) flag.
Proof.
  intros Hafter. unfold Pool.scrape_year_thread.
  eapply ends_idle_in_main; [apply (get_paper_links_task_ends w Hw)|].
  intros o [paper_links ->]. cbn [Pool.ends_idle]. intros st Hst.
  cbn [get fst snd]. intros st1 Hst1. cbn [modify fst snd].
  change (is_scraping (set_total_papers _ st1)) with (is_scraping st1).
  rewrite Hst1, Hst. by apply submit_loop_ends_idle.
Qed.

Lemma scrape_years_thread_ends_idle years : forall flag,
  Pool.ends_idle (Pool.scrape_years_thread w years) flag.
Proof.
  induction years as [|year rest IH]; intros flag; cbn [Pool.scrape_years_thread].
  - cbn. intros st _ st1 Hst1. by split.
  - by apply scrape_year_thread_ends_idle.
Qed.

End HealthyMain.

Lemma idle_invariant_step c c' :
  Pool.idle_invariant c -> Pool.step c c' -> Pool.idle_invariant c'.
Proof.
  intros (Hmain & Hpool & Hdone) Hstep.
  destruct Hstep as [X m k c Hs|task k c Hs|k c Hs Hfin|i p c Hi Hfirst Hroom
                    |i X m k c Hi|i a c Hi|i e c Hi|line rest c Hpoll Hq];
    unfold Pool.idle_invariant;
    cbn [Pool.shared Pool.scraper Pool.pool Pool.completed].
  - rewrite Hs in Hmain. cbn [Pool.ends_idle] in Hmain.
    split; [by apply Hmain|]. by split.
  - rewrite Hs in Hmain. destruct Hmain as [Htask Hk].
    split; [exact Hk|]. split; [|exact Hdone].
    apply Forall_app. split; [exact Hpool|by constructor].
  - rewrite Hs in Hmain. cbn [Pool.ends_idle] in Hmain.
    split; [by apply Hmain|]. split; constructor.
  - split; [exact Hmain|]. split; [|exact Hdone].
    apply Forall_insert; [exact Hpool|].
    exact (proj1 (Forall_lookup _ _) Hpool i _ Hi).
  - pose proof (proj1 (Forall_lookup _ _) Hpool i _ Hi) as Hcall.
    cbn [Pool.call_returns Pool.ends_in] in Hcall.
    destruct (Hcall (Pool.shared c)) as [Hflag Hk].
    rewrite Hflag. split; [exact Hmain|]. split; [|exact Hdone].
    by apply Forall_insert.
  - split; [exact Hmain|]. destruct a. split.
    + by apply Forall_insert.
    + apply Forall_app. split; [exact Hdone|by constructor].
  - pose proof (proj1 (Forall_lookup _ _) Hpool i _ Hi) as Hcall.
    destruct Hcall as [a Ha]. discriminate Ha.
  - split; [exact Hmain|]. by split.
Qed.

Lemma idle_invariant_run c c' :
  Pool.idle_invariant c -> rtc Pool.step c c' -> Pool.idle_invariant c'.
Proof.
  intros Hinv Hrun. induction Hrun as [|c c1 c2 Hstep _ IH]; [exact Hinv|].
  apply IH. by eapply idle_invariant_step.
Qed.

(** X9. On a disk that takes every open and write and with a parser that
    takes every page, whatever the archive answers and whatever the order
    in which the statements of the scraping thread, of the workers and of
    the poll follow each other: a batch over a valid year range can run to
    its end, and every run that reaches the end of [scrape_papers] has
    done so by returning (no worker raised, nothing was raised again by
    [future.result()]) with [is_scraping] cleared.  Nothing is said of a
    request that never comes back: [requests.get] is called without a
    timeout, and such a run does not end. *)
Theorem batch_on_healthy_disk_ends_idle w s e st :
  healthy w ->
  1987 <= s /\ s <= e /\ e <= 2025 ->
  (exists c, Pool.batch_ends w s e st c) /\
  forall c, Pool.batch_ends w s e st c ->
    Pool.scraper c = Pool.Done (Ret tt) /\ is_scraping (Pool.shared c) = false.
Proof.
  intros Hw Hrange.
  assert (Hv : range_invalid s e = false).
  { destruct (range_invalid s e) eqn:E; [|reflexivity].
    apply range_invalid_iff in E. contradiction. }
  split; [apply batch_can_end; [exact Hv|right; apply Hw]|].
  intros c (a & b & st0 & Hs0 & Hrun & [r Hend]).
  assert (Hinit : Pool.idle_invariant (Pool.started w a b st0)).
  { split; [apply (scrape_years_thread_ends_idle w Hw)|]. split; constructor. }
  destruct (idle_invariant_run _ _ Hinit Hrun) as (Hmain & _ & _).
  rewrite Hend in Hmain. destruct Hmain as [-> Hflag]. by split.
Qed.

Lemma batch_on_healthy_disk_ends_idle_witness :
  healthy Sample.good_unparsed_world /\
  (1987 <= 2020 /\ 2020 <= 2021 /\ 2021 <= 2025) /\
  exists c,
    Pool.batch_ends Sample.good_unparsed_world 2020 2021 Sample.fresh c /\
    is_scraping (Pool.shared c) = false.
Proof.
  assert (Hh : healthy Sample.good_unparsed_world).
  { split; [reflexivity|]. split; [reflexivity|]. intros markup. discriminate. }
  assert (Hr : 1987 <= 2020 /\ 2020 <= 2021 /\ 2021 <= 2025) by lia.
  split; [exact Hh|]. split; [exact Hr|].
  destruct (batch_on_healthy_disk_ends_idle Sample.good_unparsed_world 2020 2021
              Sample.fresh Hh Hr) as [[c Hc] Hall].
  exists c. split; [exact Hc|]. apply (Hall c Hc).
Defined.

(** ** The pool: what every statement keeps *)

Lemma every_statement_finish {A} R (o : outcome A) :
  Pool.every_statement R (Pool.finish o).
Proof. by destruct o. Qed.

Lemma every_statement_lift {X} R (m : M X) :
  keeps R m -> Pool.every_statement R (Pool.lift m).
Proof. intros H st. split; [apply H|apply every_statement_finish]. Qed.

Lemma every_statement_tbind {A B} R (p : Pool.thread A) (f : A -> Pool.thread B) :
  Pool.every_statement R p -> (forall a, Pool.every_statement R (f a)) ->
  Pool.every_statement R (Pool.tbind p f).
Proof.
  intros Hp Hf. induction p as [a|e|X m k IH]; cbn; [by auto|done|].
  intros st. destruct (Hp st) as [Hs Hk]. split; [exact Hs|]. by apply IH.
Qed.

Lemma every_statement_try_except {A} R (p h : Pool.thread A) :
  Pool.every_statement R p -> Pool.every_statement R h ->
  Pool.every_statement R (Pool.try_except p h).
Proof.
  intros Hp Hh. induction p as [a|e|X m k IH]; cbn; [done|by destruct e|].
  intros st. destruct (Hp st) as [Hs Hk]. split; [exact Hs|]. by apply IH.
Qed.


Ltac statement_step :=
  apply every_statement_tbind; [apply every_statement_lift|intros ?].

Section EveryStatement.

Variable w : world.
Variable R : state -> state -> Prop.

Hypothesis R_refl : forall st, R st st.
Hypothesis R_sent : forall st url, R st (requested url st).
Hypothesis R_logging : forall st r, R st (logged r st).

Lemma statement_requests_get url : keeps R (requests_get w url).
Proof.
  intros st. unfold requests_get.
  destruct (net w (length (sent st)) url) as [|r]; [apply R_sent|].
  destruct (breaks r); apply R_sent.
Qed.


Lemma statement_raise_for_status r : keeps R (raise_for_status r).
Proof. by apply keeps_raise_for_status. Qed.

Lemma statement_BeautifulSoup markup : keeps R (BeautifulSoup w markup).
Proof. by apply keeps_BeautifulSoup. Qed.

Lemma statement_logging_record r : keeps R (logging_record r).
Proof. intros st. apply R_logging. Qed.


Lemma statement_ret {A} (a : A) : keeps R (ret a).
Proof. intros st. apply R_refl. Qed.

Lemma get_paper_links_task_every_statement year :
  Pool.every_statement R (Pool.get_paper_links_task w year).
Proof.
  unfold Pool.get_paper_links_task.
  statement_step; [apply statement_logging_record|].
  apply every_statement_try_except.
  - statement_step; [apply statement_requests_get|].
    statement_step; [apply statement_raise_for_status|].
    statement_step; [apply statement_BeautifulSoup|].
    statement_step; [apply statement_logging_record|]. done.
  - statement_step; [apply statement_logging_record|]. done.
Qed.

Lemma fetch_metadata_task_every_statement paper_url :
  Pool.every_statement R (Pool.fetch_metadata_task w paper_url).
Proof.
  unfold Pool.fetch_metadata_task.
  apply every_statement_try_except.
  - statement_step; [apply statement_requests_get|].
    statement_step; [apply statement_raise_for_status|].
    statement_step; [apply statement_BeautifulSoup|]. done.
  - statement_step; [apply statement_logging_record|]. done.
Qed.

Hypothesis R_queue : forall st l, R st (queued l st).
Hypothesis R_files : forall st v, R st (set_files v st).


Lemma write_chunks_task_every_statement path cut chunks : forall i,
  Pool.every_statement R (Pool.write_chunks_task w path cut i chunks).
Proof.
  induction chunks as [|c rest IH]; intros i; cbn [Pool.write_chunks_task]; [done|].
  destruct (match cut with Some k => (k <=? i)%nat | None => false end); [done|].
  statement_step; [|apply IH].
  intros st. unfold Pool.write_chunk.
  destruct (match write_fails_at w path with Some j => (j =? i)%nat | None => false end);
    [apply R_refl|apply R_files].
Qed.

Lemma save_stream_task_every_statement path r :
  Pool.every_statement R (Pool.save_stream_task w path r).
Proof.
  unfold Pool.save_stream_task.
  statement_step; [|apply write_chunks_task_every_statement].
  intros st. unfold Pool.open_wb.
  destruct (open_fails w path); [apply R_refl|apply R_files].
Qed.

Lemma append_row_task_every_statement row :
  Pool.every_statement R (Pool.append_row_task w row).
Proof.
  unfold Pool.append_row_task. statement_step.
  { intros st. unfold Pool.open_append.
    destruct (open_fails w METADATA_FILE); [apply R_refl|apply R_files]. }
  statement_step; [apply statement_ret|].
  statement_step; [apply statement_ret|].
  apply every_statement_lift. intros st. apply R_files.
Qed.

Hypothesis R_ui : forall st c, R st (shown c st).
Hypothesis R_downloaded : forall st v, R st (set_downloaded_papers v st).


Hypothesis R_total : forall st v, R st (set_total_papers v st).
Hypothesis R_scraping : forall st v, R st (set_is_scraping v st).



End EveryStatement.





(** ** The pool: the counter never passes the total *)

Lemma same_counters_refl st : Pool.same_counters st st.
Proof. by split. Qed.

(** Code that leaves both counters alone. *)
Lemma counts_neutral {A} (p : Pool.thread A) :
  Pool.every_statement Pool.same_counters p ->
  forall credit bound, Pool.counts p credit bound.
Proof.
  induction p as [a|e|X m k IH]; cbn; [done|done|].
  intros Hp credit bound st b Hb Hd. destruct (Hp st) as [[Hdown Htotal] Hk].
  split; [exact Htotal|]. left. split; [by rewrite Hdown|]. by apply IH.
Qed.

Lemma counts_tbind_neutral {A B} (p : Pool.thread A) (f : A -> Pool.thread B)
    credit bound :
  Pool.every_statement Pool.same_counters p ->
  (forall a, Pool.counts (f a) credit bound) ->
  Pool.counts (Pool.tbind p f) credit bound.
Proof.
  intros Hp Hf. induction p as [a|e|X m k IH]; cbn; [by auto|done|].
  intros st b Hb Hd. destruct (Hp st) as [[Hdown Htotal] Hk].
  split; [exact Htotal|]. left. split; [by rewrite Hdown|]. by apply IH.
Qed.

Lemma counts_try_except {A} (p h : Pool.thread A) :
  (forall credit bound, Pool.counts h credit bound) ->
  forall credit bound,
    Pool.counts p credit bound -> Pool.counts (Pool.try_except p h) credit bound.
Proof.
  intros Hh. induction p as [a|e|X m k IH]; intros credit bound Hp.
  - done.
  - destruct e; cbn; [apply Hh|done|done].
  - cbn [Pool.try_except Pool.counts]. intros st b Hb Hd.
    destruct (Hp st b Hb Hd) as [Htotal [[Hdown Hk]|(Hc & Hdown & Hk)]].
    + split; [exact Htotal|]. left. split; [exact Hdown|]. by apply IH.
    + split; [exact Htotal|]. right. split; [exact Hc|]. split; [exact Hdown|].
      by apply IH.
Qed.

(** [downloaded_papers += 1], and what follows it. *)
Lemma counts_count_task {B} (f : unit -> Pool.thread B) bound :
  (forall bound', Pool.counts (f tt) 0 bound') ->
  Pool.counts (Pool.tbind Pool.count_task f) 1 bound.
Proof.
  intros Hf. unfold Pool.count_task. cbn. intros st b Hb Hd.
  split; [done|]. right. split; [done|]. split; [done|].
  intros st1 b1 Hb1 Hd1. split; [done|]. left. cbn. split; [lia|]. apply Hf.
Qed.

Ltac neutral_step :=
  apply counts_tbind_neutral; [apply every_statement_lift|intros ?].

Section Counter.

Variable w : world.

Lemma neutral_requests_get url : keeps Pool.same_counters (requests_get w url).
Proof.
  intros st. unfold requests_get.
  destruct (net w (length (sent st)) url) as [|r]; [done|]. by destruct (breaks r).
Qed.

Lemma neutral_requests_get_stream url :
  keeps Pool.same_counters (requests_get_stream w url).
Proof.
  intros st. unfold requests_get_stream.
  by destruct (net w (length (sent st)) url).
Qed.

Lemma neutral_raise_for_status r : keeps Pool.same_counters (raise_for_status r).
Proof. apply keeps_raise_for_status, same_counters_refl. Qed.

Lemma neutral_BeautifulSoup markup : keeps Pool.same_counters (BeautifulSoup w markup).
Proof. apply keeps_BeautifulSoup, same_counters_refl. Qed.

Lemma neutral_modify f :
  (forall st, downloaded_papers (f st) = downloaded_papers st) ->
  (forall st, total_papers (f st) = total_papers st) ->
  keeps Pool.same_counters (modify f).
Proof. intros Hd Ht st. split; [apply Hd|apply Ht]. Qed.

Lemma neutral_get {A} (f : state -> A) : keeps Pool.same_counters (get f).
Proof. intros st. apply same_counters_refl. Qed.

Lemma download_task_counts paper_url md :
  Pool.counts (Pool.download_task w paper_url md) 1 0.
Proof.
  unfold Pool.download_task.
  apply counts_try_except.
  { intros credit bound. apply counts_neutral, every_statement_lift.
    by apply neutral_modify. }
  neutral_step; [apply neutral_requests_get|].
  neutral_step; [apply neutral_raise_for_status|].
  neutral_step; [apply neutral_BeautifulSoup|].
  destruct (Soup.select_one (Soup.a_href_endswith ".pdf") _) as [pdf_link|].
  2: { apply counts_neutral, every_statement_lift. by apply neutral_modify. }
  neutral_step; [by apply neutral_modify|].
  neutral_step; [apply neutral_requests_get_stream|].
  apply counts_tbind_neutral; [|intros _].
  { by apply save_stream_task_every_statement. }
  neutral_step; [by apply neutral_modify|].
  apply counts_tbind_neutral; [|intros _].
  { by apply append_row_task_every_statement. }
  apply counts_count_task. intros bound'.
  neutral_step; [apply neutral_get|].
  neutral_step; [apply neutral_get|].
  neutral_step; [by apply neutral_modify|].
  apply counts_neutral, every_statement_lift. by apply neutral_modify.
Qed.

Lemma main_counts_in_main {X} (p : Pool.thread X) k n total :
  Pool.every_statement Pool.same_counters p ->
  (forall o, Pool.main_counts (k o) n total) ->
  Pool.main_counts (Pool.in_main p k) n total.
Proof.
  intros Hp Hk. induction p as [a|e|Y m k' IH]; cbn; [by auto|by auto|].
  intros st Hst. destruct (Hp st) as [[Hdown Htotal] Hq].
  split; [exact Hdown|]. exists n. rewrite Htotal, Hst.
  split; [lia|]. by apply IH.
Qed.

Lemma submit_loop_counts after :
  (forall n total, Pool.main_counts after n total) ->
  forall paper_links n total,
    (length paper_links <= n)%nat ->
    Pool.main_counts (Pool.submit_loop w paper_links after) n total.
Proof.
  intros Hafter.
  induction paper_links as [|paper_url rest IH]; intros n total Hlen;
    cbn [Pool.submit_loop].
  - cbn. intros done st Hst.
    assert (Hr : snd (results done st) = st).
    { clear. induction done as [|[[]|e] fs IH]; cbn; auto. }
    rewrite Hr, Hst. split; [done|]. exists n. split; [lia|].
    by destruct (fst (results done st)).
  - apply main_counts_in_main.
    { by apply fetch_metadata_task_every_statement. }
    intros [[md|]|e].
    + cbn [Pool.main_counts]. cbn in Hlen. destruct n as [|n']; [lia|].
      exists n'. split; [done|]. split; [apply download_task_counts|].
      apply IH. lia.
    + apply IH. cbn in Hlen. lia.
    + by cbn.
Qed.

Lemma scrape_years_thread_counts years : forall n total,
  Pool.main_counts (Pool.scrape_years_thread w years) n total.
Proof.
  induction years as [|year rest IH]; intros n total; cbn [Pool.scrape_years_thread].
  - cbn. intros st Hst. split; [done|]. exists n. split; [lia|].
    intros st1 Hst1. split; [done|]. exists n. split; [lia|done].
  - unfold Pool.scrape_year_thread. apply main_counts_in_main.
    { by apply get_paper_links_task_every_statement. }
    intros [paper_links|e]; [|by cbn].
    cbn [Pool.main_counts get fst snd]. intros st Hst.
    split; [done|]. exists n. split; [lia|].
    rewrite Hst. intros st1 Hst1. cbn [modify fst snd].
    split; [done|]. exists (length paper_links).
    change (total_papers (set_total_papers ?v st1)) with v.
    split; [lia|]. by apply submit_loop_counts.
Qed.

End Counter.

Lemma sum_fst_snoc (ys : list (nat * Z)) y :
  sum_list (map fst (ys ++ [y])) = (sum_list (map fst ys) + y.1)%nat.
Proof. induction ys as [|x ys IH]; cbn; [lia|]. cbn in IH. rewrite IH. lia. Qed.

Lemma sum_fst_insert (ys : list (nat * Z)) : forall i y y',
  ys !! i = Some y ->
  (sum_list (map fst (<[i := y']> ys)) + y.1 = sum_list (map fst ys) + y'.1)%nat.
Proof.
  induction ys as [|x ys IH]; intros [|i] y y' Hi; try discriminate.
  - cbn in Hi. injection Hi as ->. cbn. lia.
  - cbn in Hi. change (<[S i := y']> (x :: ys)) with (x :: <[i := y']> ys).
    cbn. specialize (IH i y y' Hi). cbn in IH. lia.
Qed.

Lemma counter_invariant_step c c' :
  Pool.counter_invariant c -> Pool.step c c' -> Pool.counter_invariant c'.
Proof.
  intros (reads & n & ys & Hdown & Hpool & Hmain & Hsum) Hstep.
  destruct Hstep as [X m k c Hs|task k c Hs|k c Hs Hfin|i p c Hi Hfirst Hroom
                    |i X m k c Hi|i a c Hi|i e c Hi|line rest c Hpoll Hq];
    unfold Pool.counter_invariant;
    cbn [Pool.shared Pool.scraper Pool.pool Pool.completed].
  - rewrite Hs in Hmain. cbn [Pool.main_counts] in Hmain.
    destruct (Hmain (Pool.shared c) eq_refl) as (Hd & n' & Hn & Hk).
    exists reads, n', ys. rewrite Hd. split; [exact Hdown|]. split; [exact Hpool|].
    split; [exact Hk|]. lia.
  - rewrite Hs in Hmain. destruct Hmain as (n' & -> & Htask & Hk).
    exists reads, n', (ys ++ [(1%nat, 0)]). split; [exact Hdown|].
    split.
    { apply Forall2_app; [exact Hpool|]. constructor; [|constructor].
      split; [exact Htask|cbn; lia]. }
    split; [exact Hk|]. rewrite sum_fst_snoc. cbn. lia.
  - rewrite Hs in Hmain. cbn [Pool.main_counts] in Hmain.
    exists reads, n, []. split; [exact Hdown|]. split; [constructor|].
    split; [apply Hmain|]. cbn. lia.
  - destruct (Forall2_lookup_l _ _ _ _ _ Hpool Hi) as (y & Hy & Hcall).
    exists reads, n, ys. split; [exact Hdown|]. split; [|by split].
    rewrite <- (list_insert_id ys i y Hy). by apply Forall2_insert.
  - destruct (Forall2_lookup_l _ _ _ _ _ Hpool Hi) as ([credit bound] & Hy & Hcall & Hb).
    cbn [Pool.call_counts Pool.counts fst snd] in Hcall, Hb.
    destruct (Hcall (Pool.shared c) reads Hb Hdown)
      as [Htotal [[Hd Hk]|(Hc & Hd & Hk)]]; rewrite Htotal.
    + exists reads, n, ys. split; [exact Hd|]. split; [|by split].
      rewrite <- (list_insert_id ys i _ Hy). by apply Forall2_insert.
    + subst credit. exists (reads + 1), n, (<[i := (0%nat, reads + 1)]> ys).
      rewrite Hd. split; [lia|]. split.
      { apply Forall2_insert; [|split; [exact Hk|cbn; lia]].
        eapply Forall2_impl; [exact Hpool|]. intros call y [H1 H2]. split; [exact H1|lia]. }
      split; [exact Hmain|].
      pose proof (sum_fst_insert ys i _ (0%nat, reads + 1) Hy) as Hs. cbn in Hs. lia.
  - destruct (Forall2_lookup_l _ _ _ _ _ Hpool Hi) as (y & Hy & Hcall & Hb).
    exists reads, n, ys. split; [exact Hdown|]. split; [|by split].
    rewrite <- (list_insert_id ys i y Hy). by apply Forall2_insert.
  - destruct (Forall2_lookup_l _ _ _ _ _ Hpool Hi) as (y & Hy & Hcall & Hb).
    exists reads, n, ys. split; [exact Hdown|]. split; [|by split].
    rewrite <- (list_insert_id ys i y Hy). by apply Forall2_insert.
  - exists reads, n, ys. cbn [downloaded_papers total_papers set_log_queue]. auto.
Qed.

Lemma counter_invariant_run c c' :
  Pool.counter_invariant c -> rtc Pool.step c c' -> Pool.counter_invariant c'.
Proof.
  intros Hinv Hrun. induction Hrun as [|c c1 c2 Hstep _ IH]; [exact Hinv|].
  apply IH. by apply (counter_invariant_step c c1).
Qed.

(** A press of the start button that starts the thread has zeroed both
    counters. *)
Lemma start_scraping_zeroes w s e st a b st0 :
  start_scraping w s e st = (Ret (Some (a, b)), st0) ->
  downloaded_papers st0 = 0 /\ total_papers st0 = 0.
Proof.
  unfold start_scraping. rewrite bind_modify.
  destruct (range_invalid s e); [discriminate|].
  unfold init_metadata_file. rewrite bind_assoc, bind_get.
  cbn [files set_downloaded_papers].
  destruct (bool_decide (is_Some (files st !! METADATA_FILE))).
  - intros H. by injection H as <- <- <-.
  - destruct (open_fails w METADATA_FILE); [discriminate|].
    intros H. by injection H as <- <- <-.
Qed.

(** X4. At every moment of every run of a batch, whatever the world and
    whatever the order in which the statements of the scraping thread, of
    the workers and of the poll follow each other: [downloaded_papers] lies
    between 0 and [total_papers], so the progress shown never passes 100%.
    The workers add 1 to the counter with no lock ([downloaded_papers += 1]
    reads the global and then stores the sum), so an addition can be lost
    and the counter can fall short of the rows written; it can never run
    ahead of the papers discovered. *)
Theorem batch_progress_is_bounded w s e st a b st0 c :
  start_scraping w s e st = (Ret (Some (a, b)), st0) ->
  rtc Pool.step (Pool.started w a b st0) c ->
  0 <= downloaded_papers (Pool.shared c) <= total_papers (Pool.shared c).
Proof.
  intros Hstart Hrun.
  destruct (start_scraping_zeroes _ _ _ _ _ _ _ Hstart) as [Hd Ht].
  assert (Hinit : Pool.counter_invariant (Pool.started w a b st0)).
  { exists 0, 0%nat, [].
    cbn [Pool.started Pool.shared Pool.scraper Pool.pool Pool.completed].
    rewrite Hd, Ht. split; [lia|]. split; [constructor|].
    split; [apply scrape_years_thread_counts|]. cbn. lia. }
  destruct (counter_invariant_run _ _ Hinit Hrun)
    as (reads & n & ys & Hdown & _ & _ & Hsum).
  lia.
Qed.

Lemma batch_progress_is_bounded_witness :
  let st0 := snd (start_scraping Sample.good_world 2020 2021 Sample.fresh) in
  start_scraping Sample.good_world 2020 2021 Sample.fresh = (Ret (Some (2020, 2021)), st0) /\
  exists c,
    rtc Pool.step (Pool.started Sample.good_world 2020 2021 st0) c /\
    Pool.ended c /\
    0 <= downloaded_papers (Pool.shared c) <= total_papers (Pool.shared c).
Proof.
  cbv zeta.
  set (st0 := snd (start_scraping Sample.good_world 2020 2021 Sample.fresh)).
  assert (Hs0 : start_scraping Sample.good_world 2020 2021 Sample.fresh
                = (Ret (Some (2020, 2021)), st0)) by (vm_compute; reflexivity).
  split; [exact Hs0|].
  destruct (serial_run Sample.good_world 2020 2021 st0) as (c & Hrun & Hend & _).
  exists c. split; [exact Hrun|]. split; [exact Hend|].
  exact (batch_progress_is_bounded Sample.good_world 2020 2021 Sample.fresh
           2020 2021 st0 c Hs0 Hrun).
Defined.
